(** * BorgorTube: the playback session manager of [main.py]

    A shallow embedding of the parts of [main.py] that resolve a video
    reference, pick a quality bucket, drive the external [mpv] process and
    write the cookie file, with the properties of the specification proved
    (or refuted) over it.

    Conventions of the embedding:
    - a Python [dict] read with [.get] is a record of [option] fields
      ([None]: the key is absent, or holds [None]);
    - the module-level caches are [gmap]s from stdpp, [bucket_avail] is a
      [gset];
    - a Python [float] is a binary64 [PrimFloat.float];
    - a call that may raise returns [Exn + A]; [try]/[except Exception] is
      a [match] on that sum;
    - the object [self] is the record [Client]; the module globals and the
      operating system are the record [World];
    - library and operating-system calls ([yt_dlp], [json.loads], the
      socket, the browser, float formatting) are the fields of the record
      [Env], over which every operation is defined; the calls made are
      recorded in the [history] of the world. *)

From Stdlib Require Import ZArith Ascii String List PrimFloat.
From stdpp Require Import base option list gmap sets strings pretty.

Set Default Proof Using "Type".

(** The offsets of the examples ([17.3]) are read as the nearest binary64
    value, as Python reads them. *)
Set Warnings "-inexact-float".

Open Scope string_scope.
Open Scope Z_scope.

(** ** Exceptions *)

(** A raised [Exception], by its message. *)
Definition Exn : Type := string.

(** The outcome of a call that may raise. *)
Definition Result (A : Type) : Type := (Exn + A)%type.

Definition raise {A} (e : Exn) : Result A := inl e.
Definition ok {A} (a : A) : Result A := inr a.

Definition rbind {A B} (r : Result A) (k : A → Result B) : Result B :=
  match r with
  | inl e => inl e
  | inr a => k a
  end.

Notation "x ←! r ; k" := (rbind r (λ x, k))
  (at level 100, r at next level, right associativity, only parsing).

(** Python truthiness of a string and of an optional string. *)
Definition str_truthy (s : string) : bool :=
  match s with EmptyString => false | _ => true end.

Definition opt_truthy (o : option string) : bool :=
  match o with Some s => str_truthy s | None => false end.

(** ** Format mapping and quality buckets *)

(** [FORMAT_MAPPING], in the insertion order of the dict literal. *)
Definition FORMAT_MAPPING : list (string * string) :=
  [ ("2k",      "bestvideo[height>=1440]+bestaudio/best");
    ("1080p60", "bestvideo[height>=1080][fps>=60]+bestaudio/best");
    ("1080p",   "bestvideo[height>=1080]+bestaudio/best");
    ("720p60",  "bestvideo[height>=720][fps>=60]+bestaudio/best");
    ("720p",    "bestvideo[height>=720][height<1080]+bestaudio/best");
    ("360p",    "bestvideo[height>=360][height<720]+bestaudio/best");
    ("240p",    "bestvideo[height>=240][height<360]+bestaudio/best");
    ("144p",    "bestvideo[height>=144][height<240]+bestaudio/best") ].

(** [ALL_QUALITIES = list(FORMAT_MAPPING.keys())]. *)
Definition ALL_QUALITIES : list string := FORMAT_MAPPING.*1.

(** [FORMAT_MAPPING.get(quality_label, default)]. *)
Fixpoint dict_get (d : list (string * string)) (k : string) (default : string) : string :=
  match d with
  | [] => default
  | (k', v) :: d' => if decide (k' = k) then v else dict_get d' k default
  end.

Definition LOG_FILE : string := "mpvlog.txt".

(** One entry of [info["formats"]]. *)
Record Format := mkFormat {
  f_height : option Z;
  f_fps    : option Z;
  f_acodec : option string;
  f_vcodec : option string;
  f_url    : string
}.

(** The dict returned by [ydl.extract_info] for a video: the keys the
    program reads, and the names of the keys it does not. *)
Record Info := mkInfo {
  i_formats      : option (list Format);
  i_original_url : option string;
  i_webpage_url  : option string;
  i_uploader     : option string;
  i_uploader_url : option string;
  i_title        : option string;
  i_description  : option string;
  i_other_keys   : list string
}.

(** [x or 0] on an optional number. *)
Definition or_zero (o : option Z) : Z :=
  match o with
  | Some x => if x =? 0 then 0 else x
  | None => 0
  end.

(** [if c: bucket_avail.add(q)]. *)
Definition add_if (c : bool) (q : string) (bucket_avail : gset string) : gset string :=
  if c then {[ q ]} ∪ bucket_avail else bucket_avail.

(** The body of the loop over [formats] in [available_buckets]. *)
Definition bucket_step (bucket_avail : gset string) (f : Format) : gset string :=
  let h := or_zero (f_height f) in
  let fps := or_zero (f_fps f) in
  let b := add_if (1440 <=? h) "2k" bucket_avail in
  let b := add_if ((1080 <=? h) && (60 <=? fps)) "1080p60" b in
  let b := add_if (1080 <=? h) "1080p" b in
  let b := add_if ((720 <=? h) && (60 <=? fps)) "720p60" b in
  let b := add_if ((720 <=? h) && (h <? 1080)) "720p" b in
  let b := add_if ((360 <=? h) && (h <? 720)) "360p" b in
  let b := add_if ((240 <=? h) && (h <? 360)) "240p" b in
  add_if ((144 <=? h) && (h <? 240)) "144p" b.

Definition available_buckets (info : Info) : list string :=
  let formats := default [] (i_formats info) in
  let bucket_avail := foldl bucket_step ∅ formats in
  let result := filter (λ q, q ∈ bucket_avail) ALL_QUALITIES in
  match result with
  | [] => ["360p"]
  | _ => result
  end.

(** The membership predicate of a tier over a height [h] and a frame rate
    [f], as tabulated in section 4.1 of the specification; a label outside
    the enumeration has the empty predicate. *)
Definition tier_predicate (q : string) (h f : Z) : bool :=
  if decide (q = "2k") then 1440 <=? h
  else if decide (q = "1080p60") then (1080 <=? h) && (60 <=? f)
  else if decide (q = "1080p") then 1080 <=? h
  else if decide (q = "720p60") then (720 <=? h) && (60 <=? f)
  else if decide (q = "720p") then (720 <=? h) && (h <? 1080)
  else if decide (q = "360p") then (360 <=? h) && (h <? 720)
  else if decide (q = "240p") then (240 <=? h) && (h <? 360)
  else if decide (q = "144p") then (144 <=? h) && (h <? 240)
  else false.

(** A variant satisfies a tier: the predicate holds of its height and frame
    rate, an unknown one counting as 0. *)
Definition satisfies (q : string) (f : Format) : Prop :=
  tier_predicate q (or_zero (f_height f)) (or_zero (f_fps f)) = true.

(** No variant of the list satisfies any tier of the enumeration. *)
Definition no_tier_satisfied (formats : list Format) : Prop :=
  ∀ q f, q ∈ ALL_QUALITIES → f ∈ formats → ¬ satisfies q f.

(** A video with the given variants and nothing else. *)
Definition info_of_formats (formats : list Format) : Info :=
  mkInfo (Some formats) None None None None None None [].

(** A variant known by height and frame rate only. *)
Definition variant (h fps : Z) : Format :=
  mkFormat (Some h) (Some fps) None None "".

(** ** Values exchanged with the libraries *)

(** Python [bytes]. *)
Definition bytes : Type := list Byte.byte.

(** A value produced by [json.loads]. A dict is kept as the list of its
    items, whose keys are distinct. *)
Inductive PyVal :=
  | PyNone
  | PyBool (b : bool)
  | PyInt (z : Z)
  | PyFloat (x : float)
  | PyStr (s : string)
  | PyList (l : list PyVal)
  | PyDict (d : list (string * PyVal)).

(** [d[k]] on the items of a dict, [None] when the key is absent. *)
Fixpoint items_lookup (d : list (string * PyVal)) (k : string) : option PyVal :=
  match d with
  | [] => None
  | (k', v) :: d' => if decide (k' = k) then Some v else items_lookup d' k
  end.

(** [s.startswith(p)]. *)
Fixpoint is_prefix (p s : string) : bool :=
  match p, s with
  | EmptyString, _ => true
  | String a p', String b s' => if Ascii.eqb a b then is_prefix p' s' else false
  | String _ _, EmptyString => false
  end.

(** [needle in s] on strings. *)
Fixpoint str_contains (needle s : string) : bool :=
  is_prefix needle s ||
  match s with
  | EmptyString => false
  | String _ s' => str_contains needle s'
  end.

Definition is_str (k : string) (v : PyVal) : bool :=
  match v with
  | PyStr s => bool_decide (s = k)
  | _ => false
  end.

(** [sep.join(l)]. *)
Fixpoint str_join (sep : string) (l : list string) : string :=
  match l with
  | [] => ""
  | [s] => s
  | s :: l' => s +:+ sep +:+ str_join sep l'
  end.

(** [b"\n" in chunk]. *)
Definition has_newline (chunk : bytes) : bool :=
  existsb (Byte.eqb Byte.x0a) chunk.

(** The double quote, the tab and the newline, as strings. *)
Definition dq : string := String "034"%char "".
Definition tab : string := String "009"%char "".
Definition nl : string := String "010"%char "".

(** [json.dumps({"command": ["get_property", "time-pos"]}) + "\n"]. *)
Definition time_pos_request : string :=
  "{" +:+ dq +:+ "command" +:+ dq +:+ ": [" +:+ dq +:+ "get_property" +:+ dq +:+
  ", " +:+ dq +:+ "time-pos" +:+ dq +:+ "]}" +:+ nl.

(** The peer of a connected socket: what [sendall] does with a request,
    and, if it succeeds, the outcomes of the successive [recv] calls; after
    the last one the peer has closed and [recv] returns [b""]. *)
Definition Peer : Type := bytes → Result (list (Result bytes)).

(** The receive loop of [get_current_playback_time]: stop at an empty
    chunk, or after the first chunk that holds a newline. *)
Fixpoint recv_loop (incoming : list (Result bytes)) (response : bytes) : Result bytes :=
  match incoming with
  | [] => ok response
  | inl e :: _ => raise e
  | inr [] :: _ => ok response
  | inr chunk :: rest =>
      let response := (response ++ chunk)%list in
      if has_newline chunk then ok response else recv_loop rest response
  end.

(** A number as the browser reports it: an [int] or a [float]. *)
Inductive PyNum :=
  | NInt (z : Z)
  | NFloat (x : float).

(** One cookie of [page.cookies()]. *)
Record Cookie := mkCookie {
  c_domain  : option string;
  c_path    : option string;
  c_secure  : option bool;
  c_expires : option PyNum;
  c_name    : option string;
  c_value   : option string
}.

(** An entry of a flat channel listing, and its thumbnails. *)
Record Thumbnail := mkThumbnail { t_url : option string }.

Record Entry := mkEntry {
  e_url        : option string;
  e_title      : option string;
  e_thumbnails : option (list Thumbnail)
}.

(** The dict returned by [ydl.extract_info] for a channel. *)
Record ChannelData := mkChannelData { d_entries : option (list Entry) }.

(** A listed video: the dict with keys [title], [videoId], [thumbnail]. *)
Record Video := mkVideo {
  v_title     : string;
  v_videoId   : string;
  v_thumbnail : string
}.

(** ** The world outside the client *)

(** The calls the program makes to its collaborators. *)
Inductive Call :=
  | CallExtract (url : string) (cookies : option string)
  | CallExtractFlat (url : string)
  | CallPathExists (path : string)
  | CallBrowser (url : string)
  | CallSystem (command : string)
  | CallStart (program : string) (arguments : list string).

(** The module-level caches, the files of the working directory (name to
    text), and the calls made so far, oldest first. *)
Record World := mkWorld {
  extraction_cache     : gmap (string * option string) Info;
  channel_videos_cache : gmap (string * Z) (list Video);
  files                : gmap string string;
  history              : list Call
}.

Definition log (c : Call) (w : World) : World :=
  mkWorld (extraction_cache w) (channel_videos_cache w) (files w) (history w ++ [c]).

Definition set_extraction_cache (m : gmap (string * option string) Info) (w : World) : World :=
  mkWorld m (channel_videos_cache w) (files w) (history w).

Definition set_channel_videos_cache (m : gmap (string * Z) (list Video)) (w : World) : World :=
  mkWorld (extraction_cache w) m (files w) (history w).

Definition set_files (m : gmap string string) (w : World) : World :=
  mkWorld (extraction_cache w) (channel_videos_cache w) m (history w).

(** The calls made from the world [w] to the world [w']. *)
Definition new_calls (w w' : World) : list Call :=
  drop (length (history w)) (history w').

(** A world with empty caches, no file and no call made. *)
Definition empty_world : World := mkWorld ∅ ∅ ∅ [].

(** ** The client object *)

(** A started [QProcess]. *)
Record Process := mkProcess {
  program   : string;
  arguments : list string
}.

(** The attributes of [ModernYouTubeClient] that the playback operations
    read and write. [combo_items] and [combo_index] are the items and the
    current index of [quality_combo] (-1: no current item), [sync_timer]
    is the interval of the timer when it runs, [stacked_index] the page
    shown, [win_id] the window handle of the embedded player area. *)
Record Client := mkClient {
  current_info        : option Info;
  current_video_url   : option string;
  qualities_available : list string;
  player_process      : option Process;
  is_detached         : bool;
  video_process       : option Process;
  audio_process       : option Process;
  channel_avatar_url  : option string;
  channel_name        : option string;
  channel_url         : option string;
  video_title         : option string;
  video_description   : option string;
  sync_timer          : option Z;
  combo_items         : list string;
  combo_index         : Z;
  console_output      : list string;
  stacked_index       : Z;
  win_id              : Z
}.

(** The client after [__init__] and [build_ui]. *)
Definition init_client (wid : Z) : Client :=
  mkClient None None [] None false None None None None None None None None
           ["360p"] 0 [] 0 wid.

(** [self.console_output.append(msg)]. *)
Definition console_append (msg : string) (c : Client) : Client :=
  mkClient (current_info c) (current_video_url c) (qualities_available c)
    (player_process c) (is_detached c) (video_process c) (audio_process c)
    (channel_avatar_url c) (channel_name c) (channel_url c) (video_title c)
    (video_description c) (sync_timer c) (combo_items c) (combo_index c)
    (console_output c ++ [msg]) (stacked_index c) (win_id c).

Definition set_player_process (p : option Process) (c : Client) : Client :=
  mkClient (current_info c) (current_video_url c) (qualities_available c)
    p (is_detached c) (video_process c) (audio_process c)
    (channel_avatar_url c) (channel_name c) (channel_url c) (video_title c)
    (video_description c) (sync_timer c) (combo_items c) (combo_index c)
    (console_output c) (stacked_index c) (win_id c).

(** The assignments of [watch_separate_streams] on success. *)
Definition set_separate (v a : Process) (msec : Z) (c : Client) : Client :=
  mkClient (current_info c) (current_video_url c) (qualities_available c)
    (player_process c) (is_detached c) (Some v) (Some a)
    (channel_avatar_url c) (channel_name c) (channel_url c) (video_title c)
    (video_description c) (Some msec) (combo_items c) (combo_index c)
    (console_output c) (stacked_index c) (win_id c).

Definition set_combo (items : list string) (index : Z) (c : Client) : Client :=
  mkClient (current_info c) (current_video_url c) (qualities_available c)
    (player_process c) (is_detached c) (video_process c) (audio_process c)
    (channel_avatar_url c) (channel_name c) (channel_url c) (video_title c)
    (video_description c) (sync_timer c) items index
    (console_output c) (stacked_index c) (win_id c).

Definition set_stacked_index (i : Z) (c : Client) : Client :=
  mkClient (current_info c) (current_video_url c) (qualities_available c)
    (player_process c) (is_detached c) (video_process c) (audio_process c)
    (channel_avatar_url c) (channel_name c) (channel_url c) (video_title c)
    (video_description c) (sync_timer c) (combo_items c) (combo_index c)
    (console_output c) i (win_id c).

Definition set_qualities_available (qs : list string) (c : Client) : Client :=
  mkClient (current_info c) (current_video_url c) qs
    (player_process c) (is_detached c) (video_process c) (audio_process c)
    (channel_avatar_url c) (channel_name c) (channel_url c) (video_title c)
    (video_description c) (sync_timer c) (combo_items c) (combo_index c)
    (console_output c) (stacked_index c) (win_id c).

(** The assignments of [on_extraction_done] from the extracted [info]. *)
Definition set_video (info : Info) (video_url : option string)
    (name url avatar title description : option string) (c : Client) : Client :=
  mkClient (Some info) video_url (qualities_available c)
    (player_process c) (is_detached c) (video_process c) (audio_process c)
    avatar name url title description
    (sync_timer c) (combo_items c) (combo_index c)
    (console_output c) (stacked_index c) (win_id c).

(** [self.quality_combo.currentText()]: the current item, [""] without one. *)
Definition combo_currentText (c : Client) : string :=
  if combo_index c <? 0 then ""
  else default "" (combo_items c !! Z.to_nat (combo_index c)).

(** [key in d], for a key kept as an [option] field. *)
Definition has_key {A} (o : option A) : bool :=
  match o with Some _ => true | None => false end.

(** Truthiness of an [info] dict: it has a key. *)
Definition info_truthy (info : Info) : bool :=
  has_key (i_formats info) || has_key (i_original_url info) ||
  has_key (i_webpage_url info) || has_key (i_uploader info) ||
  has_key (i_uploader_url info) || has_key (i_title info) ||
  has_key (i_description info) ||
  match i_other_keys info with [] => false | _ => true end.

(** ** Notions used in the statements *)

(** A variant without audio codec, and one without video codec. *)
Definition is_video_only (f : Format) : Prop := f_acodec f = Some "none".
Definition is_audio_only (f : Format) : Prop := f_vcodec f = Some "none".

(** [f] is the first element of [l] with the property [P]. *)
Definition first_such {A} (P : A → Prop) (f : A) (l : list A) : Prop :=
  ∃ l1 l2, l = (l1 ++ f :: l2)%list ∧ P f ∧ ∀ g, g ∈ l1 → ¬ P g.

(** An [mpv] command line holds a start-offset option: one of its
    arguments before the last, which is the target, starts with
    [--start=]. *)
Definition has_start_option (args : list string) : bool :=
  existsb (is_prefix "--start=") (removelast args).

(** The attributes of the session, apart from the console and the page
    shown. *)
Definition session_fields (c : Client) :=
  (current_info c, current_video_url c, qualities_available c, player_process c,
   is_detached c, video_process c, audio_process c,
   (channel_avatar_url c, channel_name c, channel_url c, video_title c,
    video_description c, sync_timer c, combo_items c, combo_index c)).

(** Membership in a list given by its elements. *)
Ltac elem_of_list :=
  first [ apply list_elem_of_here | apply list_elem_of_further; elem_of_list ].

(** ** The layout of the cookie file *)

Definition is_digit (a : ascii) : bool :=
  ((48 <=? N_of_ascii a) && (N_of_ascii a <=? 57))%N.

Fixpoint all_digits (s : string) : bool :=
  match s with
  | EmptyString => true
  | String a s' => is_digit a && all_digits s'
  end.

(** One digit or more. *)
Definition is_digits (s : string) : bool :=
  match s with
  | EmptyString => false
  | String _ _ => all_digits s
  end.

(** A decimal integer: digits, after an optional minus sign. *)
Definition is_decimal_integer (s : string) : bool :=
  match s with
  | EmptyString => false
  | String a s' => if Ascii.eqb a "-" then is_digits s' else is_digits s
  end.

(** [s.split(sep)] for a separator of one character. *)
Fixpoint split_on (sep : ascii) (s : string) : list string :=
  match s with
  | EmptyString => [""]
  | String a s' =>
      if Ascii.eqb a sep then "" :: split_on sep s'
      else match split_on sep s' with
           | piece :: pieces => String a piece :: pieces
           | [] => [String a ""]
           end
  end.

(** The character [sep] does not occur in [s]. *)
Fixpoint free_of (sep : ascii) (s : string) : bool :=
  match s with
  | EmptyString => true
  | String a s' => negb (Ascii.eqb a sep) && free_of sep s'
  end.

(** Modelled from the spec: the reader of the credential file, which the
    extraction backend owns and [main.py] does not hold. Following the
    layout of section 6 it skips empty lines and comment lines (those that
    start with [#]) and takes the domain, the name and the value from each
    line of seven tab-separated fields. *)
Definition read_cookie_line (line : string) : option (string * string * string) :=
  if is_prefix "#" line then None
  else match split_on "009" line with
       | [domain; _; _; _; _; name; value] => Some (domain, name, value)
       | _ => None
       end.

Definition read_cookie_file (text : string) : list (string * string * string) :=
  omap read_cookie_line (filter (λ line, line ≠ "") (split_on "010" text)).

(** The domain, name and value of a cookie, as written. *)
Definition cookie_triple (c : Cookie) : string * string * string :=
  (default "" (c_domain c), default "" (c_name c), default "" (c_value c)).

(** A string that holds neither a tab nor a newline. *)
Definition is_field (s : string) : bool := free_of "009" s && free_of "010" s.

(** A cookie that fits the layout: its strings hold no tab and no newline,
    its domain does not start with [#], and its expiry, when present, is an
    integer. *)
Definition cookie_fits (c : Cookie) : Prop :=
  is_field (default "" (c_domain c)) = true ∧
  is_prefix "#" (default "" (c_domain c)) = false ∧
  is_field (default "/" (c_path c)) = true ∧
  is_field (default "" (c_name c)) = true ∧
  is_field (default "" (c_value c)) = true ∧
  (∀ x, c_expires c ≠ Some (NFloat x)).

(** A cookie as the browser reports it, with a fractional expiry time. *)
Definition float_expiry_cookie : Cookie :=
  mkCookie (Some ".youtube.com") (Some "/") (Some true)
           (Some (NFloat 1700000000.5%float)) (Some "SID") (Some "abc").

(** ** More of the window *)

Definition set_is_detached (b : bool) (c : Client) : Client :=
  mkClient (current_info c) (current_video_url c) (qualities_available c)
    (player_process c) b (video_process c) (audio_process c)
    (channel_avatar_url c) (channel_name c) (channel_url c) (video_title c)
    (video_description c) (sync_timer c) (combo_items c) (combo_index c)
    (console_output c) (stacked_index c) (win_id c).

(** A widget of a result grid: the video it shows, its row and column. *)
Record Cell := mkCell {
  cell_video : Video;
  cell_row   : Z;
  cell_col   : Z
}.

(** The placement loop of [populate_home_grid] and [populate_channel_grid],
    with [max_cols = 4]. The thumbnail fetch that [create_video_thumb] starts
    for a widget is not part of a [Cell]. *)
Fixpoint grid_place (results : list Video) (row col : Z) (grid : list Cell) : list Cell :=
  match results with
  | [] => grid
  | vid :: rest =>
      let grid := (grid ++ [mkCell vid row col])%list in
      let col := col + 1 in
      if 4 <=? col then grid_place rest (row + 1) 0 grid
      else grid_place rest row col grid
  end.

(** [populate_home_grid(results)]: every widget of the grid is removed, then
    the results are placed. *)
Definition populate_grid (results : list Video) (grid : list Cell) : list Cell :=
  grid_place results 0 0 [].

(** The colours and the style sheet that [toggle_dark_mode] reads and sets;
    a [QColor] is its red, green and blue. *)
Record Palette := mkPalette {
  window        : Z * Z * Z;
  window_text   : Z * Z * Z;
  console_style : string
}.

Definition toggle_dark_mode (p : Palette) : Palette :=
  if decide (window p = (255, 255, 255))
  then mkPalette (53, 53, 53) (255, 255, 255) "background-color: #2c2c2c; color: white;"
  else mkPalette (255, 255, 255) (0, 0, 0) "background-color: white; color: black;".

(** The application around the client: the text of the search field, the
    grid of the home page, the module-level [search_cache], and the world. *)
Record Shell := mkShell {
  sh_client    : Client;
  search_field : string;
  home_grid    : list Cell;
  search_cache : gmap (string * Z) (list Video);
  sh_world     : World
}.

(** ** Notions used in the further statements *)

(** The options of a command line start with the embed target. *)
Definition has_wid_option (args : list string) : bool :=
  existsb (is_prefix "--wid=") (removelast args).

(** The command that [kill_mpv] runs on a platform, if it runs one. *)
Definition kill_command (os : string) : option string :=
  if decide (os = "Windows") then Some "taskkill /F /IM mpv.exe"
  else if decide (os = "Linux") then Some "pkill mpv"
  else if decide (os = "Darwin") then Some "pkill mpv"
  else None.

(** The caches and the files of a world. *)
Definition store (w : World) :=
  (extraction_cache w, channel_videos_cache w, files w).

(** An entry of a listing that carries a url. *)
Definition has_url (e : Entry) : Prop := opt_truthy (e_url e) = true.

#[global] Instance has_url_dec (e : Entry) : Decision (has_url e).
Proof. unfold has_url. apply _. Defined.

(** A client with another player handle and another console; a world with
    more calls made. *)
Definition with_player_console (p : option Process) (console : list string) (c : Client)
    : Client :=
  mkClient (current_info c) (current_video_url c) (qualities_available c)
    p (is_detached c) (video_process c) (audio_process c)
    (channel_avatar_url c) (channel_name c) (channel_url c) (video_title c)
    (video_description c) (sync_timer c) (combo_items c) (combo_index c)
    console (stacked_index c) (win_id c).

Definition add_calls (calls : list Call) (w : World) : World :=
  mkWorld (extraction_cache w) (channel_videos_cache w) (files w) (history w ++ calls).

(** The command lines of the processes started by a list of calls. *)
Definition starts (calls : list Call) : list (list string) :=
  omap (λ call, match call with CallStart _ arguments => Some arguments | _ => None end) calls.

(** The world [w'] holds what [w] holds: every cache entry and every file
    of [w] with the same content, no new file but [cookies.txt], and the
    calls of [w] followed by more. *)
Definition world_grows (w w' : World) : Prop :=
  extraction_cache w ⊆ extraction_cache w' ∧
  channel_videos_cache w ⊆ channel_videos_cache w' ∧
  files w ⊆ files w' ∧
  (∀ path, path ≠ "cookies.txt" → files w' !! path = files w !! path) ∧
  history w `prefix_of` history w'.

(** ** The collaborators *)

(** The collaborators of the program: the operating system, the
    extraction backend, the browser, the network, the player's socket and
    the Python library calls whose results the program only passes on. *)
Record Env := mkEnv {
  (** [platform.system()]. *)
  os_type : string;
  (** [ydl.extract_info(url, download=False)] under the options of
      [extract_formats] (the last argument is [opts["cookies"]], when set)
      and under those of [get_channel_videos]. *)
  ydl_extract_info : World → string → option string → Result Info;
  ydl_extract_flat : World → string → Result ChannelData;
  (** [asyncio.run(get_cookies_headless(video_url))]: the browser session. *)
  get_cookies_headless : World → string → Result (list Cookie);
  (** The [content] of the [og:image] meta tag of a fetched page. *)
  http_og_image : World → string → Result (option string);
  (** [socket.connect(ipc_path)]: the peer, or the error raised. *)
  sock_connect : World → string → Result Peer;
  (** [bytes.decode("utf-8")], [str.strip()], [json.loads]. *)
  decode_utf8 : bytes → Result string;
  str_strip : string → string;
  json_loads : string → Result PyVal;
  (** [float(n)] of an [int] (which may overflow) and of a [str]. *)
  float_of_int : Z → Result float;
  float_of_str : string → Result float;
  (** [str(x)] and [f"{x:.1f}"] of a [float]. *)
  repr_float : float → string;
  fmt_1f : float → string
}.

(** ** Test doubles and sample data *)

(** The variant list of the example of section 8. *)
Definition example_variants : list Format := [variant 1080 30; variant 720 60].

Definition sample_url : string := "https://www.youtube.com/watch?v=abc".
Definition sample_channel : string := "https://www.youtube.com/@uploader".

Definition video_only_format : Format :=
  mkFormat (Some 1080) (Some 30) (Some "none") (Some "avc1") "https://cdn.example/video".

Definition audio_only_format : Format :=
  mkFormat None None (Some "mp4a") (Some "none") "https://cdn.example/audio".

Definition combined_format : Format :=
  mkFormat (Some 720) (Some 60) (Some "mp4a") (Some "avc1") "https://cdn.example/both".

Definition sample_info : Info :=
  mkInfo (Some [combined_format; video_only_format; audio_only_format])
         (Some sample_url) (Some sample_url) (Some "Uploader") (Some sample_channel)
         (Some "Title") (Some "Description") ["id"].

(** A client that plays [sample_info] embedded, with 720p selected. *)
Definition playing_client : Client :=
  mkClient (Some sample_info) (Some sample_url) ["1080p"; "720p60"; "720p"]
           (Some (mkProcess "mpv" [])) false None None None
           (Some "Uploader") (Some sample_channel) (Some "Title") (Some "Description")
           None ["1080p"; "720p60"; "720p"] 2 [] 1 4242.

(** [str] and [f"{x:.1f}"] on the floats of the examples. *)
Definition fake_repr (x : float) : string :=
  if (x =? 17.3)%float then "17.3"
  else if (x =? 42.5)%float then "42.5"
  else if (x =? 1700000000.5)%float then "1700000000.5"
  else "0.0".

Definition fake_fmt (x : float) : string :=
  if (x =? 17.3)%float then "17.3"
  else if (x =? 42.5)%float then "42.5"
  else "0.0".

(** A backend that rejects anonymous extraction and accepts cookies. *)
Definition backend_wants_cookies (w : World) (url : string) (cookies : option string)
    : Result Info :=
  match cookies with
  | None => raise "Sign in to confirm you are not a bot"
  | Some _ => ok sample_info
  end.

(** A video backend and a browser that are out of reach. *)
Definition backend_down (w : World) (url : string) (cookies : option string)
    : Result Info :=
  raise "network is unreachable".

Definition browser_down (w : World) (url : string) : Result (list Cookie) :=
  raise "browser closed unexpectedly".

(** A channel backend that is out of reach. *)
Definition backend_flat_down (w : World) (url : string) : Result ChannelData :=
  raise "network is unreachable".

(** A cookie with an integer expiry time, and a session cookie. *)
Definition sid_cookie : Cookie :=
  mkCookie (Some ".youtube.com") (Some "/") (Some true) (Some (NInt 1700000000))
           (Some "SID") (Some "abc").

Definition session_cookie : Cookie :=
  mkCookie (Some "www.youtube.com") None None None (Some "PREF") (Some "f6=40000000").

(** A browser that comes back with one cookie. *)
Definition browser_one_cookie (w : World) (url : string) : Result (list Cookie) :=
  ok [sid_cookie].

(** A world whose working directory holds a cookie file. *)
Definition world_with_cookie_file : World :=
  mkWorld ∅ ∅ {[ "cookies.txt" := "# Netscape HTTP Cookie File" +:+ nl ]} [].

(** The text of a response that holds the offset [x] as printed in [s]. *)
Definition data_response (s : string) : string :=
  "{" +:+ dq +:+ "data" +:+ dq +:+ ": " +:+ s +:+ "}".

(** A player that answers the request with the given line. *)
Definition peer_answers (line : string) : Peer :=
  λ request, ok [inr (list_byte_of_string (line +:+ nl))].

Definition sock_answers (line : string) (w : World) (ipc_path : string) : Result Peer :=
  ok (peer_answers line).

(** No player listens. *)
Definition sock_refused (w : World) (ipc_path : string) : Result Peer :=
  raise "ConnectionRefusedError".

Definition fake_decode (b : bytes) : Result string := ok (string_of_list_byte b).

(** Drops the newline that ends a line. *)
Fixpoint fake_strip (s : string) : string :=
  match s with
  | EmptyString => ""
  | String a s' => if Ascii.eqb a "010" && bool_decide (s' = "") then "" else String a (fake_strip s')
  end.

(** [json.loads] on the two responses of the examples. *)
Definition fake_json_loads (s : string) : Result PyVal :=
  if decide (s = data_response "42.5") then ok (PyDict [("data", PyFloat 42.5)])
  else if decide (s = data_response "17.3") then ok (PyDict [("data", PyFloat 17.3)])
  else raise "JSONDecodeError".

Definition fake_float_of_int (z : Z) : Result float := raise "OverflowError".
Definition fake_float_of_str (s : string) : Result float := raise "ValueError".

(** The collaborators of the examples: a Linux host, a video backend that
    wants cookies, a channel backend out of reach, a browser that returns
    one cookie, and a player that answers the offset query with [line]
    (or no player at all). *)
Definition test_env (sock : World → string → Result Peer) : Env :=
  mkEnv "Linux" backend_wants_cookies backend_flat_down browser_one_cookie
        (λ _ _, ok None) sock fake_decode fake_strip fake_json_loads
        fake_float_of_int fake_float_of_str fake_repr fake_fmt.

Definition env_answers (line : string) : Env := test_env (sock_answers line).
Definition env_no_player : Env := test_env sock_refused.

(** The same host with nothing in reach. *)
Definition env_offline : Env :=
  mkEnv "Linux" backend_down backend_flat_down browser_down
        (λ _ _, raise "network is unreachable") sock_refused fake_decode fake_strip
        fake_json_loads fake_float_of_int fake_float_of_str fake_repr fake_fmt.

(** The entries of a listing: a video with two thumbnails, a playlist
    without url, a video without title and thumbnail, a video whose
    thumbnail has no url, and one more video. *)
Definition listed_entries : list Entry :=
  [ mkEntry (Some "https://www.youtube.com/watch?v=v1") (Some "First")
            (Some [ mkThumbnail (Some "https://i.example/v1-small.jpg");
                    mkThumbnail (Some "https://i.example/v1.jpg") ]);
    mkEntry None (Some "A playlist") None;
    mkEntry (Some "https://www.youtube.com/watch?v=v2") None None;
    mkEntry (Some "https://www.youtube.com/watch?v=v3") (Some "Third")
            (Some [mkThumbnail None]);
    mkEntry (Some "https://www.youtube.com/watch?v=v4") (Some "Fourth") None ].

(** The entries of a search: the first three of the listing. *)
Definition searched_entries : list Entry := take 3 listed_entries.

(** A channel backend that lists [searched_entries] for the search for
    cats and [listed_entries] for every other expression. *)
Definition backend_flat_lists (w : World) (url : string) : Result ChannelData :=
  if decide (url = "ytsearch20:cats") then ok (mkChannelData (Some searched_entries))
  else ok (mkChannelData (Some listed_entries)).

Definition env_listing : Env :=
  mkEnv "Linux" backend_wants_cookies backend_flat_lists browser_one_cookie
        (λ _ _, ok None) sock_refused fake_decode fake_strip fake_json_loads
        fake_float_of_int fake_float_of_str fake_repr fake_fmt.

(** An info without [original_url] and [webpage_url]. *)
Definition info_without_url : Info :=
  mkInfo (Some [combined_format]) None None (Some "Uploader") None (Some "Title") None [].

(** A video whose only video-only variant has an empty url, and a client
    that plays it. *)
Definition video_only_without_url : Format :=
  mkFormat (Some 1080) (Some 30) (Some "none") (Some "avc1") "".

Definition info_empty_url : Info :=
  mkInfo (Some [video_only_without_url; audio_only_format])
         (Some sample_url) (Some sample_url) (Some "Uploader") (Some sample_channel)
         (Some "Title") (Some "Description") ["id"].

Definition client_empty_url : Client :=
  mkClient (Some info_empty_url) (Some sample_url) ["1080p"; "720p"]
           (Some (mkProcess "mpv" [])) false None None None
           (Some "Uploader") (Some sample_channel) (Some "Title") (Some "Description")
           None ["1080p"; "720p"] 0 [] 1 4242.

Section Program.

Variable env : Env.

(** *** [get_current_playback_time] *)

(** [float(v)]. *)
Definition py_float (v : PyVal) : Result float :=
  match v with
  | PyFloat x => ok x
  | PyInt z => float_of_int env z
  | PyBool b => ok (if b then 1%float else 0%float)
  | PyStr s => float_of_str env s
  | PyNone | PyList _ | PyDict _ => raise "TypeError: float() argument"
  end.

(** [if "data" in data: return float(data["data"])]: [Some] of the value
    returned, [None] when the [if] is not taken. *)
Definition read_data (data : PyVal) : Result (option float) :=
  match data with
  | PyDict d =>
      match items_lookup d "data" with
      | Some v => x ←! py_float v; ok (Some x)
      | None => ok None
      end
  | PyStr s =>
      if str_contains "data" s then raise "TypeError: string indices must be integers"
      else ok None
  | PyList l =>
      if existsb (is_str "data") l then raise "TypeError: list indices must be integers"
      else ok None
  | PyNone | PyBool _ | PyInt _ | PyFloat _ => raise "TypeError: not iterable"
  end.

(** The response the peer of [ipc_path] delivers to the request. *)
Definition response_of (w : World) (ipc_path : string) : Result bytes :=
  peer ←! sock_connect env w ipc_path;
  incoming ←! peer (list_byte_of_string time_pos_request);
  recv_loop incoming [].

(** [json.loads(response.decode("utf-8").strip())]. *)
Definition parsed_response (w : World) (ipc_path : string) : Result PyVal :=
  response ←! response_of w ipc_path;
  text ←! decode_utf8 env response;
  json_loads env (str_strip env text).

(** The body of the [try] block. *)
Definition playback_time_try (w : World) (ipc_path : string) : Result (option float) :=
  data ←! parsed_response w ipc_path;
  read_data data.

(** [get_current_playback_time]: the value read, and [0.0] when the
    block raised or fell through. *)
Definition get_current_playback_time (w : World) (ipc_path : string) : float :=
  match playback_time_try w ipc_path with
  | inr (Some x) => x
  | inr None => 0%float
  | inl _ => 0%float
  end.

(** *** [scrape_channel_avatar] *)

Definition scrape_channel_avatar (w : World) (channel_url : string) : option string :=
  if negb (str_truthy channel_url) then None
  else match http_og_image env w channel_url with
       | inr (Some content) => if str_truthy content then Some content else None
       | inr None => None
       | inl _ => None
       end.

(** *** [get_channel_videos] *)

(** The dict appended to [results] for an entry with a url. A last
    thumbnail without ["url"] raises [KeyError('url')], whose [str] is the
    key as [repr] prints it: ['url']. *)
Definition entry_video (entry : Entry) : Result Video :=
  thumb ←! match e_thumbnails entry with
           | Some (t :: ts) =>
               match t_url (List.last ts t) with
               | Some u => ok u
               | None => raise "'url'"
               end
           | Some [] | None => ok ""
           end;
  ok (mkVideo (default "Unknown" (e_title entry)) (default "" (e_url entry)) thumb).

(** The loop over [entries]: the results collected, and the exception that
    ended the loop, if one did. *)
Fixpoint collect_entries (entries : list Entry) (max_results count : Z)
    (results : list Video) : list Video * option Exn :=
  match entries with
  | [] => (results, None)
  | entry :: rest =>
      if opt_truthy (e_url entry) then
        match entry_video entry with
        | inl e => (results, Some e)
        | inr v =>
            let results := (results ++ [v])%list in
            let count := count + 1 in
            if max_results <=? count then (results, None)
            else collect_entries rest max_results count results
        end
      else collect_entries rest max_results count results
  end.

Definition get_channel_videos (channel_url : string) (max_results : Z) (w : World)
    : list Video * World :=
  if negb (str_truthy channel_url) then ([], w)
  else
    let cache_key := (channel_url, max_results) in
    match channel_videos_cache w !! cache_key with
    | Some cached => (cached, w)
    | None =>
        let results :=
          match ydl_extract_flat env w channel_url with
          | inl _ => []
          | inr data => (collect_entries (default [] (d_entries data)) max_results 0 []).1
          end in
        let w := log (CallExtractFlat channel_url) w in
        (results, set_channel_videos_cache (<[cache_key := results]> (channel_videos_cache w)) w)
    end.

(** *** [save_cookies_to_file] *)

(** [str(n)]. *)
Definition py_str_num (n : PyNum) : string :=
  match n with
  | NInt z => pretty z
  | NFloat x => repr_float env x
  end.

(** The seven strings joined into the line of a cookie. *)
Definition cookie_fields (c : Cookie) : list string :=
  let domain := default "" (c_domain c) in
  let flag := if is_prefix "." domain then "TRUE" else "FALSE" in
  let path := default "/" (c_path c) in
  let secure := if default false (c_secure c) then "TRUE" else "FALSE" in
  let expiry := py_str_num (default (NInt 0) (c_expires c)) in
  let name := default "" (c_name c) in
  let value := default "" (c_value c) in
  [domain; flag; path; secure; expiry; name; value].

Definition cookie_line (c : Cookie) : string :=
  str_join tab (cookie_fields c) +:+ nl.

Definition cookie_header : string := "# Netscape HTTP Cookie File" +:+ nl.

(** The text written by the successive [f.write] calls. *)
Definition cookie_file_text (cookies : list Cookie) : string :=
  foldl (λ text c, text +:+ cookie_line c) cookie_header cookies.

(** The text of the lines written after the header. *)
Definition cookie_lines_text (cookies : list Cookie) : string :=
  foldr (λ c rest, cookie_line c +:+ rest) "" cookies.

Definition save_cookies_to_file (cookies : list Cookie) (filename : string) (w : World)
    : string * World :=
  (filename, set_files (<[filename := cookie_file_text cookies]> (files w)) w).

(** *** [extract_formats] and [extract_with_fallback] *)

(** [opts.get("cookies")] after [if cookies_file: opts["cookies"] = cookies_file]. *)
Definition opts_cookies (cookies_file : option string) : option string :=
  if opt_truthy cookies_file then cookies_file else None.

Definition extract_formats (video_url : string) (cookies_file : option string) (w : World)
    : Result Info * World :=
  let cache_key := (video_url, cookies_file) in
  match extraction_cache w !! cache_key with
  | Some cached => (ok cached, w)
  | None =>
      let cookies := opts_cookies cookies_file in
      match ydl_extract_info env w video_url cookies with
      | inl e => (raise e, log (CallExtract video_url cookies) w)
      | inr info =>
          let w := log (CallExtract video_url cookies) w in
          (ok info, set_extraction_cache (<[cache_key := info]> (extraction_cache w)) w)
      end
  end.

(** The [if not os.path.exists("cookies.txt")] block of the handler. *)
Definition ensure_cookies (video_url : string) (w : World) : Result unit * World :=
  let found := has_key (files w !! "cookies.txt") in
  let w := log (CallPathExists "cookies.txt") w in
  if found then (ok (), w)
  else
    match get_cookies_headless env w video_url with
    | inl e => (raise e, log (CallBrowser video_url) w)
    | inr cookies =>
        (ok (), (save_cookies_to_file cookies "cookies.txt" (log (CallBrowser video_url) w)).2)
    end.

(** The result of the credentialed attempt as the handler returns it: the
    info tagged ["cookies"], or the exception as raised. *)
Definition tag_cookies (r : Result Info) : Result (string * Info) :=
  match r with
  | inl e => raise e
  | inr info2 => ok ("cookies", info2)
  end.

Definition extract_with_fallback (video_url : string) (w : World)
    : Result (string * Info) * World :=
  match extract_formats video_url None w with
  | (inr info, w) => (ok ("no_cookies", info), w)
  | (inl _, w) =>
      match ensure_cookies video_url w with
      | (inl e, w) => (raise e, w)
      | (inr _, w) =>
          match extract_formats video_url (Some "cookies.txt") w with
          | (inl e, w) => (raise e, w)
          | (inr info2, w) => (ok ("cookies", info2), w)
          end
      end
  end.

(** *** Launching [mpv] *)

Definition kill_mpv (c : Client) (w : World) : Client * World :=
  if decide (os_type env = "Windows") then (c, log (CallSystem "taskkill /F /IM mpv.exe") w)
  else if decide (os_type env = "Linux") then (c, log (CallSystem "pkill mpv") w)
  else if decide (os_type env = "Darwin") then (c, log (CallSystem "pkill mpv") w)
  else (console_append "Unsupported OS for killing mpv." c, w).

(** The list [mpv_args] before the two optional insertions. *)
Definition merged_base_args (quality_label url : string) : list string :=
  let mpv_format := dict_get FORMAT_MAPPING quality_label "best" in
  [ "--osc";
    "--cache=yes";
    "--demuxer-thread=yes";
    "--ytdl-format=" +:+ mpv_format;
    "--log-file=" +:+ LOG_FILE;
    "--msg-level=all=v";
    "--input-ipc-server=/tmp/mpvsocket";
    url ].

(** [mpv_args] as passed to [QProcess.start]. *)
Definition merged_args (c : Client) (quality_label url : string) (start_time : float)
    : list string :=
  let mpv_args := merged_base_args quality_label url in
  let mpv_args :=
    if (0 <? start_time)%float then ("--start=" +:+ repr_float env start_time) :: mpv_args
    else mpv_args in
  if negb (is_detached c) then ("--wid=" +:+ pretty (win_id c)) :: mpv_args
  else mpv_args.

Definition launch_mpv_merged (quality_label : string) (start_time : float)
    (c : Client) (w : World) : Client * World :=
  match current_video_url c with
  | Some url =>
      if str_truthy url then
        let mpv_args := merged_args c quality_label url start_time in
        let '(c, w) := kill_mpv c w in
        let c := console_append
                   ("Launching mpv with '" +:+ quality_label +:+ "' at " +:+
                    fmt_1f env start_time +:+ "s") c in
        (set_player_process (Some (mkProcess "mpv" mpv_args)) c,
         log (CallStart "mpv" mpv_args) w)
      else (console_append "No URL to play." c, w)
  | None => (console_append "No URL to play." c, w)
  end.

Definition on_quality_changed (c : Client) (w : World) : Client * World :=
  if negb (opt_truthy (current_video_url c)) || negb (has_key (player_process c)) then (c, w)
  else
    let time_pos := get_current_playback_time w "/tmp/mpvsocket" in
    let new_q := combo_currentText c in
    let c := console_append
               ("Switching quality to " +:+ new_q +:+ " at " +:+
                fmt_1f env time_pos +:+ "s") c in
    launch_mpv_merged new_q time_pos c w.

(** *** [watch_separate_streams] *)

(** The body of the loop that looks for a video-only and an audio-only
    format; the pair is [(video_only_url, audio_only_url)]. *)
Definition stream_step (acc : option string * option string) (f : Format)
    : option string * option string :=
  let '(video_only_url, audio_only_url) := acc in
  let video_only_url :=
    if bool_decide (f_acodec f = Some "none") && negb (opt_truthy video_only_url)
    then Some (f_url f) else video_only_url in
  let audio_only_url :=
    if bool_decide (f_vcodec f = Some "none") && negb (opt_truthy audio_only_url)
    then Some (f_url f) else audio_only_url in
  (video_only_url, audio_only_url).

(** One component of [stream_step]: keep a truthy url, else take the url
    of a format that passes the test. *)
Definition pick_step (p : Format → bool) (found : option string) (f : Format) : option string :=
  if p f && negb (opt_truthy found) then Some (f_url f) else found.

Definition video_ipc : string := "/tmp/mpv_video".
Definition audio_ipc : string := "/tmp/mpv_audio".

Definition separate_video_args (c : Client) (video_only_url : string) : list string :=
  let video_args :=
    [ "--no-audio"; "--osc"; "--cache=yes"; "--demuxer-thread=yes";
      "--input-ipc-server=" +:+ video_ipc; video_only_url ] in
  if negb (is_detached c) then ("--wid=" +:+ pretty (win_id c)) :: video_args
  else video_args.

Definition separate_audio_args (audio_only_url : string) : list string :=
  [ "--no-video"; "--osc"; "--cache=yes"; "--demuxer-thread=yes";
    "--input-ipc-server=" +:+ audio_ipc; audio_only_url ].

Definition watch_separate_streams (c : Client) (w : World) : Client * World :=
  match current_info c with
  | Some info =>
      if info_truthy info then
        let formats := default [] (i_formats info) in
        let '(video_only_url, audio_only_url) := foldl stream_step (None, None) formats in
        if negb (opt_truthy video_only_url) || negb (opt_truthy audio_only_url) then
          let c := console_append "No separate streams found; fallback merged." c in
          launch_mpv_merged (combo_currentText c) 0%float c w
        else
          let '(c, w) := kill_mpv c w in
          let video_args := separate_video_args c (default "" video_only_url) in
          let audio_args := separate_audio_args (default "" audio_only_url) in
          let c := console_append "Launching separate mpv processes for video and audio." c in
          (set_separate (mkProcess "mpv" video_args) (mkProcess "mpv" audio_args) 1000 c,
           log (CallStart "mpv" audio_args) (log (CallStart "mpv" video_args) w))
      else (console_append "No video info for separate streams." c, w)
  | None => (console_append "No video info for separate streams." c, w)
  end.

(** *** The quality selector and [on_extraction_done] *)

(** [quality_combo.currentIndexChanged] is connected to
    [on_quality_changed]: an operation that changes the current index of
    the selector runs that slot. [clear] leaves no current item; [addItem]
    on an empty selector makes the new item current. *)
Definition combo_clear (c : Client) (w : World) : Client * World :=
  let c' := set_combo [] (-1) c in
  if combo_index c =? -1 then (c', w) else on_quality_changed c' w.

Definition combo_addItem (q : string) (c : Client) (w : World) : Client * World :=
  match combo_items c with
  | [] => on_quality_changed (set_combo [q] 0 c) w
  | items => (set_combo (items ++ [q])%list (combo_index c) c, w)
  end.

Definition combo_setCurrentIndex (i : Z) (c : Client) (w : World) : Client * World :=
  let i := if (0 <=? i) && (i <? Z.of_nat (length (combo_items c))) then i else -1 in
  if i =? combo_index c then (c, w)
  else on_quality_changed (set_combo (combo_items c) i c) w.

(** The argument is what the worker emits: the pair returned by
    [extract_with_fallback], or the exception it raised. The labels and
    pixmaps set by [update_video_info_fields] are not attributes of
    [Client]. *)
Definition on_extraction_done (result : Result (string * Info)) (c : Client) (w : World)
    : Client * World :=
  match result with
  | inl e => (console_append ("Extraction error: " +:+ e) c, w)
  | inr (mode, info) =>
      let video_url :=
        if has_key (i_original_url info) then i_original_url info
        else if has_key (i_webpage_url info) then i_webpage_url info
        else None in
      let name := default "Unknown Channel" (i_uploader info) in
      let url := default "" (i_uploader_url info) in
      let avatar := scrape_channel_avatar w url in
      let title := default "Untitled" (i_title info) in
      let description := default "No description available." (i_description info) in
      let c := set_video info video_url (Some name) (Some url) avatar
                 (Some title) (Some description) c in
      let c := console_append
                 (if decide (mode = "no_cookies")
                  then "Extraction succeeded without cookies."
                  else "Extraction succeeded with cookies fallback.") c in
      let c := set_qualities_available (available_buckets info) c in
      let '(c, w) := combo_clear c w in
      let '(c, w) := foldl (λ cw q, combo_addItem q cw.1 cw.2) (c, w) (qualities_available c) in
      let '(c, w) :=
        match qualities_available c with
        | [] => (c, w)
        | _ => combo_setCurrentIndex 0 c w
        end in
      let best := match qualities_available c with q :: _ => q | [] => "360p" end in
      let '(c, w) := launch_mpv_merged best 0%float c w in
      (console_append ("Available qualities: " +:+ str_join ", " (qualities_available c)) c, w)
  end.

(** [start_extraction], with the worker run to its end before the next
    event: the result of [extract_with_fallback] is handed to
    [on_extraction_done]. *)
Definition start_extraction (url : string) (c : Client) (w : World) : Client * World :=
  let c := console_append ("Extracting info for: " +:+ url) c in
  let '(result, w) := extract_with_fallback url w in
  let c := set_stacked_index 1 c in
  on_extraction_done result c w.

(** *** [toggle_detach] and [go_back] *)

(** The text of [detach_button] is not an attribute of [Client]. *)
Definition toggle_detach (c : Client) (w : World) : Client * World :=
  let c := set_is_detached (negb (is_detached c)) c in
  let c := if is_detached c then console_append "Now in detached mode." c
           else console_append "Now in embedded mode." c in
  if opt_truthy (current_video_url c) && has_key (player_process c) then
    let time_pos := get_current_playback_time w "/tmp/mpvsocket" in
    launch_mpv_merged (combo_currentText c) time_pos c w
  else (c, w).

Definition go_back (c : Client) : Client :=
  let idx := stacked_index c in
  if idx =? 2 then
    if opt_truthy (current_video_url c) && has_key (player_process c) then
      console_append "Back to playback from channel page." (set_stacked_index 1 c)
    else
      console_append "Back to home from channel page." (set_stacked_index 0 c)
  else if idx =? 1 then
    console_append "Back to home from playback page." (set_stacked_index 0 c)
  else console_append "Already on home page." c.

(** *** [search_youtube], [do_search] and [on_search_results] *)

(** The loop over the entries of a search: an entry without url is passed
    over; a last thumbnail without ["url"] raises. *)
Fixpoint search_entries (entries : list Entry) (results : list Video) : Result (list Video) :=
  match entries with
  | [] => ok results
  | entry :: rest =>
      if negb (opt_truthy (e_url entry)) then search_entries rest results
      else v ←! entry_video entry; search_entries rest (results ++ [v])%list
  end.

(** The search runs under the options of [get_channel_videos], on the
    expression [f"ytsearch{max_results}:{query}"]. *)
Definition search_youtube (query : string) (max_results : Z)
    (cache : gmap (string * Z) (list Video)) (w : World)
    : Result (list Video) * gmap (string * Z) (list Video) * World :=
  let cache_key := (query, max_results) in
  match cache !! cache_key with
  | Some cached => (ok cached, cache, w)
  | None =>
      let expr := "ytsearch" +:+ pretty max_results +:+ ":" +:+ query in
      let w1 := log (CallExtractFlat expr) w in
      match ydl_extract_flat env w expr with
      | inl e => (raise e, cache, w1)
      | inr data =>
          match search_entries (default [] (d_entries data)) [] with
          | inl e => (raise e, cache, w1)
          | inr results => (ok results, <[cache_key := results]> cache, w1)
          end
      end
  end.

Definition shell_console (msg : string) (sh : Shell) : Shell :=
  mkShell (console_append msg (sh_client sh)) (search_field sh) (home_grid sh)
          (search_cache sh) (sh_world sh).

Definition on_search_results (result : Result (list Video)) (sh : Shell) : Shell :=
  match result with
  | inl e => shell_console ("Search error: " +:+ e) sh
  | inr results =>
      let sh := shell_console
                  ("Got " +:+ pretty (Z.of_nat (length results)) +:+ " results.") sh in
      mkShell (set_stacked_index 0 (sh_client sh)) (search_field sh)
              (populate_grid results (home_grid sh)) (search_cache sh) (sh_world sh)
  end.

(** [do_search], with the worker run to its end before the next event. *)
Definition do_search (sh : Shell) : Shell :=
  let query := str_strip env (search_field sh) in
  if negb (str_truthy query) then shell_console "No search query." sh
  else
    let sh := shell_console ("Searching: " +:+ query) sh in
    let grid := populate_grid [] (home_grid sh) in
    let '(result, cache, w) := search_youtube query 20 (search_cache sh) (sh_world sh) in
    on_search_results result (mkShell (sh_client sh) (search_field sh) grid cache w).

(** [v] is the dict that the loops of [get_channel_videos] and
    [search_youtube] append for the entry [e]. *)
Definition video_of (e : Entry) (v : Video) : Prop := entry_video e = ok v.

(** *** Properties of the quality resolver *)

Lemma elem_of_add_if (x : string) c q (s : gset string) :
  x ∈ add_if c q s ↔ (c = true ∧ x = q) ∨ x ∈ s.
Proof.
  unfold add_if. destruct c.
  - rewrite elem_of_union, elem_of_singleton. intuition congruence.
  - intuition congruence.
Qed.

Lemma elem_of_ALL_QUALITIES (q : string) :
  q ∈ ALL_QUALITIES ↔
  q = "2k" ∨ q = "1080p60" ∨ q = "1080p" ∨ q = "720p60" ∨
  q = "720p" ∨ q = "360p" ∨ q = "240p" ∨ q = "144p".
Proof.
  unfold ALL_QUALITIES; cbn. rewrite !elem_of_cons, elem_of_nil. tauto.
Qed.

Lemma elem_of_bucket_step (q : string) (acc : gset string) (f : Format) :
  q ∈ bucket_step acc f ↔ q ∈ acc ∨ (q ∈ ALL_QUALITIES ∧ satisfies q f).
Proof.
  unfold bucket_step, satisfies. cbv zeta.
  rewrite !elem_of_add_if, elem_of_ALL_QUALITIES.
  split.
  - intros H. decompose [or and] H; subst; auto;
      right; (split; [tauto | unfold tier_predicate; cbn; assumption]).
  - intros [H | [H Hp]]; [tauto |].
    decompose [or] H; subst; unfold tier_predicate in Hp; cbn in Hp; tauto.
Qed.

Lemma elem_of_foldl_bucket_step (q : string) (formats : list Format) (acc : gset string) :
  q ∈ foldl bucket_step acc formats ↔
  q ∈ acc ∨ (q ∈ ALL_QUALITIES ∧ ∃ f, f ∈ formats ∧ satisfies q f).
Proof.
  revert acc. induction formats as [| f formats IH]; intros acc; cbn.
  - split; [auto |]. intros [H | (_ & f & Hf & _)]; [done |]. by apply elem_of_nil in Hf.
  - rewrite IH, elem_of_bucket_step. split.
    + intros [[H | [Hq Hs]] | (Hq & g & Hg & Hs)]; [by left | |].
      * right. split; [done |]. exists f. split; [left | done].
      * right. split; [done |]. exists g. split; [by right | done].
    + intros [H | (Hq & g & Hg & Hs)]; [by do 2 left |].
      apply elem_of_cons in Hg as [-> | Hg]; [left; right; done |].
      right. split; [done |]. by exists g.
Qed.

(** The buckets collected by the loop are the tiers some variant satisfies. *)
Lemma elem_of_bucket_avail (q : string) (formats : list Format) :
  q ∈ foldl bucket_step ∅ formats ↔
  q ∈ ALL_QUALITIES ∧ ∃ f, f ∈ formats ∧ satisfies q f.
Proof.
  rewrite elem_of_foldl_bucket_step. split; [| by right].
  intros [H | H]; [| done]. by apply not_elem_of_empty in H.
Qed.

Lemma available_buckets_cases (info : Info) :
  let result := filter (λ q, q ∈ foldl bucket_step ∅ (default [] (i_formats info))) ALL_QUALITIES in
  (result = [] ∧ available_buckets info = ["360p"]) ∨
  (result ≠ [] ∧ available_buckets info = result).
Proof.
  cbv zeta. unfold available_buckets.
  destruct (filter _ ALL_QUALITIES) as [| q r]; [by left | by right].
Qed.

Lemma filter_sublist_of {A} (P : A → Prop) `{!∀ x, Decision (P x)} (l : list A) :
  filter P l `sublist_of` l.
Proof.
  induction l as [| x l IH]; [constructor |].
  rewrite filter_cons. destruct (decide (P x)); by constructor.
Qed.

Lemma fallback_sublist_of : ["360p"] `sublist_of` ALL_QUALITIES.
Proof. unfold ALL_QUALITIES; cbn. repeat first [apply sublist_skip | apply sublist_cons | apply sublist_nil]. Qed.

(** C1. For every list of variants, [available_buckets] returns tiers in
    the order of the fixed enumeration [2k, 1080p60, 1080p, 720p60, 720p,
    360p, 240p, 144p]; a returned tier is satisfied by
    some variant of the list, unless no variant satisfies any tier, the
    case in which the result is the one-element list ["360p"]; every
    satisfied tier is returned; and the empty list gives ["360p"]. *)
Theorem available_buckets_ordered_and_satisfied (info : Info) :
  let formats := default [] (i_formats info) in
  ALL_QUALITIES = ["2k"; "1080p60"; "1080p"; "720p60"; "720p"; "360p"; "240p"; "144p"] ∧
  available_buckets info `sublist_of` ALL_QUALITIES ∧
  (∀ q, q ∈ available_buckets info →
     (∃ f, f ∈ formats ∧ satisfies q f) ∨
     (no_tier_satisfied formats ∧ available_buckets info = ["360p"])) ∧
  (∀ q, q ∈ ALL_QUALITIES → (∃ f, f ∈ formats ∧ satisfies q f) →
     q ∈ available_buckets info) ∧
  (no_tier_satisfied formats → available_buckets info = ["360p"]) ∧
  available_buckets (info_of_formats []) = ["360p"].
Proof.
  cbv zeta. split; [done |].
  destruct (available_buckets_cases info) as [[Hnil Hr] | [Hne Hr]]; cbv zeta in *.
  - (* the fallback *)
    assert (Hno : no_tier_satisfied (default [] (i_formats info))).
    { intros q f Hq Hf Hs.
      assert (Hin : q ∈ filter (λ q, q ∈ foldl bucket_step ∅ (default [] (i_formats info)))
                        ALL_QUALITIES).
      { apply list_elem_of_filter. split; [| done].
        apply elem_of_bucket_avail. split; [done |]. by exists f. }
      rewrite Hnil in Hin. by apply elem_of_nil in Hin. }
    rewrite Hr. split; [| split; [| split; [| split]]].
    + apply fallback_sublist_of.
    + intros q _. by right.
    + intros q Hq [f [Hf Hs]]. by destruct (Hno q f).
    + done.
    + by vm_compute.
  - rewrite Hr. split; [| split; [| split; [| split]]].
    + apply filter_sublist_of.
    + intros q Hq. left.
      apply list_elem_of_filter in Hq as [Hq _].
      apply elem_of_bucket_avail in Hq as [_ Hq]. done.
    + intros q Hq Hex. apply list_elem_of_filter. split; [| done].
      by apply elem_of_bucket_avail.
    + intros Hno. exfalso. apply Hne.
      destruct (filter _ ALL_QUALITIES) as [| q r] eqn:E; [done |].
      assert (Hin : q ∈ q :: r) by left.
      rewrite <- E in Hin. apply list_elem_of_filter in Hin as [Hq Hall].
      apply elem_of_bucket_avail in Hq as [_ [f [Hf Hs]]].
      by destruct (Hno q f).
    + by vm_compute.
Qed.

(** C4, counterexample. On the variants [{height:1080, fps:30},
    {height:720, fps:60}] the result is not ["1080p", "720p60"]. *)
Lemma available_buckets_example_not_two_tiers :
  available_buckets (info_of_formats example_variants) ≠ ["1080p"; "720p60"].
Proof. by vm_compute. Qed.

(** C4, amended. On the variants [{height:1080, fps:30},
    {height:720, fps:60}] the result is ["1080p", "720p60", "720p"]: the
    variant of height 720 satisfies the predicate of 720p as well as that
    of 720p60. *)
Theorem available_buckets_example_three_tiers :
  available_buckets (info_of_formats example_variants) = ["1080p"; "720p60"; "720p"].
Proof. by vm_compute. Qed.

(** *** Properties of the control channel *)


(** A failed query is a query that returns [0.0]. *)
Lemma get_current_playback_time_raise (w : World) (ipc_path : string) (e : Exn) :
  playback_time_try w ipc_path = raise e →
  get_current_playback_time w ipc_path = 0%float.
Proof. unfold get_current_playback_time. by intros ->. Qed.

(** *** Properties of the merged launch *)



(** The process started by a merged launch. *)
Lemma launch_mpv_merged_process (q url : string) (t : float) (c : Client) (w : World) :
  current_video_url c = Some url → str_truthy url = true →
  player_process (launch_mpv_merged q t c w).1 = Some (mkProcess "mpv" (merged_args c q url t)) ∧
  history (launch_mpv_merged q t c w).2 =
    (history (kill_mpv c w).2 ++ [CallStart "mpv" (merged_args c q url t)])%list.
Proof.
  intros Hu Ht. unfold launch_mpv_merged. rewrite Hu, Ht.
  by destruct (kill_mpv c w).
Qed.

Lemma has_start_option_merged_args (c : Client) (q url : string) (t : float) :
  has_start_option (merged_args c q url t) = (0 <? t)%float.
Proof.
  unfold has_start_option, merged_args, merged_base_args.
  by destruct (is_detached c), (0 <? t)%float.
Qed.


(** C5. With a video and a player process at hand, [on_quality_changed]
    relaunches the merged player at the selected tier with the offset the
    query returned; a query that failed gives the offset [0.0]. *)
Theorem on_quality_changed_preserves_offset (url : string) (p : Process) (t : float)
    (c : Client) (w : World) :
  current_video_url c = Some url → str_truthy url = true →
  player_process c = Some p →
  get_current_playback_time w "/tmp/mpvsocket" = t →
  let new_q := combo_currentText c in
  let msg := "Switching quality to " +:+ new_q +:+ " at " +:+ fmt_1f env t +:+ "s" in
  on_quality_changed c w = launch_mpv_merged new_q t (console_append msg c) w ∧
  player_process (on_quality_changed c w).1 =
    Some (mkProcess "mpv" (merged_args c new_q url t)) ∧
  ((0 <? t)%float = true →
     ("--start=" +:+ repr_float env t) ∈ merged_args c new_q url t) ∧
  (∀ e, playback_time_try w "/tmp/mpvsocket" = raise e → t = 0%float).
Proof.
  intros Hu Ht Hp Hq new_q msg.
  assert (E : on_quality_changed c w = launch_mpv_merged new_q t (console_append msg c) w).
  { unfold on_quality_changed. rewrite Hu, Hp; cbn. rewrite Ht; cbn. by rewrite Hq. }
  split; [done |]. split.
  { rewrite E.
    by destruct (launch_mpv_merged_process new_q url t (console_append msg c) w) as [-> _]. }
  split.
  { intros H0. unfold merged_args. rewrite H0.
    destruct (is_detached c); cbn; elem_of_list. }
  intros e He. rewrite <- Hq. by eapply get_current_playback_time_raise.
Qed.

(** *** Properties of the separate launch *)

Lemma foldl_stream_step (formats : list Format) (v a : option string) :
  foldl stream_step (v, a) formats =
  (foldl (pick_step (λ f, bool_decide (is_video_only f))) v formats,
   foldl (pick_step (λ f, bool_decide (is_audio_only f))) a formats).
Proof.
  revert v a. induction formats as [| f formats IH]; intros v a; [done |].
  cbn. apply IH.
Qed.

Lemma foldl_pick_step_truthy (p : Format → bool) (formats : list Format) (found : option string) :
  opt_truthy found = true → foldl (pick_step p) found formats = found.
Proof.
  induction formats as [| f formats IH]; intros Hf; [done |].
  cbn. unfold pick_step at 2. rewrite Hf, andb_false_r. by apply IH.
Qed.

(** The url found by one component of the loop of [watch_separate_streams]:
    that of the first format that passes the test and has a url. *)
Lemma foldl_pick_step_first (P : Format → Prop) `{!∀ f, Decision (P f)}
    (formats : list Format) (found : option string) :
  opt_truthy found = false →
  let usable f := P f ∧ str_truthy (f_url f) = true in
  let result := foldl (pick_step (λ f, bool_decide (P f))) found formats in
  ((∃ f, f ∈ formats ∧ usable f) →
     ∃ f, first_such usable f formats ∧ result = Some (f_url f)) ∧
  (¬ (∃ f, f ∈ formats ∧ usable f) → opt_truthy result = false).
Proof.
  cbv zeta. revert found. induction formats as [| g formats IH]; intros found Hfound.
  { split; [| done]. intros (f & Hf & _). by apply elem_of_nil in Hf. }
  cbn [foldl]. unfold pick_step at 2 4. rewrite Hfound. cbn [negb]. rewrite andb_true_r.
  destruct (decide (P g)) as [HP | HP].
  - rewrite bool_decide_eq_true_2 by done.
    destruct (str_truthy (f_url g)) eqn:Hg.
    + rewrite foldl_pick_step_truthy by done. split; [| intros Hno; destruct Hno].
      * intros _. exists g. split; [| done].
        exists [], formats. split; [done |]. split; [done |].
        intros h Hh. by apply elem_of_nil in Hh.
      * exists g. split; [left | done].
    + destruct (IH (Some (f_url g)) Hg) as [IH1 IH2]. split.
      * intros (f & Hf & HPf & Hu).
        apply elem_of_cons in Hf as [-> | Hf]; [congruence |].
        destruct IH1 as (h & (l1 & l2 & -> & Hh & Hl1) & E); [by exists f |].
        exists h. split; [| done].
        exists (g :: l1), l2. split; [done |]. split; [done |].
        intros k Hk [HPk Hku]. apply elem_of_cons in Hk as [-> | Hk]; [congruence |].
        by apply (Hl1 k).
      * intros Hno. apply IH2. intros (f & Hf & Hu). apply Hno. exists f.
        split; [by right | done].
  - rewrite bool_decide_eq_false_2 by done.
    destruct (IH found Hfound) as [IH1 IH2]. split.
    + intros (f & Hf & HPf & Hu).
      apply elem_of_cons in Hf as [-> | Hf]; [done |].
      destruct IH1 as (h & (l1 & l2 & -> & Hh & Hl1) & E); [by exists f |].
      exists h. split; [| done].
      exists (g :: l1), l2. split; [done |]. split; [done |].
      intros k Hk [HPk Hku]. apply elem_of_cons in Hk as [-> | Hk]; [done |].
      by apply (Hl1 k).
    + intros Hno. apply IH2. intros (f & Hf & Hu). apply Hno. exists f.
      split; [by right | done].
Qed.

Lemma last_merged_args (c : Client) (q url : string) (t : float) :
  last (merged_args c q url t) = Some url.
Proof.
  unfold merged_args, merged_base_args.
  by destruct (is_detached c), (0 <? t)%float.
Qed.

Lemma elem_of_merged_args_format (c : Client) (q url : string) (t : float) :
  "--ytdl-format=" +:+ dict_get FORMAT_MAPPING q "best" ∈ merged_args c q url t.
Proof.
  unfold merged_args, merged_base_args.
  destruct (is_detached c), (0 <? t)%float; cbn [negb]; elem_of_list.
Qed.


(** A merged launch only adds to the console. *)
Lemma launch_mpv_merged_console (q : string) (t : float) (c : Client) (w : World) :
  ∃ more, console_output (launch_mpv_merged q t c w).1 = (console_output c ++ more)%list.
Proof.
  unfold launch_mpv_merged, kill_mpv.
  destruct (current_video_url c) as [url |]; [destruct (str_truthy url) |];
    repeat case_decide; cbn; rewrite <- ?app_assoc; by eexists.
Qed.

(** C7, as amended. With video info at hand, [watch_separate_streams]
    falls back to a merged launch at the selected tier, and says so on the
    console, when the formats hold no video-only variant with a non-empty
    url or no audio-only variant with a non-empty url. Otherwise it starts
    two [mpv] processes, one on the url of the first such video-only
    variant and one on the url of the first such audio-only variant, each
    with its own control channel, and starts the synchronisation timer. *)
Theorem watch_separate_streams_spec (info : Info) (c : Client) (w : World) :
  current_info c = Some info → info_truthy info = true →
  let formats := default [] (i_formats info) in
  let notice := "No separate streams found; fallback merged." in
  let video f := is_video_only f ∧ str_truthy (f_url f) = true in
  let audio f := is_audio_only f ∧ str_truthy (f_url f) = true in
  let c' := (watch_separate_streams c w).1 in
  let w' := (watch_separate_streams c w).2 in
  ((¬ (∃ f, f ∈ formats ∧ video f) ∨ ¬ (∃ f, f ∈ formats ∧ audio f)) →
     watch_separate_streams c w =
       launch_mpv_merged (combo_currentText c) 0%float (console_append notice c) w ∧
     notice ∈ console_output c' ∧
     video_process c' = video_process c ∧ audio_process c' = audio_process c ∧
     sync_timer c' = sync_timer c ∧
     (∀ url, current_video_url c = Some url → str_truthy url = true →
        let args := merged_args c (combo_currentText c) url 0%float in
        player_process c' = Some (mkProcess "mpv" args) ∧
        last (history w') = Some (CallStart "mpv" args) ∧
        last args = Some url ∧
        has_start_option args = false ∧
        "--ytdl-format=" +:+ dict_get FORMAT_MAPPING (combo_currentText c) "best" ∈ args)) ∧
  ((∃ f, f ∈ formats ∧ video f) → (∃ f, f ∈ formats ∧ audio f) →
     ∃ fv fa,
       first_such video fv formats ∧ first_such audio fa formats ∧
       let embed := if is_detached c then [] else ["--wid=" +:+ pretty (win_id c)] in
       let video_args :=
         (embed ++ [ "--no-audio"; "--osc"; "--cache=yes"; "--demuxer-thread=yes";
                     "--input-ipc-server=/tmp/mpv_video"; f_url fv ])%list in
       let audio_args :=
         [ "--no-video"; "--osc"; "--cache=yes"; "--demuxer-thread=yes";
           "--input-ipc-server=/tmp/mpv_audio"; f_url fa ] in
       video_process c' = Some (mkProcess "mpv" video_args) ∧
       audio_process c' = Some (mkProcess "mpv" audio_args) ∧
       sync_timer c' = Some 1000 ∧
       player_process c' = player_process c ∧
       history w' = (history (kill_mpv c w).2 ++
                     [CallStart "mpv" video_args; CallStart "mpv" audio_args])%list ∧
       notice ∉ (drop (length (console_output c)) (console_output c'))).
Proof.
  intros Hinfo Htruthy formats notice video audio c' w'.
  subst c' w'. unfold watch_separate_streams.
  rewrite Hinfo, Htruthy. fold formats. rewrite foldl_stream_step.
  destruct (foldl_pick_step_first is_video_only formats None eq_refl) as [Hv1 Hv0].
  destruct (foldl_pick_step_first is_audio_only formats None eq_refl) as [Ha1 Ha0].
  cbv zeta in Hv1, Hv0, Ha1, Ha0.
  split.
  - (* the fallback *)
    intros Habsent.
    assert (Hcond : negb (opt_truthy
                (foldl (pick_step (λ f, bool_decide (is_video_only f))) None formats)) ||
              negb (opt_truthy
                (foldl (pick_step (λ f, bool_decide (is_audio_only f))) None formats)) = true).
    { destruct Habsent as [Hno | Hno].
      - by rewrite (Hv0 Hno).
      - rewrite (Ha0 Hno). apply orb_true_r. }
    rewrite Hcond. fold notice.
    change (combo_currentText (console_append notice c)) with (combo_currentText c).
    split; [done |].
    destruct (launch_mpv_merged_console (combo_currentText c) 0%float
                (console_append notice c) w) as [more Hmore].
    split.
    { rewrite Hmore. cbn. rewrite !elem_of_app, elem_of_cons. tauto. }
    assert (Hframe : ∀ q t c0,
              video_process (launch_mpv_merged q t c0 w).1 = video_process c0 ∧
              audio_process (launch_mpv_merged q t c0 w).1 = audio_process c0 ∧
              sync_timer (launch_mpv_merged q t c0 w).1 = sync_timer c0).
    { intros q t c0. unfold launch_mpv_merged, kill_mpv.
      destruct (current_video_url c0) as [url |]; [destruct (str_truthy url) |];
        repeat case_decide; done. }
    destruct (Hframe (combo_currentText c) 0%float (console_append notice c))
      as (Fv & Fa & Ft).
    split; [exact Fv |]. split; [exact Fa |]. split; [exact Ft |].
    intros url Hu Ht.
    destruct (launch_mpv_merged_process (combo_currentText c) url 0%float
                (console_append notice c) w Hu Ht) as [Hp Hh].
    change (merged_args (console_append notice c) (combo_currentText c) url 0)
      with (merged_args c (combo_currentText c) url 0) in Hp, Hh.
    split; [exact Hp |]. split; [by rewrite Hh, last_snoc |].
    split; [apply last_merged_args |].
    split; [by rewrite has_start_option_merged_args |].
    apply elem_of_merged_args_format.
  - (* two processes *)
    intros Hv Ha.
    destruct (Hv1 Hv) as (fv & Hfv & ->). destruct (Ha1 Ha) as (fa & Hfa & ->).
    exists fv, fa. split; [done |]. split; [done |].
    assert (Tv : str_truthy (f_url fv) = true) by by destruct Hfv as (? & ? & _ & [_ ?] & _).
    assert (Ta : str_truthy (f_url fa) = true) by by destruct Hfa as (? & ? & _ & [_ ?] & _).
    cbn [opt_truthy]. rewrite Tv, Ta. cbn [negb orb default].
    unfold kill_mpv, separate_video_args, separate_audio_args, video_ipc, audio_ipc.
    repeat case_decide; cbn; destruct (is_detached c); cbn.
    all: repeat (split; [first [done | by rewrite <- !app_assoc] |]).
    all: rewrite <- ?app_assoc, drop_app_length; cbn.
    all: intros Hin; repeat (apply elem_of_cons in Hin as [Hin | Hin]; [discriminate Hin |]).
    all: by apply elem_of_nil in Hin.
Qed.

(** *** Properties of the extraction cache *)

Lemma new_calls_app (w w' : World) (calls : list Call) :
  history w' = (history w ++ calls)%list → new_calls w w' = calls.
Proof. unfold new_calls. intros ->. apply drop_app_length. Qed.

Lemma new_calls_refl (w : World) : new_calls w w = [].
Proof. apply new_calls_app. by rewrite app_nil_r. Qed.

(** A hit returns the stored value and calls nothing. *)
Lemma extract_formats_hit (video_url : string) (cookies_file : option string)
    (info : Info) (w : World) :
  extraction_cache w !! (video_url, cookies_file) = Some info →
  extract_formats video_url cookies_file w = (ok info, w).
Proof. unfold extract_formats. by intros ->. Qed.

(** A miss whose backend call succeeds stores the result. *)
Lemma extract_formats_miss_ok (video_url : string) (cookies_file : option string)
    (info : Info) (w : World) :
  extraction_cache w !! (video_url, cookies_file) = None →
  ydl_extract_info env w video_url (opts_cookies cookies_file) = ok info →
  let w1 := (extract_formats video_url cookies_file w).2 in
  (extract_formats video_url cookies_file w).1 = ok info ∧
  extraction_cache w1 = <[(video_url, cookies_file) := info]> (extraction_cache w) ∧
  channel_videos_cache w1 = channel_videos_cache w ∧ files w1 = files w ∧
  history w1 = (history w ++ [CallExtract video_url (opts_cookies cookies_file)])%list.
Proof.
  unfold extract_formats, opts_cookies. intros -> Hy. by rewrite Hy.
Qed.

(** A miss whose backend call fails stores nothing. *)
Lemma extract_formats_miss_raise (video_url : string) (cookies_file : option string)
    (e : Exn) (w : World) :
  extraction_cache w !! (video_url, cookies_file) = None →
  ydl_extract_info env w video_url (opts_cookies cookies_file) = raise e →
  extract_formats video_url cookies_file w =
    (raise e, log (CallExtract video_url (opts_cookies cookies_file)) w).
Proof.
  unfold extract_formats, opts_cookies. intros -> Hy. by rewrite Hy.
Qed.

(** A call that raised was a miss, made one backend call and left the
    caches and the files as they were. *)
Lemma extract_formats_raise_inv (video_url : string) (cookies_file : option string)
    (e : Exn) (w : World) :
  (extract_formats video_url cookies_file w).1 = raise e →
  extraction_cache w !! (video_url, cookies_file) = None ∧
  ydl_extract_info env w video_url (opts_cookies cookies_file) = raise e ∧
  (extract_formats video_url cookies_file w).2 =
    log (CallExtract video_url (opts_cookies cookies_file)) w.
Proof.
  unfold extract_formats, opts_cookies.
  destruct (extraction_cache w !! _); [done |].
  destruct (ydl_extract_info _ _ _ _) eqn:Hy; [| done].
  cbn. intros [= ->]. done.
Qed.

(** A call makes no call, or one backend call with its own arguments. *)
Lemma extract_formats_calls (video_url : string) (cookies_file : option string) (w : World) :
  let w1 := (extract_formats video_url cookies_file w).2 in
  ∃ calls, history w1 = (history w ++ calls)%list ∧
           (calls = [] ∨ calls = [CallExtract video_url (opts_cookies cookies_file)]) ∧
           files w1 = files w.
Proof.
  unfold extract_formats, opts_cookies.
  destruct (extraction_cache w !! _).
  - exists []. cbn. rewrite app_nil_r. auto.
  - destruct (ydl_extract_info _ _ _ _); eexists; cbn; eauto.
Qed.

(** X1. The extraction cache memoizes successful results only: after a
    successful call a second call with the same key returns the stored
    value and the backend has been called once; after a failed call
    nothing is stored and a second call calls the backend again. *)
Theorem extract_formats_memoizes_success (video_url : string) (cookies_file : option string)
    (w : World) :
  extraction_cache w !! (video_url, cookies_file) = None →
  let call := CallExtract video_url (opts_cookies cookies_file) in
  let first := extract_formats video_url cookies_file w in
  let second := extract_formats video_url cookies_file first.2 in
  (∀ info, ydl_extract_info env w video_url (opts_cookies cookies_file) = ok info →
     first.1 = ok info ∧ second.1 = ok info ∧ second.2 = first.2 ∧
     new_calls w second.2 = [call]) ∧
  (∀ e, ydl_extract_info env w video_url (opts_cookies cookies_file) = raise e →
     first.1 = raise e ∧
     extraction_cache first.2 = extraction_cache w ∧
     second.1 = ydl_extract_info env first.2 video_url (opts_cookies cookies_file) ∧
     new_calls w second.2 = [call; call]).
Proof.
  intros Hmiss call first second. split.
  - intros info Hy.
    destruct (extract_formats_miss_ok video_url cookies_file info w Hmiss Hy)
      as (H1 & Hc & _ & _ & Hh).
    assert (E : second = (ok info, first.2)).
    { apply extract_formats_hit. subst first. rewrite Hc. apply lookup_insert_eq. }
    rewrite E. repeat split; [done |]. by apply new_calls_app.
  - intros e Hy.
    assert (E1 : first = (raise e, log call w)) by by apply extract_formats_miss_raise.
    subst second. rewrite E1. cbn [fst snd].
    split; [done |]. split; [done |].
    unfold extract_formats at 1 2. cbn [extraction_cache log]. rewrite Hmiss.
    fold (opts_cookies cookies_file).
    destruct (ydl_extract_info env (log call w) _ _); (split; [done |]);
      apply new_calls_app; cbn; by rewrite <- app_assoc.
Qed.

(** *** Properties of the channel listing cache *)

(** A second listing with the same key returns what the first returned and
    calls nothing. *)
Lemma get_channel_videos_second_call (channel_url : string) (max_results : Z) (w : World) :
  let first := get_channel_videos channel_url max_results w in
  get_channel_videos channel_url max_results first.2 = first.
Proof.
  cbv zeta.
  destruct (get_channel_videos channel_url max_results w) as [r w1] eqn:E. cbn [snd].
  unfold get_channel_videos in *.
  destruct (str_truthy channel_url); cbn [negb] in *.
  - destruct (channel_videos_cache w !! (channel_url, max_results)) as [cached |] eqn:Hc.
    + injection E as <- <-. by rewrite Hc.
    + injection E as <- <-.
      cbn [set_channel_videos_cache channel_videos_cache log].
      by rewrite lookup_insert_eq.
  - by injection E as <- <-.
Qed.

(** C3, the divergence. A channel listing whose backend call raises is
    stored under its key as the empty list, and a second listing with the
    same key returns that list without calling the backend again. *)
Theorem get_channel_videos_caches_failure (channel_url : string) (max_results : Z)
    (e : Exn) (w : World) :
  str_truthy channel_url = true →
  channel_videos_cache w !! (channel_url, max_results) = None →
  ydl_extract_flat env w channel_url = raise e →
  let first := get_channel_videos channel_url max_results w in
  let second := get_channel_videos channel_url max_results first.2 in
  first.1 = [] ∧
  channel_videos_cache first.2 !! (channel_url, max_results) = Some [] ∧
  new_calls w first.2 = [CallExtractFlat channel_url] ∧
  second.1 = [] ∧
  new_calls first.2 second.2 = [].
Proof.
  intros Ht Hmiss Hy first second.
  assert (E : first = ([], set_channel_videos_cache
                             (<[(channel_url, max_results) := []]> (channel_videos_cache w))
                             (log (CallExtractFlat channel_url) w))).
  { subst first. unfold get_channel_videos. rewrite Ht. cbn [negb].
    by rewrite Hmiss, Hy. }
  assert (E2 : second = first) by apply get_channel_videos_second_call.
  rewrite E2, E. cbn [fst snd].
  split; [done |]. split; [apply lookup_insert_eq |].
  split; [by apply new_calls_app |].
  split; [done | apply new_calls_refl].
Qed.

(** *** Properties of the fallback protocol *)

Lemma extract_with_fallback_anonymous_ok (video_url : string) (info : Info) (w : World) :
  (extract_formats video_url None w).1 = ok info →
  extract_with_fallback video_url w =
    (ok ("no_cookies", info), (extract_formats video_url None w).2).
Proof.
  unfold extract_with_fallback, ok, raise.
  destruct (extract_formats video_url None w) as [[e | i] w1]; cbn; [done |].
  by intros [= ->].
Qed.

Lemma extract_with_fallback_anonymous_raise (video_url : string) (e : Exn) (w : World) :
  (extract_formats video_url None w).1 = raise e →
  let w1 := log (CallExtract video_url None) w in
  extract_with_fallback video_url w =
    match ensure_cookies video_url w1 with
    | (inl e', w2) => (raise e', w2)
    | (inr _, w2) =>
        (tag_cookies (extract_formats video_url (Some "cookies.txt") w2).1,
         (extract_formats video_url (Some "cookies.txt") w2).2)
    end.
Proof.
  intros He w1.
  destruct (extract_formats_raise_inv video_url None e w He) as (_ & _ & Hw).
  unfold extract_with_fallback.
  destruct (extract_formats video_url None w) as [[e0 | i] w0]; cbn in *; [| done].
  subst w0. fold w1.
  destruct (ensure_cookies video_url w1) as [[e' | u] w2]; [done |].
  by destruct (extract_formats video_url (Some "cookies.txt") w2) as [[e2 | i2] w3].
Qed.

(** C2. [extract_with_fallback] first extracts without cookies. If that
    succeeds it returns, and neither looks for the cookie file nor runs the
    browser. If it fails it looks for [cookies.txt]; it runs the browser
    once, and writes the cookies to the file, exactly when the file is
    absent, and not at all when it is present; it then calls
    [extract_formats] once with the file, which calls the backend at most
    once; the exception of that call, or of the browser, is what the
    handler raises, and [on_extraction_done] reports it. *)
Theorem extract_with_fallback_protocol (video_url : string) (w : World) :
  let r := (extract_with_fallback video_url w).1 in
  let w' := (extract_with_fallback video_url w).2 in
  let anonymous := CallExtract video_url None in
  let consult := CallPathExists "cookies.txt" in
  let acquire := CallBrowser video_url in
  let credentialed := CallExtract video_url (Some "cookies.txt") in
  let w1 := log consult (log anonymous w) in
  (∀ info, (extract_formats video_url None w).1 = ok info →
     r = ok ("no_cookies", info) ∧
     (new_calls w w' = [] ∨ new_calls w w' = [anonymous]) ∧
     files w' = files w) ∧
  (∀ e, (extract_formats video_url None w).1 = raise e →
     ∃ retry, (retry = [] ∨ retry = [credentialed]) ∧
       (∀ text, files w !! "cookies.txt" = Some text →
          new_calls w w' = ([anonymous; consult] ++ retry)%list ∧
          files w' = files w ∧
          r = tag_cookies (extract_formats video_url (Some "cookies.txt") w1).1) ∧
       (files w !! "cookies.txt" = None →
          (∀ e', get_cookies_headless env w1 video_url = raise e' →
             new_calls w w' = [anonymous; consult; acquire] ∧
             files w' = files w ∧
             r = raise e') ∧
          (∀ cookies, get_cookies_headless env w1 video_url = ok cookies →
             let w2 := (save_cookies_to_file cookies "cookies.txt" (log acquire w1)).2 in
             new_calls w w' = ([anonymous; consult; acquire] ++ retry)%list ∧
             files w' = <["cookies.txt" := cookie_file_text cookies]> (files w) ∧
             r = tag_cookies (extract_formats video_url (Some "cookies.txt") w2).1))) ∧
  (∀ e c w0, r = raise e →
     on_extraction_done r c w0 = (console_append ("Extraction error: " +:+ e) c, w0)).
Proof.
  intros r w' anonymous consult acquire credentialed w1.
  split; [| split].
  - intros info Hok. subst r w'.
    rewrite (extract_with_fallback_anonymous_ok _ _ _ Hok). cbn [fst snd].
    destruct (extract_formats_calls video_url None w) as (calls & Hh & Hc & Hf).
    split; [done |]. split; [| done].
    rewrite (new_calls_app _ _ _ Hh). exact Hc.
  - intros e He. subst r w'.
    rewrite (extract_with_fallback_anonymous_raise _ _ _ He). cbv zeta.
    fold anonymous. unfold ensure_cookies. cbn [files log]. fold consult. fold w1.
    destruct (files w !! "cookies.txt") as [text |] eqn:Hfile; cbn [has_key].
    + (* the file is there *)
      destruct (extract_formats_calls video_url (Some "cookies.txt") w1)
        as (retry & Hh & Hc & Hf).
      exists retry. split; [exact Hc |]. split; [| done].
      intros text' _. unfold ok. cbn [fst snd].
      split; [| split; [by rewrite Hf | done]].
      apply new_calls_app. rewrite Hh. subst w1. cbn. by rewrite <- !app_assoc.
    + (* the file is absent *)
      destruct (get_cookies_headless env w1 video_url) as [e' | cookies] eqn:Hb.
      * exists []. split; [by left |]. split; [done |]. intros _. split.
        -- intros e'' [= <-]. cbn [fst snd]. split; [| done].
           apply new_calls_app. subst w1. cbn. by rewrite <- !app_assoc.
        -- intros cookies. unfold ok. discriminate.
      * fold acquire.
        set (w2 := (save_cookies_to_file cookies "cookies.txt" (log acquire w1)).2).
        destruct (extract_formats_calls video_url (Some "cookies.txt") w2)
          as (retry & Hh & Hc & Hf).
        exists retry. split; [exact Hc |]. split; [done |]. intros _. split.
        -- intros e'. unfold raise. discriminate.
        -- intros cookies' [= <-]. cbv zeta. fold w2. unfold ok. cbn [fst snd].
           split; [| split; [by rewrite Hf | done]].
           apply new_calls_app. rewrite Hh. subst w2 w1. cbn. by rewrite <- !app_assoc.
  - intros e c w0 ->. done.
Qed.

(** *** Properties of [on_extraction_done] on failure *)

(** A failed [extract_with_fallback] leaves the extraction cache as it was. *)
Lemma extract_with_fallback_raise_cache (video_url : string) (e : Exn) (w : World) :
  (extract_with_fallback video_url w).1 = raise e →
  extraction_cache (extract_with_fallback video_url w).2 = extraction_cache w.
Proof.
  destruct (extract_formats video_url None w) as [[e0 | info] w1] eqn:E0.
  - assert (H0 : (extract_formats video_url None w).1 = raise e0) by by rewrite E0.
    rewrite (extract_with_fallback_anonymous_raise _ _ _ H0). cbv zeta.
    set (w2 := log (CallExtract video_url None) w).
    assert (Hc : ∀ r w3, ensure_cookies video_url w2 = (r, w3) →
                         extraction_cache w3 = extraction_cache w).
    { unfold ensure_cookies. intros r w3.
      destruct (has_key _); [by intros [= <- <-] |].
      destruct (get_cookies_headless _ _ _); by intros [= <- <-]. }
    destruct (ensure_cookies video_url w2) as [[e' | u] w3] eqn:E1; cbn [fst snd].
    + intros _. by eapply Hc.
    + destruct (extract_formats video_url (Some "cookies.txt") w3) as [[e2 | i2] w4] eqn:E2;
        cbn [fst snd tag_cookies]; [| done].
      intros _.
      assert (H2 : (extract_formats video_url (Some "cookies.txt") w3).1 = raise e2)
        by by rewrite E2.
      destruct (extract_formats_raise_inv _ _ _ _ H2) as (_ & _ & Hw).
      rewrite E2 in Hw. cbn in Hw. subst w4. cbn. by eapply Hc.
  - assert (H0 : (extract_formats video_url None w).1 = ok info) by by rewrite E0.
    rewrite (extract_with_fallback_anonymous_ok _ _ _ H0). done.
Qed.

(** C8. When the worker hands [on_extraction_done] an exception, the
    handler adds one message to the console and changes nothing else: the
    info, the video url, the title, the channel attributes, the qualities
    and the player process are as before, and so is the world. The same
    holds from [start_extraction] on, which adds its own message; the
    extraction cache has gained no entry. *)
Theorem on_extraction_done_error_keeps_session (e : Exn) (c : Client) (w : World) :
  let c' := (on_extraction_done (raise e) c w).1 in
  let w' := (on_extraction_done (raise e) c w).2 in
  session_fields c' = session_fields c ∧
  stacked_index c' = stacked_index c ∧
  win_id c' = win_id c ∧
  console_output c' = (console_output c ++ ["Extraction error: " +:+ e])%list ∧
  w' = w ∧
  (∀ url w0, (extract_with_fallback url w0).1 = raise e →
     let c1 := (start_extraction url c w0).1 in
     let w1 := (start_extraction url c w0).2 in
     session_fields c1 = session_fields c ∧
     console_output c1 =
       (console_output c ++ ["Extracting info for: " +:+ url; "Extraction error: " +:+ e])%list ∧
     extraction_cache w1 = extraction_cache w0).
Proof.
  cbn. repeat (split; [done |]).
  intros url w0 He.
  pose proof (extract_with_fallback_raise_cache url e w0 He) as Hcache.
  unfold start_extraction.
  destruct (extract_with_fallback url w0) as [r w1]. cbn in He, Hcache. subst r.
  cbn. rewrite <- app_assoc. done.
Qed.

(** *** Properties of the cookie file *)

(** C9, the divergence. For a cookie whose expiry time is the float
    [1700000000.5], which [str] renders as ["1700000000.5"], the file
    holds the header line and one line of seven fields whose expiry field
    is ["1700000000.5"]: not a decimal integer. *)
Theorem save_cookies_to_file_float_expiry (w : World) :
  repr_float env 1700000000.5%float = "1700000000.5" →
  let w' := (save_cookies_to_file [float_expiry_cookie] "cookies.txt" w).2 in
  ∃ text line,
    files w' !! "cookies.txt" = Some text ∧
    split_on "010" text = ["# Netscape HTTP Cookie File"; line; ""] ∧
    split_on "009" line =
      [".youtube.com"; "TRUE"; "/"; "TRUE"; "1700000000.5"; "SID"; "abc"] ∧
    is_decimal_integer "1700000000.5" = false.
Proof.
  intros Hrepr w'.
  exists (cookie_file_text [float_expiry_cookie]),
         (str_join tab (cookie_fields float_expiry_cookie)).
  split; [subst w'; cbn; apply lookup_insert_eq |].
  unfold cookie_file_text, cookie_line, cookie_fields. cbn.
  rewrite Hrepr. by vm_compute.
Qed.

(** *** The layout of the cookie file for integer expiry times *)

Lemma str_app_assoc (s1 s2 s3 : string) : (s1 +:+ s2) +:+ s3 = s1 +:+ (s2 +:+ s3).
Proof.
  induction s1 as [| a s1 IH]; [done |].
  change (String a ((s1 +:+ s2) +:+ s3) = String a (s1 +:+ (s2 +:+ s3))).
  by rewrite IH.
Qed.

Lemma free_of_app (sep : ascii) (s t : string) :
  free_of sep (s +:+ t) = free_of sep s && free_of sep t.
Proof.
  induction s as [| a s IH]; [done |].
  change (free_of sep (String a (s +:+ t)) = free_of sep (String a s) && free_of sep t).
  cbn. rewrite IH. by rewrite andb_assoc.
Qed.

Lemma split_on_free (sep : ascii) (s : string) :
  free_of sep s = true → split_on sep s = [s].
Proof.
  induction s as [| a s IH]; [done |].
  cbn. intros [Ha Hs]%andb_true_iff. apply negb_true_iff in Ha.
  by rewrite Ha, IH.
Qed.

Lemma split_on_app_sep (sep : ascii) (s t : string) :
  free_of sep s = true → split_on sep (s +:+ String sep t) = s :: split_on sep t.
Proof.
  induction s as [| a s IH].
  - intros _. change (split_on sep (String sep t) = "" :: split_on sep t).
    cbn. by rewrite Ascii.eqb_refl.
  - cbn. intros [Ha Hs]%andb_true_iff. apply negb_true_iff in Ha.
    change (split_on sep (String a (s +:+ String sep t)) = String a s :: split_on sep t).
    cbn. by rewrite Ha, IH.
Qed.

(** Splitting undoes joining, for pieces free of the separator. *)
Lemma split_on_str_join (sep : ascii) (pieces : list string) :
  pieces ≠ [] → Forall (λ s, free_of sep s = true) pieces →
  split_on sep (str_join (String sep "") pieces) = pieces.
Proof.
  induction pieces as [| s pieces IH]; [done |]. intros _ Hfree.
  apply Forall_cons in Hfree as [Hs Hfree].
  destruct pieces as [| s' pieces]; [by apply split_on_free |].
  change (split_on sep (s +:+ String sep (str_join (String sep "") (s' :: pieces)))
          = s :: s' :: pieces).
  rewrite split_on_app_sep by done. by rewrite IH.
Qed.

Lemma free_of_str_join (sep by_ : ascii) (pieces : list string) :
  Ascii.eqb by_ sep = false → Forall (λ s, free_of sep s = true) pieces →
  free_of sep (str_join (String by_ "") pieces) = true.
Proof.
  intros Hne. induction pieces as [| s pieces IH]; [done |]. intros Hfree.
  apply Forall_cons in Hfree as [Hs Hfree].
  destruct pieces as [| s' pieces]; [done |].
  change (free_of sep (s +:+ String by_ (str_join (String by_ "") (s' :: pieces))) = true).
  rewrite free_of_app, Hs. cbn [free_of andb]. rewrite Hne. cbn. by apply IH.
Qed.

(** Digits hold neither a tab nor a newline. *)
Lemma all_digits_free_of (sep : ascii) (s : string) :
  is_digit sep = false → all_digits s = true → free_of sep s = true.
Proof.
  intros Hsep. induction s as [| a s IH]; [done |].
  cbn. intros [Ha Hs]%andb_true_iff. rewrite IH by done.
  destruct (Ascii.eqb_spec a sep) as [-> | _]; [congruence | done].
Qed.

Lemma is_decimal_integer_is_field (s : string) :
  is_decimal_integer s = true → is_field s = true.
Proof.
  unfold is_decimal_integer, is_field, is_digits.
  destruct s as [| a s]; [done |].
  destruct (Ascii.eqb_spec a "-") as [-> | _].
  - destruct s as [| b s]; [done |]. intros H.
    change (free_of "009" (String "-" (String b s))) with (free_of "009" (String b s)).
    change (free_of "010" (String "-" (String b s))) with (free_of "010" (String b s)).
    by rewrite !all_digits_free_of.
  - intros H. by rewrite !all_digits_free_of.
Qed.

(** The digits printed by [pretty]. *)
Lemma pretty_N_char_is_digit (x : N) : is_digit (pretty_N_char x) = true.
Proof. unfold pretty_N_char. by repeat case_match. Qed.

Lemma pretty_N_go_digits (x : N) (s : string) :
  all_digits s = true → all_digits (pretty_N_go x s) = true.
Proof.
  revert s. induction (N.lt_wf_0 x) as [x _ IH]; intros s Hs.
  destruct (decide (x = 0%N)) as [-> | Hx]; [by rewrite pretty_N_go_0 |].
  rewrite pretty_N_go_step by lia. apply IH.
  - apply N.div_lt; lia.
  - cbn. by rewrite pretty_N_char_is_digit.
Qed.

Lemma pretty_N_go_nonempty (x : N) (s : string) :
  s ≠ "" → pretty_N_go x s ≠ "".
Proof.
  revert s. induction (N.lt_wf_0 x) as [x _ IH]; intros s Hs.
  destruct (decide (x = 0%N)) as [-> | Hx]; [by rewrite pretty_N_go_0 |].
  rewrite pretty_N_go_step by lia. apply IH; [apply N.div_lt; lia | done].
Qed.

Lemma pretty_positive_is_digits (p : positive) : is_digits (pretty p) = true.
Proof.
  unfold pretty, pretty_positive, pretty, pretty_N.
  rewrite decide_False by done.
  assert (Hd := pretty_N_go_digits (N.pos p) "" eq_refl).
  assert (Hn : pretty_N_go (N.pos p) "" ≠ "").
  { rewrite pretty_N_go_step by lia. by apply pretty_N_go_nonempty. }
  unfold is_digits. by destruct (pretty_N_go (N.pos p) "").
Qed.

(** [str] of an [int] is a decimal integer. *)
Lemma pretty_Z_is_decimal_integer (z : Z) : is_decimal_integer (pretty z) = true.
Proof.
  destruct z as [| p | p]; [done | |].
  - change (pretty (Z.pos p)) with (pretty p).
    assert (H := pretty_positive_is_digits p).
    unfold is_decimal_integer, is_digits in *.
    destruct (pretty p) as [| a s]; [done |].
    destruct (Ascii.eqb_spec a "-") as [-> | _]; [done | done].
  - change (pretty (Z.neg p)) with ("-" +:+ pretty p).
    change ("-" +:+ pretty p) with (String "-" (pretty p)).
    cbn. apply pretty_positive_is_digits.
Qed.

Lemma str_app_nil_r (s : string) : s +:+ "" = s.
Proof.
  induction s as [| a s IH]; [done |].
  change (String a (s +:+ "") = String a s). by rewrite IH.
Qed.

Lemma cookie_file_text_lines (cookies : list Cookie) :
  cookie_file_text cookies = cookie_header +:+ cookie_lines_text cookies.
Proof.
  unfold cookie_file_text. generalize cookie_header as text.
  induction cookies as [| c cookies IH]; intros text; cbn [foldl foldr cookie_lines_text].
  - by rewrite str_app_nil_r.
  - rewrite IH. apply str_app_assoc.
Qed.

Lemma cookie_fields_are_fields (c : Cookie) :
  cookie_fits c → Forall (λ s, is_field s = true) (cookie_fields c).
Proof.
  intros (Hd & _ & Hp & Hn & Hv & He). unfold cookie_fields.
  repeat apply Forall_cons_2; try done.
  - by destruct (is_prefix "." _).
  - by destruct (default false (c_secure c)).
  - apply is_decimal_integer_is_field.
    destruct (c_expires c) as [[z | x] |]; cbn; [| by destruct (He x) | done].
    apply pretty_Z_is_decimal_integer.
Qed.

(** The line of a fitting cookie splits into its seven fields. *)
Lemma cookie_line_fields (c : Cookie) :
  cookie_fits c → split_on "009" (str_join tab (cookie_fields c)) = cookie_fields c.
Proof.
  intros Hfits. apply (split_on_str_join "009"); [done |].
  eapply Forall_impl; [by apply cookie_fields_are_fields |].
  intros s. unfold is_field. by intros [? _]%andb_true_iff.
Qed.

Lemma cookie_line_free_of_newline (c : Cookie) :
  cookie_fits c → free_of "010" (str_join tab (cookie_fields c)) = true.
Proof.
  intros Hfits. apply (free_of_str_join "010" "009"); [done |].
  eapply Forall_impl; [by apply cookie_fields_are_fields |].
  intros s. unfold is_field. by intros [_ ?]%andb_true_iff.
Qed.

Lemma cookie_lines_text_split (cookies : list Cookie) :
  Forall cookie_fits cookies →
  split_on "010" (cookie_lines_text cookies) =
    (((λ c, str_join tab (cookie_fields c)) <$> cookies) ++ [""])%list.
Proof.
  induction cookies as [| c cookies IH]; [done |]. intros Hfits.
  apply Forall_cons in Hfits as [Hc Hfits].
  cbn [cookie_lines_text foldr fmap list_fmap app]. fold (cookie_lines_text cookies).
  unfold cookie_line. rewrite str_app_assoc.
  change (nl +:+ cookie_lines_text cookies) with (String "010" (cookie_lines_text cookies)).
  rewrite split_on_app_sep by by apply cookie_line_free_of_newline.
  by rewrite IH.
Qed.

(** The line of a cookie starts with [#] only if its domain does. *)
Lemma cookie_line_starts (c : Cookie) :
  let line := str_join tab (cookie_fields c) in
  line ≠ "" ∧ is_prefix "#" line = is_prefix "#" (default "" (c_domain c)).
Proof.
  unfold cookie_fields. cbv zeta.
  destruct (default "" (c_domain c)) as [| a domain]; [done |].
  split; [discriminate | done].
Qed.

Lemma read_cookie_line_cookie (c : Cookie) :
  cookie_fits c →
  read_cookie_line (str_join tab (cookie_fields c)) = Some (cookie_triple c).
Proof.
  intros Hfits. unfold read_cookie_line.
  destruct (cookie_line_starts c) as [_ ->].
  pose proof Hfits as (_ & Hhash & _). rewrite Hhash.
  by rewrite cookie_line_fields.
Qed.

Lemma read_cookie_lines (cookies : list Cookie) :
  Forall cookie_fits cookies →
  omap read_cookie_line
    (filter (λ line, line ≠ "")
       ((((λ c, str_join tab (cookie_fields c)) <$> cookies) ++ [""])%list)) =
  cookie_triple <$> cookies.
Proof.
  induction cookies as [| c cookies IH]; [done |]. intros Hfits.
  apply Forall_cons in Hfits as [Hc Hfits].
  cbn [fmap list_fmap app]. rewrite filter_cons.
  destruct (decide _) as [_ | Hempty].
  - cbn [omap list_omap]. rewrite read_cookie_line_cookie by done.
    f_equal. by apply IH.
  - destruct Hempty. apply cookie_line_starts.
Qed.

(** X2. For cookies that fit the layout, and so hold integer expiry times,
    [save_cookies_to_file] writes the header line and then one line per
    cookie; a line splits on tabs into the domain, the subdomain flag, the
    path, the secure flag, the expiry, the name and the value; the flags
    are TRUE or FALSE, the expiry is a decimal integer, 0 when absent; and
    the reader recovers the domain, name and value of every cookie. *)
Theorem save_cookies_to_file_layout (cookies : list Cookie) (filename : string) (w : World) :
  Forall cookie_fits cookies →
  let text := cookie_file_text cookies in
  files (save_cookies_to_file cookies filename w).2 !! filename = Some text ∧
  split_on "010" text =
    "# Netscape HTTP Cookie File" ::
      (((λ c, str_join tab (cookie_fields c)) <$> cookies) ++ [""])%list ∧
  Forall (λ c, ∃ flag secure expiry,
            split_on "009" (str_join tab (cookie_fields c)) =
              [default "" (c_domain c); flag; default "/" (c_path c); secure; expiry;
               default "" (c_name c); default "" (c_value c)] ∧
            (flag = "TRUE" ∨ flag = "FALSE") ∧
            (secure = "TRUE" ∨ secure = "FALSE") ∧
            is_decimal_integer expiry = true ∧
            (c_expires c = None → expiry = "0")) cookies ∧
  read_cookie_file text = cookie_triple <$> cookies.
Proof.
  intros Hfits text.
  assert (Hlines : split_on "010" text =
            "# Netscape HTTP Cookie File" ::
              (((λ c, str_join tab (cookie_fields c)) <$> cookies) ++ [""])%list).
  { subst text. rewrite cookie_file_text_lines. unfold cookie_header.
    rewrite str_app_assoc.
    change (nl +:+ cookie_lines_text cookies) with (String "010" (cookie_lines_text cookies)).
    rewrite split_on_app_sep by done. by rewrite cookie_lines_text_split. }
  split; [cbn; apply lookup_insert_eq |]. split; [exact Hlines |]. split.
  - eapply Forall_impl; [exact Hfits |]. intros c Hc.
    rewrite cookie_line_fields by done. unfold cookie_fields.
    eexists _, _, _. split; [reflexivity |].
    split; [destruct (is_prefix "." _); auto |].
    split; [destruct (default false (c_secure c)); auto |].
    destruct Hc as (_ & _ & _ & _ & _ & He).
    destruct (c_expires c) as [[z | x] |]; cbn.
    + split; [apply pretty_Z_is_decimal_integer | done].
    + by destruct (He x).
    + done.
  - unfold read_cookie_file. rewrite Hlines. rewrite filter_cons.
    destruct (decide _) as [_ | Hempty]; [| by destruct Hempty].
    cbn [omap list_omap]. change (read_cookie_line "# Netscape HTTP Cookie File") with
      (@None (string * string * string)).
    by apply read_cookie_lines.
Qed.

(** *** Further properties of the quality resolver *)

(** The tiers returned, by membership. *)
Lemma elem_of_available_buckets (q : string) (info : Info) :
  let formats := default [] (i_formats info) in
  q ∈ available_buckets info ↔
    (q ∈ ALL_QUALITIES ∧ ∃ f, f ∈ formats ∧ satisfies q f) ∨
    (no_tier_satisfied formats ∧ q = "360p").
Proof.
  cbv zeta.
  destruct (available_buckets_cases info) as [[Hnil Hr] | [Hne Hr]]; cbv zeta in *;
    rewrite Hr.
  - assert (Hno : no_tier_satisfied (default [] (i_formats info))).
    { intros q' f Hq Hf Hs.
      assert (Hin : q' ∈ filter (λ q, q ∈ foldl bucket_step ∅ (default [] (i_formats info)))
                         ALL_QUALITIES).
      { apply list_elem_of_filter. split; [| done].
        apply elem_of_bucket_avail. split; [done |]. by exists f. }
      rewrite Hnil in Hin. by apply elem_of_nil in Hin. }
    rewrite list_elem_of_singleton. split; [by right |].
    intros [(Hq & f & Hf & Hs) | [_ ->]]; [by destruct (Hno q f) | done].
  - rewrite list_elem_of_filter, elem_of_bucket_avail. split.
    + intros [[Hq Hex] _]. by left.
    + intros [[Hq Hex] | [Hno ->]]; [done |].
      exfalso. apply Hne.
      destruct (filter _ ALL_QUALITIES) as [| q r] eqn:E; [done |].
      assert (Hin : q ∈ q :: r) by left.
      rewrite <- E in Hin. apply list_elem_of_filter in Hin as [Hq Hall].
      apply elem_of_bucket_avail in Hq as [_ [f [Hf Hs]]].
      by destruct (Hno q f).
Qed.

Lemma NoDup_ALL_QUALITIES : NoDup ALL_QUALITIES.
Proof. apply (bool_decide_unpack _). by vm_compute. Qed.

(** The predicate of a given tier. *)
Ltac tier_cases :=
  unfold satisfies, tier_predicate in *;
  repeat first [ rewrite decide_True in * by done | rewrite decide_False in * by done ].

(** Boolean comparisons as inequalities. *)
Ltac bool_to_Z :=
  rewrite ?andb_true_iff, ?Z.leb_le, ?Z.ltb_lt in *.

(** A tier whose predicate implies that of another brings it along. *)
Lemma available_buckets_implied (q1 q2 : string) (info : Info) :
  q2 ∈ ALL_QUALITIES → q1 ≠ "360p" →
  (∀ h f, tier_predicate q1 h f = true → tier_predicate q2 h f = true) →
  q1 ∈ available_buckets info → q2 ∈ available_buckets info.
Proof.
  intros Hq2 Hne Himp. rewrite !elem_of_available_buckets. cbv zeta.
  intros [(_ & f & Hf & Hs) | [_ ->]]; [| done].
  left. split; [done |]. exists f. split; [done |]. by apply Himp.
Qed.

(** X3. The list of tiers is never empty and has no duplicate, so the
    selector always has a first item; and it is closed under the order of
    the predicates: with 2k comes 1080p, with 1080p60 come 1080p and
    720p60, with 720p60 comes 720p or 1080p. *)
Theorem available_buckets_shape (info : Info) :
  let tiers := available_buckets info in
  tiers ≠ [] ∧ NoDup tiers ∧
  ("2k" ∈ tiers → "1080p" ∈ tiers) ∧
  ("1080p60" ∈ tiers → "1080p" ∈ tiers ∧ "720p60" ∈ tiers) ∧
  ("720p60" ∈ tiers → "720p" ∈ tiers ∨ "1080p" ∈ tiers).
Proof.
  cbv zeta.
  assert (Hin : ∀ q, q ∈ ["2k"; "1080p60"; "1080p"; "720p60"; "720p"; "360p"; "240p"; "144p"]
                     → q ∈ ALL_QUALITIES) by done.
  split; [| split; [| split; [| split]]].
  - destruct (available_buckets_cases info) as [[_ ->] | [Hne ->]]; done.
  - destruct (available_buckets_cases info) as [[_ ->] | [_ ->]]; cbv zeta.
    + apply NoDup_singleton.
    + apply NoDup_filter, NoDup_ALL_QUALITIES.
  - apply available_buckets_implied; [apply Hin; elem_of_list | done |].
    intros h f. tier_cases. bool_to_Z. lia.
  - intros H. split; revert H.
    + apply available_buckets_implied; [apply Hin; elem_of_list | done |].
      intros h f. tier_cases. bool_to_Z. lia.
    + apply available_buckets_implied; [apply Hin; elem_of_list | done |].
      intros h f. tier_cases. bool_to_Z. lia.
  - rewrite !elem_of_available_buckets. cbv zeta.
    intros [(_ & f & Hf & Hs) | [_ [=]]].
    destruct (or_zero (f_height f) <? 1080) eqn:Hh.
    + left. left. split; [apply Hin; elem_of_list |].
      exists f. split; [done |]. tier_cases. bool_to_Z. lia.
    + right. left. split; [apply Hin; elem_of_list |].
      exists f. split; [done |]. apply Z.ltb_ge in Hh. tier_cases. bool_to_Z. lia.
Qed.

(** X4. The tiers depend on the variants only as a set: order and
    repetition in [formats] do not matter. Adding variants never removes
    a tier, unless the first list had only the fallback tier to show. *)
Theorem available_buckets_variants (info1 info2 : Info) :
  let formats1 := default [] (i_formats info1) in
  let formats2 := default [] (i_formats info2) in
  ((∀ f, f ∈ formats1 ↔ f ∈ formats2) →
     available_buckets info1 = available_buckets info2) ∧
  ((∀ f, f ∈ formats1 → f ∈ formats2) → ¬ no_tier_satisfied formats1 →
     ∀ q, q ∈ available_buckets info1 → q ∈ available_buckets info2).
Proof.
  cbv zeta. split.
  - intros Hsame. unfold available_buckets.
    assert (E : foldl bucket_step ∅ (default [] (i_formats info1)) =
                foldl bucket_step ∅ (default [] (i_formats info2))).
    { apply set_eq. intros q. rewrite !elem_of_bucket_avail.
      split; intros (Hq & f & Hf & Hs); (split; [done |]); exists f;
        (split; [by apply Hsame | done]). }
    by rewrite E.
  - intros Hsub Hsome q. rewrite !elem_of_available_buckets. cbv zeta.
    intros [(Hq & f & Hf & Hs) | [Hno _]]; [| done].
    left. split; [done |]. exists f. split; [by apply Hsub | done].
Qed.

(** *** Further properties of the control channel *)

(** X5. The receive loop returns the chunks up to and including the first
    one that holds a newline, joined in order, and reads no further; when
    the peer closes first it returns what has arrived; an error of [recv]
    is raised as it is. *)
Theorem recv_loop_framing (chunks : list bytes) (response : bytes) :
  Forall (λ chunk, chunk ≠ [] ∧ has_newline chunk = false) chunks →
  (∀ last rest, last ≠ [] → has_newline last = true →
     recv_loop ((inr <$> chunks) ++ inr last :: rest) response =
       ok (response ++ concat chunks ++ last)%list) ∧
  recv_loop (inr <$> chunks) response = ok (response ++ concat chunks)%list ∧
  (∀ rest, recv_loop ((inr <$> chunks) ++ inr [] :: rest) response =
       ok (response ++ concat chunks)%list) ∧
  (∀ e rest, recv_loop ((inr <$> chunks) ++ inl e :: rest) response = raise e).
Proof.
  revert response. induction chunks as [| chunk chunks IH]; intros response Hall.
  - cbn. rewrite app_nil_r. repeat split.
    intros last rest Hne Hnl. destruct last as [| b last]; [done |]. by rewrite Hnl.
  - apply Forall_cons in Hall as [[Hne Hnl] Hall].
    destruct chunk as [| b chunk]; [done |].
    cbn [fmap list_fmap app recv_loop concat]. rewrite Hnl.
    destruct (IH (response ++ b :: chunk)%list Hall) as (H1 & H2 & H3 & H4).
    repeat split.
    + intros last rest Hl Hn. cbn [app]. rewrite H1 by done. by rewrite <- !app_assoc.
    + cbn [app]. rewrite H2. by rewrite <- !app_assoc.
    + intros rest. cbn [app]. rewrite H3. by rewrite <- !app_assoc.
    + intros e rest. cbn [app]. by rewrite H4.
Qed.

(** *** Further properties of the launches *)

Lemma kill_mpv_command (c : Client) (w : World) :
  kill_mpv c w =
    match kill_command (os_type env) with
    | Some command => (c, log (CallSystem command) w)
    | None => (console_append "Unsupported OS for killing mpv." c, w)
    end.
Proof. unfold kill_mpv, kill_command. by repeat case_decide. Qed.

(** X6. A merged launch with a url kills before it starts: the calls are
    the kill command of the platform and then the start of [mpv]. On a
    platform other than Windows, Linux and Darwin nothing is killed, the
    console says so, and [mpv] is started all the same. Without a url
    nothing is killed or started. The caches and the files are never
    touched. *)
Theorem launch_mpv_merged_teardown (q : string) (t : float) (c : Client) (w : World) :
  let c' := (launch_mpv_merged q t c w).1 in
  let w' := (launch_mpv_merged q t c w).2 in
  let launching := "Launching mpv with '" +:+ q +:+ "' at " +:+ fmt_1f env t +:+ "s" in
  store w' = store w ∧
  (∀ url, current_video_url c = Some url → str_truthy url = true →
     let start := CallStart "mpv" (merged_args c q url t) in
     (os_type env = "Windows" →
        new_calls w w' = [CallSystem "taskkill /F /IM mpv.exe"; start] ∧
        console_output c' = (console_output c ++ [launching])%list) ∧
     (os_type env = "Linux" ∨ os_type env = "Darwin" →
        new_calls w w' = [CallSystem "pkill mpv"; start] ∧
        console_output c' = (console_output c ++ [launching])%list) ∧
     (kill_command (os_type env) = None →
        new_calls w w' = [start] ∧
        console_output c' =
          (console_output c ++ ["Unsupported OS for killing mpv."; launching])%list)) ∧
  (opt_truthy (current_video_url c) = false →
     w' = w ∧ player_process c' = player_process c ∧
     console_output c' = (console_output c ++ ["No URL to play."])%list).
Proof.
  cbv zeta. unfold launch_mpv_merged. rewrite kill_mpv_command.
  split; [| split].
  - destruct (current_video_url c) as [url |]; [destruct (str_truthy url) |]; try done.
    by destruct (kill_command (os_type env)).
  - intros url -> ->.
    assert (Hkill : ∀ command, kill_command (os_type env) = Some command →
      new_calls w
        (let '(c0, w0) :=
           match kill_command (os_type env) with
           | Some command => (c, log (CallSystem command) w)
           | None => (console_append "Unsupported OS for killing mpv." c, w)
           end in
         (set_player_process (Some (mkProcess "mpv" (merged_args c q url t)))
            (console_append
               ("Launching mpv with '" +:+ q +:+ "' at " +:+ fmt_1f env t +:+ "s") c0),
          log (CallStart "mpv" (merged_args c q url t)) w0)).2 =
        [CallSystem command; CallStart "mpv" (merged_args c q url t)] ∧
      console_output
        (let '(c0, w0) :=
           match kill_command (os_type env) with
           | Some command => (c, log (CallSystem command) w)
           | None => (console_append "Unsupported OS for killing mpv." c, w)
           end in
         (set_player_process (Some (mkProcess "mpv" (merged_args c q url t)))
            (console_append
               ("Launching mpv with '" +:+ q +:+ "' at " +:+ fmt_1f env t +:+ "s") c0),
          log (CallStart "mpv" (merged_args c q url t)) w0)).1 =
        (console_output c ++
           ["Launching mpv with '" +:+ q +:+ "' at " +:+ fmt_1f env t +:+ "s"])%list).
    { intros command ->. split; [| done].
      apply new_calls_app. unfold log. cbn [snd history].
      by rewrite <- (assoc_L (++)). }
    split; [| split].
    + intros Hos. apply Hkill. unfold kill_command. by rewrite Hos.
    + intros [Hos | Hos]; apply Hkill; unfold kill_command; by rewrite Hos.
    + intros ->. split; [by apply new_calls_app |].
      unfold console_append, set_player_process. cbn [fst console_output].
      by rewrite <- (assoc_L (++)).
  - destruct (current_video_url c) as [url |]; cbn; [| done].
    by intros ->.
Qed.

(** X7. With video info at hand, [watch_separate_streams] starts the two
    processes exactly when the formats hold a video-only variant with a
    non-empty url and an audio-only variant with a non-empty url, and then
    on the urls of the first such variants; a variant with an empty url is
    passed over. The calls it makes are the kill command of the platform,
    if it has one, the start of the video player, embedded unless the
    client is detached, and the start of the audio player; the caches and
    the files are not touched, and the handle of the merged player is left
    as it was. In every other case it falls back to the merged launch. *)
Theorem watch_separate_streams_usable (info : Info) (c : Client) (w : World) :
  current_info c = Some info → info_truthy info = true →
  let formats := default [] (i_formats info) in
  let video f := is_video_only f ∧ str_truthy (f_url f) = true in
  let audio f := is_audio_only f ∧ str_truthy (f_url f) = true in
  let c' := (watch_separate_streams c w).1 in
  let w' := (watch_separate_streams c w).2 in
  ((∃ f, f ∈ formats ∧ video f) → (∃ f, f ∈ formats ∧ audio f) →
     ∃ fv fa,
       first_such video fv formats ∧ first_such audio fa formats ∧
       let embed := if is_detached c then [] else ["--wid=" +:+ pretty (win_id c)] in
       let video_args :=
         (embed ++ [ "--no-audio"; "--osc"; "--cache=yes"; "--demuxer-thread=yes";
                     "--input-ipc-server=/tmp/mpv_video"; f_url fv ])%list in
       let audio_args :=
         [ "--no-video"; "--osc"; "--cache=yes"; "--demuxer-thread=yes";
           "--input-ipc-server=/tmp/mpv_audio"; f_url fa ] in
       let kill := match kill_command (os_type env) with
                   | Some command => [CallSystem command]
                   | None => []
                   end in
       video_process c' = Some (mkProcess "mpv" video_args) ∧
       audio_process c' = Some (mkProcess "mpv" audio_args) ∧
       sync_timer c' = Some 1000 ∧
       player_process c' = player_process c ∧
       new_calls w w' =
         (kill ++ [CallStart "mpv" video_args; CallStart "mpv" audio_args])%list ∧
       store w' = store w) ∧
  (¬ ((∃ f, f ∈ formats ∧ video f) ∧ (∃ f, f ∈ formats ∧ audio f)) →
     watch_separate_streams c w =
       launch_mpv_merged (combo_currentText c) 0%float
         (console_append "No separate streams found; fallback merged." c) w).
Proof.
  intros Hinfo Htruthy formats video audio c' w'. subst c' w'.
  unfold watch_separate_streams. rewrite Hinfo, Htruthy. fold formats.
  rewrite foldl_stream_step.
  destruct (foldl_pick_step_first is_video_only formats None eq_refl) as [Hv1 Hv0].
  destruct (foldl_pick_step_first is_audio_only formats None eq_refl) as [Ha1 Ha0].
  cbv zeta in *. split.
  - intros Hv Ha.
    destruct (Hv1 Hv) as (fv & Hfv & ->). destruct (Ha1 Ha) as (fa & Hfa & ->).
    exists fv, fa. split; [done |]. split; [done |].
    assert (Tv : str_truthy (f_url fv) = true) by by destruct Hfv as (? & ? & _ & [_ ?] & _).
    assert (Ta : str_truthy (f_url fa) = true) by by destruct Hfa as (? & ? & _ & [_ ?] & _).
    cbn [opt_truthy]. rewrite Tv, Ta. cbn [negb orb default].
    rewrite kill_mpv_command.
    unfold separate_video_args, separate_audio_args, video_ipc, audio_ipc.
    destruct (kill_command (os_type env)) as [command |]; cbn; destruct (is_detached c); cbn.
    all: repeat (split; [done |]).
    all: split; [| done].
    all: apply new_calls_app; cbn; by rewrite <- ?app_assoc.
  - intros Hnot.
    assert (Hcond : negb (opt_truthy
                (foldl (pick_step (λ f, bool_decide (is_video_only f))) None formats)) ||
              negb (opt_truthy
                (foldl (pick_step (λ f, bool_decide (is_audio_only f))) None formats)) = true).
    { destruct (opt_truthy
                 (foldl (pick_step (λ f, bool_decide (is_video_only f))) None formats))
        eqn:Ev; [| done].
      destruct (opt_truthy
                 (foldl (pick_step (λ f, bool_decide (is_audio_only f))) None formats))
        eqn:Ea; [| done].
      exfalso.
      assert (Hnv : ¬ ¬ (∃ f, f ∈ formats ∧ video f))
        by (intros Hv; specialize (Hv0 Hv); congruence).
      assert (Hna : ¬ ¬ (∃ f, f ∈ formats ∧ audio f))
        by (intros Ha; specialize (Ha0 Ha); congruence).
      apply Hnv. intros Hv. apply Hna. intros Ha. by apply Hnot. }
    by rewrite Hcond.
Qed.

(** *** [toggle_detach] and [go_back] *)

Lemma has_wid_option_merged_args (c : Client) (q url : string) (t : float) :
  has_wid_option (merged_args c q url t) = negb (is_detached c).
Proof.
  unfold has_wid_option, merged_args, merged_base_args.
  by destruct (is_detached c), (0 <? t)%float.
Qed.

Lemma launch_mpv_merged_store (q : string) (t : float) (c : Client) (w : World) :
  store (launch_mpv_merged q t c w).2 = store w.
Proof.
  unfold launch_mpv_merged. rewrite kill_mpv_command.
  destruct (current_video_url c) as [url |]; [destruct (str_truthy url) |]; try done.
  by destruct (kill_command (os_type env)).
Qed.

Lemma launch_mpv_merged_idle (q : string) (t : float) (c : Client) (w : World) :
  opt_truthy (current_video_url c) = false →
  launch_mpv_merged q t c w = (console_append "No URL to play." c, w).
Proof.
  unfold launch_mpv_merged. destruct (current_video_url c) as [url |]; [| done].
  cbn. by intros ->.
Qed.

Lemma toggle_detach_idle (c : Client) (w : World) :
  opt_truthy (current_video_url c) && has_key (player_process c) = false →
  toggle_detach c w =
    (console_append (if is_detached c then "Now in embedded mode." else "Now in detached mode.")
       (set_is_detached (negb (is_detached c)) c), w).
Proof.
  intros Hidle. unfold toggle_detach.
  destruct c as [? ? ? ? d ? ? ? ? ? ? ? ? ? ? ? ? ?]. cbn in Hidle.
  destruct d; cbn; by rewrite Hidle.
Qed.

(** X8. [toggle_detach] flips the mode. With a url and a merged player it
    starts [mpv] again, embedded in the window exactly when the mode was
    detached before, at the offset the running player reports, on the same
    url and with the format of the selected quality. Without a url or
    without a merged player it makes no call, and a second press restores
    every attribute of the session. The caches and the files are never
    touched. *)
Theorem toggle_detach_relaunch (c : Client) (w : World) :
  let c' := (toggle_detach c w).1 in
  let w' := (toggle_detach c w).2 in
  is_detached c' = negb (is_detached c) ∧
  store w' = store w ∧
  (∀ url p, current_video_url c = Some url → str_truthy url = true →
     player_process c = Some p →
     let t := get_current_playback_time w "/tmp/mpvsocket" in
     ∃ args,
       player_process c' = Some (mkProcess "mpv" args) ∧
       last (history w') = Some (CallStart "mpv" args) ∧
       has_wid_option args = is_detached c ∧
       has_start_option args = (0 <? t)%float ∧
       last args = Some url ∧
       "--ytdl-format=" +:+ dict_get FORMAT_MAPPING (combo_currentText c) "best" ∈ args) ∧
  (opt_truthy (current_video_url c) && has_key (player_process c) = false →
     w' = w ∧ player_process c' = player_process c ∧
     session_fields (toggle_detach c' w').1 = session_fields c).
Proof.
  cbv zeta. split; [| split; [| split]]; cycle 3.
  { intros Hidle. rewrite !toggle_detach_idle by done. cbn [fst snd].
    split; [done |]. split; [by destruct (is_detached c) |].
    destruct c as [? ? ? ? d ? ? ? ? ? ? ? ? ? ? ? ? ?]. by destruct d. }
  all: unfold toggle_detach.
  all: set (c1 := if is_detached (set_is_detached (negb (is_detached c)) c)
             then console_append "Now in detached mode."
                    (set_is_detached (negb (is_detached c)) c)
             else console_append "Now in embedded mode."
                    (set_is_detached (negb (is_detached c)) c)).
  all: assert (Hurl : current_video_url c1 = current_video_url c)
    by (subst c1; cbn; by destruct (negb (is_detached c))).
  all: assert (Hp : player_process c1 = player_process c)
    by (subst c1; cbn; by destruct (negb (is_detached c))).
  all: assert (Hd : is_detached c1 = negb (is_detached c))
    by (subst c1; cbn; by destruct (negb (is_detached c))).
  all: assert (Hq : combo_currentText c1 = combo_currentText c)
    by (subst c1; cbn; by destruct (negb (is_detached c))).
  all: rewrite Hurl, Hp, Hq.
  - destruct (opt_truthy (current_video_url c) && has_key (player_process c)) eqn:E; [| done].
    unfold launch_mpv_merged. rewrite kill_mpv_command, Hurl.
    destruct (current_video_url c) as [url |]; [destruct (str_truthy url) |]; try done.
    by destruct (kill_command (os_type env)).
  - destruct (opt_truthy (current_video_url c) && has_key (player_process c)); [| done].
    apply launch_mpv_merged_store.
  - intros url p Hu Ht Hpp. rewrite Hu, Hpp. cbn [opt_truthy has_key]. rewrite Ht. cbn [andb].
    rewrite <- Hurl in Hu.
    destruct (launch_mpv_merged_process (combo_currentText c) url
                (get_current_playback_time w "/tmp/mpvsocket") c1 w Hu Ht) as [H1 H2].
    eexists. split; [exact H1 |]. split; [by rewrite H2, last_snoc |].
    rewrite has_wid_option_merged_args, has_start_option_merged_args, last_merged_args, Hd.
    split; [by destruct (is_detached c) |]. split; [done |]. split; [done |].
    apply elem_of_merged_args_format.
Qed.

(** X9. [go_back] changes the page shown and the console only. From the
    channel page it leads to the playback page when a video is playing in
    the merged player and to the home page otherwise; from the playback
    page it leads home; and from each of the three pages two presses lead
    home. *)
Theorem go_back_reaches_home (c : Client) :
  0 ≤ stacked_index c ≤ 2 →
  session_fields (go_back c) = session_fields c ∧
  length (console_output (go_back c)) = S (length (console_output c)) ∧
  (stacked_index c = 2 →
     stacked_index (go_back c) =
       if opt_truthy (current_video_url c) && has_key (player_process c) then 1 else 0) ∧
  (stacked_index c ≠ 2 → stacked_index (go_back c) = 0) ∧
  stacked_index (go_back (go_back c)) = 0.
Proof.
  intros Hpage. unfold go_back.
  destruct (stacked_index c =? 2) eqn:E2; [apply Z.eqb_eq in E2 | apply Z.eqb_neq in E2].
  - destruct (opt_truthy (current_video_url c) && has_key (player_process c)) eqn:E;
      cbn; rewrite ?E, length_app; cbn; (repeat split; try done; try lia).
  - destruct (stacked_index c =? 1) eqn:E1; [apply Z.eqb_eq in E1 | apply Z.eqb_neq in E1].
    + cbn. rewrite length_app. cbn. repeat split; try done; try lia.
    + assert (E0 : stacked_index c = 0) by lia.
      cbn. rewrite length_app, E0. cbn. repeat split; try done; try lia.
Qed.

(** *** Listings: [get_channel_videos] and [search_youtube] *)

Lemma video_of_videoId (e : Entry) (v : Video) :
  video_of e v → v_videoId v = default "" (e_url e) ∧ v_title v = default "Unknown" (e_title e).
Proof.
  unfold video_of, entry_video, rbind, ok, raise.
  destruct (e_thumbnails e) as [[| t ts] |]; try by intros [= <-].
  destruct (t_url (List.last ts t)); [by intros [= <-] | done].
Qed.

Lemma collect_entries_spec (entries : list Entry) (m count : Z) (acc : list Video) :
  let n := Z.to_nat (Z.max 1 (m - count)) in
  let urls := filter has_url entries in
  ∃ new,
    (collect_entries entries m count acc).1 = (acc ++ new)%list ∧
    match (collect_entries entries m count acc).2 with
    | None => Forall2 video_of (take n urls) new
    | Some e =>
        (length new < n)%nat ∧ Forall2 video_of (take (length new) urls) new ∧
        ∃ bad, urls !! length new = Some bad ∧ entry_video bad = raise e
    end.
Proof.
  cbv zeta. revert count acc.
  induction entries as [| entry rest IH]; intros count acc.
  { exists []. cbn. rewrite app_nil_r. split; [done |]. rewrite take_nil. constructor. }
  cbn [collect_entries].
  destruct (opt_truthy (e_url entry)) eqn:Hu.
  - rewrite filter_cons_True by done.
    destruct (entry_video entry) as [e | v] eqn:Hv.
    + exists []. cbn [fst snd length]. rewrite app_nil_r. split; [done |].
      split; [lia |]. split; [constructor |]. by exists entry.
    + cbv zeta. destruct (m <=? count + 1) eqn:Hm.
      * apply Z.leb_le in Hm. exists [v]. cbn [fst snd]. split; [done |].
        replace (Z.to_nat (Z.max 1 (m - count))) with 1%nat by lia.
        cbn. by repeat constructor.
      * apply Z.leb_gt in Hm.
        destruct (IH (count + 1) (acc ++ [v])%list) as (new & E & Hnew).
        exists (v :: new). rewrite E, <- app_assoc. split; [done |].
        replace (Z.to_nat (Z.max 1 (m - count)))
          with (S (Z.to_nat (Z.max 1 (m - (count + 1))))) by lia.
        destruct (collect_entries rest m (count + 1) (acc ++ [v])%list).2 as [e |].
        -- destruct Hnew as (Hlen & Hall & bad & Hbad & Hraise).
           cbn [length]. split; [lia |]. split; [by constructor |]. by exists bad.
        -- cbn [take]. by constructor.
  - rewrite filter_cons_False by (unfold has_url; congruence). apply IH.
Qed.

(** X10. A channel listing made by the backend holds the videos of the
    first url-bearing entries, in their order, and at most
    [max(1, max_results)] of them; it stops short of that bound and of the
    last url-bearing entry only at an entry whose last thumbnail lacks a
    url, keeping what it had collected. Every listed video has a non-empty
    id, and the listing is what the cache then holds under the key. *)
Theorem get_channel_videos_listing (channel_url : string) (max_results : Z)
    (data : ChannelData) (w : World) :
  str_truthy channel_url = true →
  channel_videos_cache w !! (channel_url, max_results) = None →
  ydl_extract_flat env w channel_url = inr data →
  let urls := filter has_url (default [] (d_entries data)) in
  let results := (get_channel_videos channel_url max_results w).1 in
  let w' := (get_channel_videos channel_url max_results w).2 in
  (length results ≤ Z.to_nat (Z.max 1 max_results))%nat ∧
  Forall2 video_of (take (length results) urls) results ∧
  ((length results < Z.to_nat (Z.max 1 max_results))%nat →
   (length results < length urls)%nat →
   ∃ bad e, urls !! length results = Some bad ∧ entry_video bad = raise e) ∧
  (∀ v, v ∈ results → str_truthy (v_videoId v) = true) ∧
  channel_videos_cache w' !! (channel_url, max_results) = Some results.
Proof.
  intros Ht Hmiss Hy. cbv zeta.
  unfold get_channel_videos. rewrite Ht, Hmiss, Hy. cbn [negb fst snd].
  cbn [set_channel_videos_cache channel_videos_cache log].
  rewrite lookup_insert_eq.
  destruct (collect_entries_spec (default [] (d_entries data)) max_results 0 [])
    as (new & E & Hnew).
  cbv zeta in Hnew. rewrite E. cbn [app]. rewrite Z.sub_0_r in Hnew.
  set (urls := filter has_url (default [] (d_entries data))) in *.
  set (n := Z.to_nat (Z.max 1 max_results)) in *.
  assert (Hall : Forall2 video_of (take (length new) urls) new ∧ (length new ≤ n)%nat ∧
                 ((length new < n)%nat → (length new < length urls)%nat →
                  ∃ bad e, urls !! length new = Some bad ∧ entry_video bad = raise e)).
  { destruct (collect_entries (default [] (d_entries data)) max_results 0 []).2 as [e |].
    - destruct Hnew as (Hlen & Hall & bad & Hbad & Hraise).
      split; [done |]. split; [lia |]. intros _ _. by exists bad, e.
    - pose proof (Forall2_length _ _ _ Hnew) as Hlen. rewrite length_take in Hlen.
      split; [| split; [lia | lia]].
      rewrite <- Hlen, <- take_take. by rewrite (take_ge urls (length urls)) by lia. }
  destruct Hall as (Hall & Hlen & Hshort).
  split; [done |]. split; [done |]. split; [done |]. split; [| done].
  intros v Hv.
  destruct (proj1 (list_elem_of_lookup _ _) Hv) as [i Hi].
  destruct (Forall2_lookup_r _ _ _ _ _ Hall Hi) as (e & He & Hvid).
  apply video_of_videoId in Hvid as [-> _].
  apply lookup_take_Some in He as [He _].
  apply list_elem_of_lookup_2, list_elem_of_filter in He as [Hurl _].
  unfold has_url in Hurl. by destruct (e_url e).
Qed.

Lemma search_entries_spec (entries : list Entry) (acc : list Video) :
  match search_entries entries acc with
  | inr results =>
      ∃ new, results = (acc ++ new)%list ∧ Forall2 video_of (filter has_url entries) new
  | inl e => ∃ bad, bad ∈ entries ∧ has_url bad ∧ entry_video bad = raise e
  end.
Proof.
  revert acc. induction entries as [| entry rest IH]; intros acc.
  { exists []. cbn. rewrite app_nil_r. split; [done | constructor]. }
  cbn [search_entries].
  destruct (opt_truthy (e_url entry)) eqn:Hu; cbn [negb].
  - rewrite filter_cons_True by done.
    destruct (entry_video entry) as [e | v] eqn:Hv; cbn [rbind].
    + exists entry. split; [left | done].
    + specialize (IH (acc ++ [v])%list).
      destruct (search_entries rest (acc ++ [v])%list) as [e | results].
      * destruct IH as (bad & Hin & Hbad). exists bad. split; [by right | done].
      * destruct IH as (new & -> & Hall). exists (v :: new).
        rewrite <- app_assoc. split; [done | by constructor].
  - rewrite filter_cons_False by (unfold has_url; congruence).
    specialize (IH acc). destruct (search_entries rest acc) as [e | results].
    + destruct IH as (bad & Hin & Hbad). exists bad. split; [by right | done].
    + done.
Qed.

Lemma search_youtube_miss_calls (query : string) (max_results : Z)
    (cache : gmap (string * Z) (list Video)) (w : World) :
  cache !! (query, max_results) = None →
  history (search_youtube query max_results cache w).2 =
    (history w ++ [CallExtractFlat ("ytsearch" +:+ pretty max_results +:+ ":" +:+ query)])%list ∧
  store (search_youtube query max_results cache w).2 = store w.
Proof.
  intros Hmiss. unfold search_youtube. rewrite Hmiss.
  destruct (ydl_extract_flat env w _) as [e | data]; [done |].
  by destruct (search_entries (default [] (d_entries data)) []).
Qed.

(** X11. A search that is not in the cache calls the backend once, on
    [ytsearch<max_results>:<query>]. When it succeeds, the results are the
    videos of all url-bearing entries in their order, whatever their
    number, they are stored under the key, and the same search again
    returns them without a call. When the backend raises, or an entry's
    last thumbnail lacks a url, the exception is the result and the cache
    is left as it was, so that the same search again calls the backend
    again. *)
Theorem search_youtube_memoizes_success (query : string) (max_results : Z)
    (cache : gmap (string * Z) (list Video)) (w : World) :
  cache !! (query, max_results) = None →
  let expr := "ytsearch" +:+ pretty max_results +:+ ":" +:+ query in
  let run := search_youtube query max_results cache w in
  let again := search_youtube query max_results run.1.2 run.2 in
  new_calls w run.2 = [CallExtractFlat expr] ∧
  store run.2 = store w ∧
  match run.1.1 with
  | inr results =>
      (∃ data, ydl_extract_flat env w expr = inr data ∧
         Forall2 video_of (filter has_url (default [] (d_entries data))) results) ∧
      run.1.2 = <[(query, max_results) := results]> cache ∧
      again = run
  | inl e =>
      (ydl_extract_flat env w expr = inl e ∨
       ∃ data bad, ydl_extract_flat env w expr = inr data ∧
         bad ∈ default [] (d_entries data) ∧ has_url bad ∧ entry_video bad = raise e) ∧
      run.1.2 = cache ∧
      new_calls run.2 again.2 = [CallExtractFlat expr]
  end.
Proof.
  intros Hmiss. cbv zeta.
  destruct (search_youtube_miss_calls query max_results cache w Hmiss) as [Hcalls Hstore].
  split; [by apply new_calls_app |]. split; [done |].
  assert (Hrun : search_youtube query max_results cache w =
            let expr := "ytsearch" +:+ pretty max_results +:+ ":" +:+ query in
            match ydl_extract_flat env w expr with
            | inl e => (raise e, cache, log (CallExtractFlat expr) w)
            | inr data =>
                match search_entries (default [] (d_entries data)) [] with
                | inl e => (raise e, cache, log (CallExtractFlat expr) w)
                | inr results =>
                    (ok results, <[(query, max_results) := results]> cache,
                     log (CallExtractFlat expr) w)
                end
            end) by (unfold search_youtube; by rewrite Hmiss).
  cbv zeta in Hrun. clear Hcalls Hstore.
  destruct (search_youtube query max_results cache w) as [[r cache'] w'].
  cbn [fst snd].
  destruct (ydl_extract_flat env w _) as [e | data] eqn:Hy.
  - injection Hrun as -> -> ->. split; [by left |]. split; [done |].
    by apply new_calls_app, search_youtube_miss_calls.
  - pose proof (search_entries_spec (default [] (d_entries data)) []) as Hspec.
    destruct (search_entries (default [] (d_entries data)) []) as [e | results].
    + injection Hrun as -> -> ->.
      destruct Hspec as (bad & Hin & Hbad & Hraise).
      split; [right; by exists data, bad |]. split; [done |].
      by apply new_calls_app, search_youtube_miss_calls.
    + injection Hrun as -> -> ->.
      destruct Hspec as (new & -> & Hall). cbn [app].
      split; [by exists data |]. split; [done |].
      unfold search_youtube. by rewrite lookup_insert_eq.
Qed.

(** *** The result grid, [do_search] and [toggle_dark_mode] *)

Lemma grid_place_spec (results : list Video) (row col : Z) (grid : list Cell) :
  0 ≤ col < 4 →
  grid_place results row col grid =
    (grid ++ imap (λ i vid, mkCell vid (row + (col + Z.of_nat i) / 4)
                              ((col + Z.of_nat i) mod 4)) results)%list.
Proof.
  revert row col grid. induction results as [| vid rest IH]; intros row col grid Hcol.
  { cbn. by rewrite app_nil_r. }
  cbn [grid_place imap]. cbv zeta.
  assert (E0 : mkCell vid (row + (col + Z.of_nat 0) / 4) ((col + Z.of_nat 0) mod 4) =
               mkCell vid row col).
  { f_equal; change (Z.of_nat 0) with 0; Z.div_mod_to_equations; lia. }
  rewrite E0. destruct (4 <=? col + 1) eqn:Hwrap.
  - apply Z.leb_le in Hwrap. rewrite IH by lia. rewrite <- app_assoc. cbn [app].
    do 2 f_equal. apply imap_ext. intros i v _. cbn.
    f_equal; Z.div_mod_to_equations; lia.
  - apply Z.leb_gt in Hwrap. rewrite IH by lia. rewrite <- app_assoc. cbn [app].
    do 2 f_equal. apply imap_ext. intros i v _. cbn.
    f_equal; Z.div_mod_to_equations; lia.
Qed.

(** X12. The grid built from a list of results holds one cell for each
    result, in the order of the results: the result at index [i] sits in
    row [i / 4] and column [i mod 4], so the columns are 0 to 3, no two
    cells share a position, and the cells of the grid before are gone. *)
Theorem populate_grid_positions (results : list Video) (grid : list Cell) :
  let cells := populate_grid results grid in
  length cells = length results ∧
  (∀ i vid, results !! i = Some vid →
     cells !! i = Some (mkCell vid (Z.of_nat i / 4) (Z.of_nat i mod 4))) ∧
  (∀ cell, cell ∈ cells → 0 ≤ cell_row cell ∧ 0 ≤ cell_col cell < 4) ∧
  NoDup (map (λ cell, (cell_row cell, cell_col cell)) cells).
Proof.
  cbv zeta. unfold populate_grid. rewrite grid_place_spec by lia. cbn [app].
  assert (Hlookup : ∀ i vid, results !! i = Some vid →
            imap (λ i vid, mkCell vid (0 + (0 + Z.of_nat i) / 4) ((0 + Z.of_nat i) mod 4))
              results !! i = Some (mkCell vid (Z.of_nat i / 4) (Z.of_nat i mod 4))).
  { intros i vid Hi. rewrite list_lookup_imap, Hi. cbn. by rewrite !Z.add_0_l. }
  assert (Hcell : ∀ i cell,
            imap (λ i vid, mkCell vid (0 + (0 + Z.of_nat i) / 4) ((0 + Z.of_nat i) mod 4))
              results !! i = Some cell →
            cell_row cell = Z.of_nat i / 4 ∧ cell_col cell = Z.of_nat i mod 4).
  { intros i cell. rewrite list_lookup_imap.
    destruct (results !! i) as [vid |]; [| done]. cbn. intros [= <-]. cbn.
    by rewrite !Z.add_0_l. }
  split; [apply length_imap |]. split; [done |]. split.
  - intros cell Hin. apply list_elem_of_lookup in Hin as [i Hi].
    apply Hcell in Hi as [-> ->]. Z.div_mod_to_equations. lia.
  - apply NoDup_alt. intros i j pos. rewrite !list_lookup_fmap.
    destruct (imap _ results !! i) as [ci |] eqn:Hi; [| done].
    destruct (imap _ results !! j) as [cj |] eqn:Hj; [| done].
    apply Hcell in Hi as [Hri Hci]. apply Hcell in Hj as [Hrj Hcj].
    cbn. intros [= <-] [= Hr Hc]. rewrite Hri, Hrj in Hr. rewrite Hci, Hcj in Hc.
    Z.div_mod_to_equations. lia.
Qed.

Lemma search_youtube_store (query : string) (max_results : Z)
    (cache : gmap (string * Z) (list Video)) (w : World) :
  store (search_youtube query max_results cache w).2 = store w.
Proof.
  destruct (cache !! (query, max_results)) as [cached |] eqn:Hc.
  - unfold search_youtube. by rewrite Hc.
  - by apply search_youtube_miss_calls.
Qed.

Lemma do_search_unfold (sh : Shell) :
  let query := str_strip env (search_field sh) in
  let run := search_youtube query 20 (search_cache sh) (sh_world sh) in
  do_search sh =
    if negb (str_truthy query) then shell_console "No search query." sh
    else on_search_results run.1.1
           (mkShell (console_append ("Searching: " +:+ query) (sh_client sh))
              (search_field sh) [] run.1.2 run.2).
Proof.
  cbv zeta. unfold do_search.
  destruct (negb (str_truthy (str_strip env (search_field sh)))); [done |].
  unfold shell_console at 1 2 3 4 5. cbn [search_cache sh_world sh_client search_field home_grid].
  by destruct (search_youtube _ _ _ _) as [[r cache] w].
Qed.

(** X13. [do_search] searches for the text of the search field without
    the blanks around it, with 20 results. A blank query changes the
    console only. A search that fails leaves the grid empty, the page
    shown as it was and the error on the console; a search that succeeds
    fills the grid with its results and shows the home page. In no case
    does it touch the playback session, the extraction caches or the
    files. *)
Theorem do_search_pipeline (sh : Shell) :
  let query := str_strip env (search_field sh) in
  let run := search_youtube query 20 (search_cache sh) (sh_world sh) in
  let sh' := do_search sh in
  session_fields (sh_client sh') = session_fields (sh_client sh) ∧
  store (sh_world sh') = store (sh_world sh) ∧
  search_field sh' = search_field sh ∧
  (str_truthy query = false →
     sh_world sh' = sh_world sh ∧ home_grid sh' = home_grid sh ∧
     search_cache sh' = search_cache sh ∧
     stacked_index (sh_client sh') = stacked_index (sh_client sh)) ∧
  (str_truthy query = true →
     sh_world sh' = run.2 ∧ search_cache sh' = run.1.2 ∧
     match run.1.1 with
     | inl e =>
         home_grid sh' = [] ∧
         stacked_index (sh_client sh') = stacked_index (sh_client sh) ∧
         last (console_output (sh_client sh')) = Some ("Search error: " +:+ e)
     | inr results =>
         home_grid sh' = populate_grid results [] ∧
         length (home_grid sh') = length results ∧
         stacked_index (sh_client sh') = 0
     end).
Proof.
  cbv zeta. rewrite do_search_unfold. cbv zeta.
  pose proof (search_youtube_store (str_strip env (search_field sh)) 20
                (search_cache sh) (sh_world sh)) as Hstore.
  destruct (str_truthy (str_strip env (search_field sh))); cbn [negb].
  - destruct (search_youtube (str_strip env (search_field sh)) 20 (search_cache sh)
                (sh_world sh)) as [[[e | results] cache] w]; cbn [fst snd] in *.
    + split; [done |]. split; [done |]. split; [done |]. split; [done |].
      intros _. split; [done |]. split; [done |]. split; [done |]. split; [done |].
      cbn. by rewrite last_snoc.
    + split; [done |]. split; [done |]. split; [done |]. split; [done |].
      intros _. split; [done |]. split; [done |]. split; [done |].
      split; [| done]. cbn [on_search_results home_grid].
      unfold populate_grid. rewrite grid_place_spec by lia. apply length_imap.
  - split; [done |]. split; [done |]. split; [done |]. split; [done |]. done.
Qed.

(** X14. After a press of [toggle_dark_mode] the window is white or dark
    grey, and from then on two presses lead back to the same look. A
    press on a window that is not pure white leads to the light look, not
    to the dark one; so two presses restore the look only of a window
    that had one of the two looks the function sets. *)
Theorem toggle_dark_mode_cycle (p : Palette) :
  let light := mkPalette (255, 255, 255) (0, 0, 0) "background-color: white; color: black;" in
  let dark := mkPalette (53, 53, 53) (255, 255, 255)
                "background-color: #2c2c2c; color: white;" in
  (toggle_dark_mode p = light ∨ toggle_dark_mode p = dark) ∧
  (toggle_dark_mode p = dark ↔ window p = (255, 255, 255)) ∧
  toggle_dark_mode (toggle_dark_mode (toggle_dark_mode p)) = toggle_dark_mode p ∧
  (toggle_dark_mode (toggle_dark_mode p) = p ↔ p = light ∨ p = dark).
Proof.
  cbv zeta. unfold toggle_dark_mode.
  destruct (decide (window p = (255, 255, 255))) as [Hw | Hw].
  - split; [by right |]. split; [done |]. split; [done |]. cbn. split.
    + intros <-. by left.
    + intros [-> | ->]; [done |]. by cbn in Hw.
  - split; [by left |]. split; [split; [done | by intros ?] |]. split; [done |]. cbn. split.
    + intros <-. by right.
    + intros [-> | ->]; [| done]. by cbn in Hw.
Qed.

(** *** The success path of [on_extraction_done] *)

Lemma available_buckets_nonempty (info : Info) : available_buckets info ≠ [].
Proof. destruct (available_buckets_cases info) as [[_ ->] | [Hne ->]]; done. Qed.

Lemma with_player_console_id (c : Client) :
  with_player_console (player_process c) (console_output c) c = c.
Proof. by destruct c. Qed.

Lemma add_calls_nil (w : World) : add_calls [] w = w.
Proof. destruct w. unfold add_calls. cbn. by rewrite app_nil_r. Qed.

Lemma add_calls_add_calls (calls1 calls2 : list Call) (w : World) :
  add_calls calls2 (add_calls calls1 w) = add_calls (calls1 ++ calls2) w.
Proof. unfold add_calls. cbn. by rewrite <- app_assoc. Qed.

Lemma starts_app (calls1 calls2 : list Call) :
  starts (calls1 ++ calls2) = (starts calls1 ++ starts calls2)%list.
Proof. apply omap_app. Qed.

Lemma starts_start (program : string) (arguments : list string) :
  starts [CallStart program arguments] = [arguments].
Proof. done. Qed.

Lemma launch_mpv_merged_shape (q url : string) (t : float) (c : Client) (w : World) :
  current_video_url c = Some url → str_truthy url = true →
  ∃ console calls,
    launch_mpv_merged q t c w =
      (with_player_console (Some (mkProcess "mpv" (merged_args c q url t))) console c,
       add_calls (calls ++ [CallStart "mpv" (merged_args c q url t)]) w) ∧
    starts calls = [].
Proof.
  intros Hu Ht. unfold launch_mpv_merged. rewrite Hu, Ht, kill_mpv_command.
  destruct (kill_command (os_type env)) as [command |].
  - eexists _, [CallSystem command]. split; [| done].
    unfold with_player_console, add_calls, log. cbn. by rewrite <- app_assoc.
  - eexists _, []. split; [| done]. done.
Qed.

Lemma on_quality_changed_shape (c : Client) (w : World) :
  ∃ p console calls,
    on_quality_changed c w = (with_player_console p console c, add_calls calls w) ∧
    has_key p = has_key (player_process c) ∧
    length (starts calls) =
      if opt_truthy (current_video_url c) && has_key (player_process c) then 1%nat else 0%nat.
Proof.
  unfold on_quality_changed.
  destruct (current_video_url c) as [url |] eqn:Hu; cbn [opt_truthy];
    [destruct (str_truthy url) eqn:Ht |]; cbn [negb orb andb].
  - destruct (player_process c) as [p |] eqn:Hp; cbn [has_key negb].
    + destruct (launch_mpv_merged_shape (combo_currentText c) url
                  (get_current_playback_time w "/tmp/mpvsocket")
                  (console_append
                     ("Switching quality to " +:+ combo_currentText c +:+ " at " +:+
                      fmt_1f env (get_current_playback_time w "/tmp/mpvsocket") +:+ "s") c) w)
        as (console & calls & E & Hcalls); [done | done |].
      cbv zeta. rewrite E. eexists _, console, _. split; [done |]. split; [done |].
      by rewrite starts_app, starts_start, length_app, Hcalls.
    + exists None, (console_output c), []. split; [| done].
      by rewrite add_calls_nil, <- Hp, with_player_console_id.
  - exists (player_process c), (console_output c), [].
    by rewrite add_calls_nil, with_player_console_id.
  - exists (player_process c), (console_output c), [].
    by rewrite add_calls_nil, with_player_console_id.
Qed.

Lemma foldl_combo_addItem (qs : list string) (c : Client) (w : World) :
  combo_items c ≠ [] →
  foldl (λ cw q, combo_addItem q cw.1 cw.2) (c, w) qs =
    (set_combo (combo_items c ++ qs)%list (combo_index c) c, w).
Proof.
  revert c. induction qs as [| q qs IH]; intros c Hne.
  { cbn. rewrite app_nil_r. by destruct c. }
  cbn [foldl fst snd]. unfold combo_addItem at 2.
  destruct (combo_items c) as [| item items] eqn:Hitems; [done |].
  rewrite IH by (cbn; by destruct items).
  cbn. by rewrite <- app_assoc.
Qed.

(** X15. An extraction that succeeds with a url leaves the client on the
    extracted video, with the tiers of [available_buckets] both as
    [qualities_available] and as the items of the selector, the first of
    them selected, and the merged player started on that tier from the
    beginning, as the last call made. The caches and the files are not
    touched. While no merged player exists this is the only process
    started; with one, refilling the selector fires [on_quality_changed]
    and [mpv] is started once more for each firing: three starts, or two
    when the selector had no current item. *)
Theorem on_extraction_done_success (mode url : string) (info : Info)
    (c : Client) (w : World) :
  (if has_key (i_original_url info) then i_original_url info
   else if has_key (i_webpage_url info) then i_webpage_url info else None) = Some url →
  str_truthy url = true →
  let c' := (on_extraction_done (ok (mode, info)) c w).1 in
  let w' := (on_extraction_done (ok (mode, info)) c w).2 in
  let tiers := available_buckets info in
  let args := merged_args c (hd "360p" tiers) url 0%float in
  current_info c' = Some info ∧ current_video_url c' = Some url ∧
  qualities_available c' = tiers ∧ combo_items c' = tiers ∧
  combo_index c' = 0 ∧ combo_currentText c' = hd "360p" tiers ∧
  player_process c' = Some (mkProcess "mpv" args) ∧
  has_start_option args = false ∧
  last (history w') = Some (CallStart "mpv" args) ∧
  last (starts (new_calls w w')) = Some args ∧
  store w' = store w ∧
  length (starts (new_calls w w')) =
    if has_key (player_process c)
    then (if combo_index c =? -1 then 2%nat else 3%nat)
    else 1%nat.
Proof.
  intros Hurl Ht. cbv zeta.
  assert (Hrun : ∃ c' w',
    on_extraction_done (ok (mode, info)) c w = (c', w') ∧
    current_info c' = Some info ∧ current_video_url c' = Some url ∧
    qualities_available c' = available_buckets info ∧
    combo_items c' = available_buckets info ∧
    combo_index c' = 0 ∧ combo_currentText c' = hd "360p" (available_buckets info) ∧
    player_process c' =
      Some (mkProcess "mpv" (merged_args c (hd "360p" (available_buckets info)) url 0)) ∧
    has_start_option (merged_args c (hd "360p" (available_buckets info)) url 0) = false ∧
    last (history w') =
      Some (CallStart "mpv" (merged_args c (hd "360p" (available_buckets info)) url 0)) ∧
    last (starts (new_calls w w')) =
      Some (merged_args c (hd "360p" (available_buckets info)) url 0) ∧
    store w' = store w ∧
    length (starts (new_calls w w')) =
      if has_key (player_process c)
      then (if combo_index c =? -1 then 2%nat else 3%nat)
      else 1%nat); [| by destruct Hrun as (c' & w' & -> & H)].
  unfold on_extraction_done, ok.
  rewrite Hurl.
  pose proof (available_buckets_nonempty info) as Hne.
  destruct (available_buckets info) as [| best tiers] eqn:Htiers; [done |]. clear Hne.
  set (c1 := set_qualities_available (best :: tiers) _).
  assert (Hc1url : current_video_url c1 = Some url) by done.
  assert (Hc1p : player_process c1 = player_process c) by done.
  assert (Hc1i : combo_index c1 = combo_index c) by done.
  assert (Hclear : ∃ p2 console2 calls2,
            combo_clear c1 w =
              (with_player_console p2 console2 (set_combo [] (-1) c1), add_calls calls2 w) ∧
            has_key p2 = has_key (player_process c) ∧
            length (starts calls2) =
              if has_key (player_process c) && negb (combo_index c =? -1)
              then 1%nat else 0%nat).
  { unfold combo_clear. rewrite Hc1i. destruct (combo_index c =? -1).
    - exists (player_process c), (console_output c1), [].
      rewrite add_calls_nil, andb_false_r. split; [| done].
      by rewrite <- Hc1p.
    - destruct (on_quality_changed_shape (set_combo [] (-1) c1) w)
        as (p2 & console2 & calls2 & E & Hk & Hlen).
      exists p2, console2, calls2. split; [done |]. split; [by rewrite Hk |].
      rewrite Hlen. cbn [current_video_url set_combo player_process].
      rewrite Hc1url, Hc1p. cbn [opt_truthy]. rewrite Ht. by rewrite andb_true_r. }
  destruct Hclear as (p2 & console2 & calls2 & -> & Hk2 & Hlen2).
  set (c2 := with_player_console p2 console2 (set_combo [] (-1) c1)).
  assert (Hq2 : qualities_available c2 = best :: tiers) by done.
  rewrite Hq2. cbn [foldl fst snd]. unfold combo_addItem at 2.
  assert (Hi2 : combo_items c2 = []) by done. rewrite Hi2.
  destruct (on_quality_changed_shape (set_combo [best] 0 c2) (add_calls calls2 w))
    as (p3 & console3 & calls3 & -> & Hk3 & Hlen3).
  assert (Hu3 : current_video_url (set_combo [best] 0 c2) = Some url) by done.
  assert (Hp3 : player_process (set_combo [best] 0 c2) = p2) by done.
  rewrite Hu3, Hp3 in Hlen3. rewrite Hp3 in Hk3.
  cbn [opt_truthy] in Hlen3. rewrite Ht in Hlen3. cbn [andb] in Hlen3.
  set (c3 := with_player_console p3 console3 (set_combo [best] 0 c2)).
  rewrite foldl_combo_addItem by done.
  set (c4 := set_combo (combo_items c3 ++ tiers)%list (combo_index c3) c3).
  assert (Hq4 : qualities_available c4 = best :: tiers) by done.
  rewrite Hq4. unfold combo_setCurrentIndex.
  assert (Hi4 : combo_items c4 = best :: tiers) by done.
  assert (Hx4 : combo_index c4 = 0) by done.
  rewrite Hi4, Hx4. cbn [length].
  replace ((0 <=? 0) && (0 <? Z.of_nat (S (length tiers)))) with true
    by (symmetry; apply andb_true_iff; split; [done | apply Z.ltb_lt; lia]).
  cbn [Z.eqb]. rewrite Hq4.
  destruct (launch_mpv_merged_shape best url 0%float c4 (add_calls calls3 (add_calls calls2 w)))
    as (console5 & calls5 & -> & Hlen5); [done | done |].
  cbn [hd].
  assert (Hargs : merged_args c4 best url 0 = merged_args c best url 0) by done.
  rewrite Hargs.
  eexists _, _. split; [reflexivity |].
  assert (Hnew : new_calls w
            (add_calls (calls5 ++ [CallStart "mpv" (merged_args c best url 0)])
               (add_calls calls3 (add_calls calls2 w))) =
            (calls2 ++ calls3 ++ calls5 ++ [CallStart "mpv" (merged_args c best url 0)])%list).
  { apply new_calls_app. cbn. by rewrite <- !app_assoc. }
  rewrite Hnew.
  split; [done |]. split; [done |]. split; [done |]. split; [done |]. split; [done |].
  split; [done |]. split; [done |].
  split; [by rewrite has_start_option_merged_args |].
  split; [unfold add_calls; cbn [history snd]; by rewrite !app_assoc, last_snoc |].
  rewrite !starts_app, starts_start.
  split; [by rewrite !app_assoc, last_snoc |].
  split; [done |].
  rewrite !length_app, Hlen2, Hlen3, Hlen5, Hk2. cbn [length].
  destruct (has_key (player_process c)), (combo_index c =? -1); done.
Qed.

(** *** What the operations leave in the world *)

Lemma world_grows_refl (w : World) : world_grows w w.
Proof. by repeat split. Qed.

Lemma world_grows_trans (w1 w2 w3 : World) :
  world_grows w1 w2 → world_grows w2 w3 → world_grows w1 w3.
Proof.
  intros (He1 & Hc1 & Hf1 & Hp1 & Hh1) (He2 & Hc2 & Hf2 & Hp2 & Hh2).
  split; [by etrans |]. split; [by etrans |]. split; [by etrans |].
  split; [| by etrans]. intros path Hpath. by rewrite Hp2, Hp1.
Qed.

Lemma world_grows_add_calls (calls : list Call) (w : World) :
  world_grows w (add_calls calls w).
Proof. repeat split; try done. cbn. by apply prefix_app_r. Qed.

Lemma world_grows_log (call : Call) (w : World) : world_grows w (log call w).
Proof. apply (world_grows_add_calls [call]). Qed.

Lemma extract_formats_grows (video_url : string) (cookies_file : option string) (w : World) :
  world_grows w (extract_formats video_url cookies_file w).2.
Proof.
  unfold extract_formats.
  destruct (extraction_cache w !! (video_url, cookies_file)) eqn:Hc;
    [apply world_grows_refl |].
  destruct (ydl_extract_info env w video_url _); [apply world_grows_log |].
  cbn [snd]. split; [| split; [done | split; [done | split; [done |]]]].
  - cbn. by apply insert_subseteq.
  - cbn. by apply prefix_app_r.
Qed.

Lemma ensure_cookies_grows (video_url : string) (w : World) :
  world_grows w (ensure_cookies video_url w).2.
Proof.
  unfold ensure_cookies.
  destruct (files w !! "cookies.txt") eqn:Hf; cbn [has_key]; [apply world_grows_log |].
  destruct (get_cookies_headless env _ video_url).
  - eapply world_grows_trans; apply world_grows_log.
  - unfold save_cookies_to_file, set_files, log, world_grows.
    cbn [snd files extraction_cache channel_videos_cache history].
    split; [done |]. split; [done |]. split; [by apply insert_subseteq |].
    split; [intros path Hpath; by rewrite lookup_insert_ne |].
    rewrite <- app_assoc. by apply prefix_app_r.
Qed.

Lemma extract_with_fallback_grows (video_url : string) (w : World) :
  world_grows w (extract_with_fallback video_url w).2.
Proof.
  unfold extract_with_fallback.
  pose proof (extract_formats_grows video_url None w) as H1.
  destruct (extract_formats video_url None w) as [[e | info] w1]; [| done].
  pose proof (ensure_cookies_grows video_url w1) as H2.
  destruct (ensure_cookies video_url w1) as [[e2 | u] w2]; [by eapply world_grows_trans |].
  pose proof (extract_formats_grows video_url (Some "cookies.txt") w2) as H3.
  destruct (extract_formats video_url (Some "cookies.txt") w2) as [[e3 | info3] w3];
    cbn [snd] in *; eapply world_grows_trans; try exact H3;
    by eapply world_grows_trans.
Qed.

(** The operations of the window add calls to the world and nothing else. *)
Lemma launch_mpv_merged_calls (q : string) (t : float) (c : Client) (w : World) :
  ∃ calls, (launch_mpv_merged q t c w).2 = add_calls calls w.
Proof.
  destruct (current_video_url c) as [url |] eqn:Hu;
    [destruct (str_truthy url) eqn:Ht |].
  - destruct (launch_mpv_merged_shape q url t c w Hu Ht) as (console & calls & -> & _).
    by eexists.
  - exists []. rewrite launch_mpv_merged_idle by (by rewrite Hu). by rewrite add_calls_nil.
  - exists []. rewrite launch_mpv_merged_idle by (by rewrite Hu). by rewrite add_calls_nil.
Qed.

Lemma on_quality_changed_calls (c : Client) (w : World) :
  ∃ calls, (on_quality_changed c w).2 = add_calls calls w.
Proof.
  destruct (on_quality_changed_shape c w) as (p & console & calls & -> & _). by eexists.
Qed.

Lemma combo_addItem_calls (q : string) (c : Client) (w : World) :
  ∃ calls, (combo_addItem q c w).2 = add_calls calls w.
Proof.
  unfold combo_addItem. destruct (combo_items c); [apply on_quality_changed_calls |].
  exists []. by rewrite add_calls_nil.
Qed.

Lemma foldl_combo_addItem_calls (qs : list string) (c : Client) (w : World) :
  ∃ calls, (foldl (λ cw q, combo_addItem q cw.1 cw.2) (c, w) qs).2 = add_calls calls w.
Proof.
  revert c w. induction qs as [| q qs IH]; intros c w.
  { exists []. by rewrite add_calls_nil. }
  cbn [foldl fst snd].
  destruct (combo_addItem_calls q c w) as [calls1 E1].
  destruct (combo_addItem q c w) as [c1 w1]. cbn [snd] in E1. subst w1.
  destruct (IH c1 (add_calls calls1 w)) as [calls2 ->].
  rewrite add_calls_add_calls. by eexists.
Qed.

Lemma on_extraction_done_calls (result : Result (string * Info)) (c : Client) (w : World) :
  ∃ calls, (on_extraction_done result c w).2 = add_calls calls w.
Proof.
  unfold on_extraction_done. destruct result as [e | [mode info]].
  { exists []. by rewrite add_calls_nil. }
  set (c1 := set_qualities_available (available_buckets info) _).
  assert (H1 : ∃ calls, (combo_clear c1 w).2 = add_calls calls w).
  { unfold combo_clear. destruct (combo_index c1 =? -1); [| apply on_quality_changed_calls].
    exists []. by rewrite add_calls_nil. }
  destruct H1 as [calls1 E1]. destruct (combo_clear c1 w) as [c2 w2]. cbn [snd] in E1. subst w2.
  destruct (foldl_combo_addItem_calls (qualities_available c2) c2 (add_calls calls1 w))
    as [calls2 E2].
  destruct (foldl _ _ (qualities_available c2)) as [c3 w3]. cbn [snd] in E2. subst w3.
  rewrite add_calls_add_calls.
  assert (H3 : ∃ calls,
            (match qualities_available c3 with
             | [] => (c3, add_calls (calls1 ++ calls2) w)
             | _ :: _ => combo_setCurrentIndex 0 c3 (add_calls (calls1 ++ calls2) w)
             end).2 = add_calls calls w).
  { destruct (qualities_available c3); [by eexists |].
    unfold combo_setCurrentIndex. destruct (_ =? combo_index c3); [by eexists |].
    destruct (on_quality_changed_calls
                (set_combo (combo_items c3)
                   (if (0 <=? 0) && (0 <? Z.of_nat (length (combo_items c3))) then 0 else -1)
                   c3) (add_calls (calls1 ++ calls2) w)) as [calls3 ->].
    rewrite add_calls_add_calls. by eexists. }
  destruct H3 as [calls3 E3].
  destruct (match qualities_available c3 with [] => _ | _ => _ end) as [c4 w4].
  cbn [snd] in E3. subst w4.
  destruct (launch_mpv_merged_calls
              (match qualities_available c4 with q :: _ => q | [] => "360p" end)
              0%float c4 (add_calls calls3 w)) as [calls4 E4].
  destruct (launch_mpv_merged _ 0%float c4 _) as [c5 w5]. cbn [snd] in *. subst w5.
  rewrite add_calls_add_calls. by eexists.
Qed.

Lemma watch_separate_streams_calls (c : Client) (w : World) :
  ∃ calls, (watch_separate_streams c w).2 = add_calls calls w.
Proof.
  unfold watch_separate_streams.
  destruct (current_info c) as [info |]; [| exists []; by rewrite add_calls_nil].
  destruct (info_truthy info); [| exists []; by rewrite add_calls_nil].
  destruct (foldl stream_step (None, None) (default [] (i_formats info))) as [v a].
  destruct (negb (opt_truthy v) || negb (opt_truthy a)); [apply launch_mpv_merged_calls |].
  rewrite kill_mpv_command.
  destruct (kill_command (os_type env)) as [command |]; cbn [snd].
  - eexists [_; _; _]. unfold add_calls, log. cbn. by rewrite <- !app_assoc.
  - eexists [_; _]. unfold add_calls, log. cbn. by rewrite <- !app_assoc.
Qed.

Lemma toggle_detach_calls (c : Client) (w : World) :
  ∃ calls, (toggle_detach c w).2 = add_calls calls w.
Proof.
  unfold toggle_detach. cbv zeta.
  destruct (opt_truthy _ && has_key _); [apply launch_mpv_merged_calls |].
  exists []. by rewrite add_calls_nil.
Qed.

(** X16. No operation takes anything out of the world. Extraction, the
    channel listing, a quality change, the launches and the mode switch
    keep every entry of both caches and every file with its content, and
    add calls after those already made; the only file that can appear is
    [cookies.txt]. So a result that is in a cache stays the answer,
    without a backend call, after any sequence of these operations. *)
Theorem world_only_grows (c : Client) (w : World) :
  (∀ url, world_grows w (start_extraction url c w).2) ∧
  (∀ url max_results, world_grows w (get_channel_videos url max_results w).2) ∧
  world_grows w (on_quality_changed c w).2 ∧
  world_grows w (watch_separate_streams c w).2 ∧
  world_grows w (toggle_detach c w).2 ∧
  (∀ w' w'', world_grows w w' → world_grows w' w'' → world_grows w w'') ∧
  (∀ w', world_grows w w' →
     (∀ url cookies_file info,
        extraction_cache w !! (url, cookies_file) = Some info →
        extract_formats url cookies_file w' = (ok info, w')) ∧
     (∀ url max_results videos,
        channel_videos_cache w !! (url, max_results) = Some videos →
        str_truthy url = true →
        get_channel_videos url max_results w' = (videos, w'))).
Proof.
  split; [| split; [| split; [| split; [| split; [| split]]]]].
  - intros url. unfold start_extraction.
    pose proof (extract_with_fallback_grows url w) as H1.
    destruct (extract_with_fallback url w) as [result w1]. cbn [snd] in H1.
    destruct (on_extraction_done_calls result
                (set_stacked_index 1 (console_append ("Extracting info for: " +:+ url) c)) w1)
      as [calls ->].
    eapply world_grows_trans; [exact H1 | apply world_grows_add_calls].
  - intros url max_results. unfold get_channel_videos.
    destruct (str_truthy url); cbn [negb]; [| apply world_grows_refl].
    destruct (channel_videos_cache w !! (url, max_results)) eqn:Hc;
      [apply world_grows_refl |].
    cbn [snd]. split; [done |]. split; [cbn; by apply insert_subseteq |].
    split; [done |]. split; [done |]. cbn. by apply prefix_app_r.
  - destruct (on_quality_changed_calls c w) as [calls ->]. apply world_grows_add_calls.
  - destruct (watch_separate_streams_calls c w) as [calls ->]. apply world_grows_add_calls.
  - destruct (toggle_detach_calls c w) as [calls ->]. apply world_grows_add_calls.
  - intros w' w''. apply world_grows_trans.
  - intros w' (He & Hc & _). split.
    + intros url cookies_file info Hin. apply extract_formats_hit.
      by eapply lookup_weaken.
    + intros url max_results videos Hin Ht. unfold get_channel_videos.
      rewrite Ht. cbn [negb]. by rewrite (lookup_weaken _ _ _ _ Hin Hc).
Qed.

(** *** The fallback protocol, run again *)

(** What a successful [extract_formats] leaves behind. *)
Lemma extract_formats_ok_inv (video_url : string) (cookies_file : option string)
    (info : Info) (w : World) :
  (extract_formats video_url cookies_file w).1 = ok info →
  let w1 := (extract_formats video_url cookies_file w).2 in
  extraction_cache w1 !! (video_url, cookies_file) = Some info ∧
  (∀ key, key ≠ (video_url, cookies_file) →
     extraction_cache w1 !! key = extraction_cache w !! key) ∧
  files w1 = files w.
Proof.
  unfold extract_formats.
  destruct (extraction_cache w !! (video_url, cookies_file)) as [cached |] eqn:Hc.
  - cbn. by intros [= ->].
  - destruct (ydl_extract_info env w video_url _) as [e | i]; [done |].
    cbn. intros [= ->]. split; [apply lookup_insert_eq |]. split; [| done].
    intros key Hkey. by rewrite lookup_insert_ne.
Qed.

Lemma ensure_cookies_ok_inv (video_url : string) (w : World) (u : unit) :
  (ensure_cookies video_url w).1 = ok u →
  is_Some (files (ensure_cookies video_url w).2 !! "cookies.txt") ∧
  extraction_cache (ensure_cookies video_url w).2 = extraction_cache w.
Proof.
  unfold ensure_cookies.
  destruct (files w !! "cookies.txt") as [text |] eqn:Hf; cbn [has_key].
  - intros _. cbn. by rewrite Hf.
  - destruct (get_cookies_headless env _ video_url) as [e | cookies]; [done |].
    intros _. unfold save_cookies_to_file, set_files, log.
    cbn [snd files extraction_cache]. by rewrite lookup_insert_eq.
Qed.

(** The state after a run that succeeded with cookies. *)
Lemma extract_with_fallback_cookies_inv (video_url : string) (info2 : Info) (w : World) :
  (extract_with_fallback video_url w).1 = ok ("cookies", info2) →
  let w' := (extract_with_fallback video_url w).2 in
  extraction_cache w' !! (video_url, None) = None ∧
  extraction_cache w' !! (video_url, Some "cookies.txt") = Some info2 ∧
  is_Some (files w' !! "cookies.txt").
Proof.
  unfold extract_with_fallback.
  destruct (extract_formats video_url None w) as [[e | info] w1] eqn:E0; [| done].
  assert (H0 : (extract_formats video_url None w).1 = raise e) by by rewrite E0.
  destruct (extract_formats_raise_inv _ _ _ _ H0) as (Hmiss & _ & Hw1).
  rewrite E0 in Hw1. cbn [snd] in Hw1. subst w1.
  set (w1 := log (CallExtract video_url (opts_cookies None)) w).
  destruct (ensure_cookies video_url w1) as [[e1 | u] w2] eqn:E1; [done |].
  assert (H1 : (ensure_cookies video_url w1).1 = ok u) by by rewrite E1.
  destruct (ensure_cookies_ok_inv _ _ _ H1) as [Hfile Hcache].
  rewrite E1 in Hfile, Hcache. cbn [snd] in Hfile, Hcache.
  destruct (extract_formats video_url (Some "cookies.txt") w2) as [[e2 | i2] w3] eqn:E2;
    [done |].
  cbn [fst snd]. intros [= ->].
  assert (H2 : (extract_formats video_url (Some "cookies.txt") w2).1 = ok info2)
    by by rewrite E2.
  destruct (extract_formats_ok_inv _ _ _ _ H2) as (Hin & Hother & Hfiles).
  rewrite E2 in Hin, Hother, Hfiles. cbn [snd] in Hin, Hother, Hfiles.
  split; [| split; [done | by rewrite Hfiles]].
  rewrite Hother by done. by rewrite Hcache.
Qed.

(** X17. [extract_with_fallback] run again on the same url. After a run
    that succeeded without cookies it returns the same pair and calls
    nothing. After a run that succeeded with cookies it calls the backend
    without cookies again, as that failure was not stored: if the call
    fails again, the handler finds the cookie file and the stored result
    and returns it, without the browser and without a second backend
    call; if the call succeeds, that result is returned. After a run that
    raised, it starts with the backend call without cookies again. *)
Theorem extract_with_fallback_again (video_url : string) (w : World) :
  let first := extract_with_fallback video_url w in
  let second := extract_with_fallback video_url first.2 in
  let anonymous := CallExtract video_url None in
  (∀ info, first.1 = ok ("no_cookies", info) → second = first) ∧
  (∀ info2, first.1 = ok ("cookies", info2) →
     (∀ e, ydl_extract_info env first.2 video_url None = raise e →
        second.1 = ok ("cookies", info2) ∧
        new_calls first.2 second.2 = [anonymous; CallPathExists "cookies.txt"] ∧
        store second.2 = store first.2) ∧
     (∀ info, ydl_extract_info env first.2 video_url None = ok info →
        second.1 = ok ("no_cookies", info) ∧
        new_calls first.2 second.2 = [anonymous])) ∧
  (∀ e, first.1 = raise e →
     ∃ rest, new_calls first.2 second.2 = anonymous :: rest).
Proof.
  cbv zeta. split; [| split].
  - intros info Hfirst.
    assert (Hanon : ∃ i, (extract_formats video_url None w).1 = ok i).
    { unfold extract_with_fallback in Hfirst.
      destruct (extract_formats video_url None w) as [[e | i] w1]; [| by exists i].
      destruct (ensure_cookies video_url w1) as [[e1 | u] w2]; [done |].
      by destruct (extract_formats video_url (Some "cookies.txt") w2) as [[e2 | i2] w3]. }
    destruct Hanon as [i Hi].
    rewrite (extract_with_fallback_anonymous_ok _ _ _ Hi).
    destruct (extract_formats_ok_inv _ _ _ _ Hi) as (Hin & _ & _).
    cbn [snd]. unfold extract_with_fallback at 1.
    by rewrite (extract_formats_hit _ _ _ _ Hin).
  - intros info2 Hfirst.
    destruct (extract_with_fallback_cookies_inv _ _ _ Hfirst) as (Hmiss & Hin & [text Hfile]).
    set (w' := (extract_with_fallback video_url w).2) in *. split.
    + intros e Hy.
      pose proof (extract_formats_miss_raise video_url None e w' Hmiss Hy) as E0.
      unfold extract_with_fallback. rewrite E0.
      unfold ensure_cookies. cbn [files log]. rewrite Hfile. cbn [has_key].
      rewrite (extract_formats_hit video_url (Some "cookies.txt") info2) by done.
      cbn [fst snd]. split; [done |]. split; [| done].
      apply new_calls_app. cbn. by rewrite <- app_assoc.
    + intros info Hy.
      destruct (extract_formats_miss_ok video_url None info w' Hmiss Hy)
        as (Hr & _ & _ & _ & Hh).
      rewrite (extract_with_fallback_anonymous_ok _ _ _ Hr). cbn [fst snd].
      split; [done |]. by apply new_calls_app.
  - intros e Hfirst.
    pose proof (extract_with_fallback_raise_cache _ _ _ Hfirst) as Hcache.
    set (w' := (extract_with_fallback video_url w).2) in *.
    assert (Hmiss : extraction_cache w' !! (video_url, None) = None).
    { rewrite Hcache. unfold extract_with_fallback in Hfirst.
      destruct (extract_formats video_url None w) as [[e0 | i] w1] eqn:E0; [| done].
      assert (H0 : (extract_formats video_url None w).1 = raise e0) by by rewrite E0.
      by destruct (extract_formats_raise_inv _ _ _ _ H0) as (Hm & _). }
    assert (H1 : history (extract_formats video_url None w').2 =
                   (history w' ++ [CallExtract video_url None])%list).
    { unfold extract_formats. rewrite Hmiss.
      by destruct (ydl_extract_info env w' video_url _). }
    pose proof (extract_with_fallback_grows video_url w') as Hg.
    unfold extract_with_fallback in *.
    destruct (extract_formats video_url None w') as [[e0 | i] w1]; cbn [snd] in H1.
    + pose proof (ensure_cookies_grows video_url w1) as (_ & _ & _ & _ & [k2 Hk2]).
      destruct (ensure_cookies video_url w1) as [[e1 | u] w2]; cbn [snd] in *.
      * exists k2. apply new_calls_app. rewrite Hk2, H1. by rewrite <- app_assoc.
      * pose proof (extract_formats_grows video_url (Some "cookies.txt") w2)
          as (_ & _ & _ & _ & [k3 Hk3]).
        destruct (extract_formats video_url (Some "cookies.txt") w2) as [[e2 | i2] w3];
          cbn [snd] in *; exists (k2 ++ k3)%list; apply new_calls_app;
          rewrite Hk3, Hk2, H1; by rewrite <- !app_assoc.
    + exists []. by apply new_calls_app.
Qed.

(** *** An extraction without url *)

Lemma on_quality_changed_idle (c : Client) (w : World) :
  opt_truthy (current_video_url c) = false → on_quality_changed c w = (c, w).
Proof. unfold on_quality_changed. by intros ->. Qed.

(** X18. An extraction that succeeds with an info that holds no url, or
    an empty one, replaces the session all the same: the info, the tiers
    and the selector are those of the new info and the url is the one
    found, if any. But no process is killed or started and the world is as
    before, so that a merged player of the video before keeps its handle;
    the console reports that there is no url to play. *)
Theorem on_extraction_done_without_url (mode : string) (info : Info)
    (c : Client) (w : World) :
  let video_url :=
    if has_key (i_original_url info) then i_original_url info
    else if has_key (i_webpage_url info) then i_webpage_url info else None in
  opt_truthy video_url = false →
  let c' := (on_extraction_done (ok (mode, info)) c w).1 in
  let w' := (on_extraction_done (ok (mode, info)) c w).2 in
  let tiers := available_buckets info in
  w' = w ∧
  player_process c' = player_process c ∧
  current_info c' = Some info ∧ current_video_url c' = video_url ∧
  qualities_available c' = tiers ∧ combo_items c' = tiers ∧ combo_index c' = 0 ∧
  ∃ line,
    console_output c' =
      (console_output c ++
         [line; "No URL to play."; "Available qualities: " +:+ str_join ", " tiers])%list.
Proof.
  cbv zeta. intros Hurl.
  assert (Hrun : ∃ c' w',
    on_extraction_done (ok (mode, info)) c w = (c', w') ∧
    w' = w ∧ player_process c' = player_process c ∧
    current_info c' = Some info ∧
    current_video_url c' =
      (if has_key (i_original_url info) then i_original_url info
       else if has_key (i_webpage_url info) then i_webpage_url info else None) ∧
    qualities_available c' = available_buckets info ∧
    combo_items c' = available_buckets info ∧ combo_index c' = 0 ∧
    ∃ line,
      console_output c' =
        (console_output c ++
           [line; "No URL to play.";
            "Available qualities: " +:+ str_join ", " (available_buckets info)])%list);
    [| by destruct Hrun as (c' & w' & -> & H)].
  unfold on_extraction_done, ok.
  set (video_url := if has_key (i_original_url info) then i_original_url info
                    else if has_key (i_webpage_url info) then i_webpage_url info
                    else None) in *.
  pose proof (available_buckets_nonempty info) as Hne.
  destruct (available_buckets info) as [| best tiers] eqn:Htiers; [done |]. clear Hne.
  set (c1 := set_qualities_available (best :: tiers) _).
  assert (Hclear : combo_clear c1 w = (set_combo [] (-1) c1, w)).
  { unfold combo_clear. destruct (combo_index c1 =? -1); [done |].
    by apply on_quality_changed_idle. }
  rewrite Hclear.
  set (c2 := set_combo [] (-1) c1).
  assert (Hq2 : qualities_available c2 = best :: tiers) by done.
  rewrite Hq2. cbn [foldl fst snd]. unfold combo_addItem at 2.
  assert (Hi2 : combo_items c2 = []) by done. rewrite Hi2.
  rewrite on_quality_changed_idle by done.
  set (c3 := set_combo [best] 0 c2).
  rewrite foldl_combo_addItem by done.
  set (c4 := set_combo (combo_items c3 ++ tiers)%list (combo_index c3) c3).
  assert (Hq4 : qualities_available c4 = best :: tiers) by done.
  rewrite Hq4. unfold combo_setCurrentIndex.
  assert (Hi4 : combo_items c4 = best :: tiers) by done.
  assert (Hx4 : combo_index c4 = 0) by done.
  rewrite Hi4, Hx4. cbn [length].
  replace ((0 <=? 0) && (0 <? Z.of_nat (S (length tiers)))) with true
    by (symmetry; apply andb_true_iff; split; [done | apply Z.ltb_lt; lia]).
  cbn [Z.eqb]. rewrite Hq4.
  rewrite launch_mpv_merged_idle by done.
  eexists _, _. split; [reflexivity |].
  split; [done |]. split; [done |]. split; [done |]. split; [done |].
  split; [done |]. split; [done |]. split; [done |].
  eexists. cbn. by rewrite <- !app_assoc.
Qed.

End Program.

(** ** The theorems at concrete inputs *)



(** C5 at a player that reports the offset [17.3]. *)
Lemma on_quality_changed_preserves_offset_witness :
  get_current_playback_time (env_answers (data_response "17.3")) empty_world "/tmp/mpvsocket"
    = 17.3%float ∧
  player_process (on_quality_changed (env_answers (data_response "17.3"))
                    playing_client empty_world).1 =
    Some (mkProcess "mpv"
            (merged_args (env_answers (data_response "17.3")) playing_client
               "720p" sample_url 17.3%float)) ∧
  "--start=17.3" ∈ merged_args (env_answers (data_response "17.3")) playing_client
                     "720p" sample_url 17.3%float.
Proof.
  assert (Ht : get_current_playback_time (env_answers (data_response "17.3"))
                 empty_world "/tmp/mpvsocket" = 17.3%float) by by vm_compute.
  split; [exact Ht |].
  destruct (on_quality_changed_preserves_offset (env_answers (data_response "17.3"))
              sample_url (mkProcess "mpv" []) 17.3%float playing_client empty_world
              eq_refl eq_refl eq_refl Ht) as (_ & Hp & Hin & _).
  split; [exact Hp | by apply Hin].
Defined.

(** C7 on a video with a video-only and an audio-only variant. *)
Lemma watch_separate_streams_witness :
  current_info playing_client = Some sample_info ∧
  info_truthy sample_info = true ∧
  ∃ fv fa,
    video_process (watch_separate_streams env_no_player playing_client empty_world).1 =
      Some (mkProcess "mpv"
              [ "--wid=4242"; "--no-audio"; "--osc"; "--cache=yes"; "--demuxer-thread=yes";
                "--input-ipc-server=/tmp/mpv_video"; f_url fv ]) ∧
    audio_process (watch_separate_streams env_no_player playing_client empty_world).1 =
      Some (mkProcess "mpv"
              [ "--no-video"; "--osc"; "--cache=yes"; "--demuxer-thread=yes";
                "--input-ipc-server=/tmp/mpv_audio"; f_url fa ]) ∧
    sync_timer (watch_separate_streams env_no_player playing_client empty_world).1 =
      Some 1000.
Proof.
  split; [reflexivity |]. split; [reflexivity |].
  destruct (watch_separate_streams_spec env_no_player sample_info playing_client
              empty_world eq_refl eq_refl) as [_ Hsep].
  destruct Hsep as (fv & fa & _ & _ & Hv & Ha & Ht & _).
  - exists video_only_format. split; [elem_of_list | split; reflexivity].
  - exists audio_only_format. split; [elem_of_list | split; reflexivity].
  - exists fv, fa. split; [exact Hv |]. split; [exact Ha | exact Ht].
Defined.

(** C7, the counterexample. The formats hold a video-only variant and an
    audio-only variant, but the video-only variant has an empty url: no
    separate process is started, the timer is not started, and the launch
    is the merged one after the fallback notice. *)
Lemma watch_separate_streams_empty_url_falls_back :
  current_info client_empty_url = Some info_empty_url ∧
  (∃ f, f ∈ default [] (i_formats info_empty_url) ∧ is_video_only f) ∧
  (∃ f, f ∈ default [] (i_formats info_empty_url) ∧ is_audio_only f) ∧
  video_process (watch_separate_streams env_no_player client_empty_url empty_world).1 = None ∧
  audio_process (watch_separate_streams env_no_player client_empty_url empty_world).1 = None ∧
  sync_timer (watch_separate_streams env_no_player client_empty_url empty_world).1 = None ∧
  watch_separate_streams env_no_player client_empty_url empty_world =
    launch_mpv_merged env_no_player (combo_currentText client_empty_url) 0%float
      (console_append "No separate streams found; fallback merged." client_empty_url)
      empty_world.
Proof.
  split; [reflexivity |].
  split; [exists video_only_without_url; split; [elem_of_list | reflexivity] |].
  split; [exists audio_only_format; split; [elem_of_list | reflexivity] |].
  by vm_compute.
Qed.

(** C3 at a channel backend out of reach. *)
Lemma get_channel_videos_caches_failure_witness :
  str_truthy sample_channel = true ∧
  channel_videos_cache empty_world !! (sample_channel, 20) = None ∧
  ydl_extract_flat env_no_player empty_world sample_channel = raise "network is unreachable" ∧
  (get_channel_videos env_no_player sample_channel 20
     (get_channel_videos env_no_player sample_channel 20 empty_world).2).1 = [] ∧
  new_calls (get_channel_videos env_no_player sample_channel 20 empty_world).2
    (get_channel_videos env_no_player sample_channel 20
       (get_channel_videos env_no_player sample_channel 20 empty_world).2).2 = [].
Proof.
  split; [reflexivity |]. split; [reflexivity |]. split; [reflexivity |].
  destruct (get_channel_videos_caches_failure env_no_player sample_channel 20
              "network is unreachable" empty_world eq_refl eq_refl eq_refl)
    as (_ & _ & _ & H2 & H3).
  split; [exact H2 | exact H3].
Defined.

(** C9 with [str] as Python prints the float. *)
Lemma save_cookies_to_file_float_expiry_witness :
  repr_float env_no_player 1700000000.5%float = "1700000000.5" ∧
  ∃ text line,
    files (save_cookies_to_file env_no_player [float_expiry_cookie] "cookies.txt"
             empty_world).2 !! "cookies.txt" = Some text ∧
    split_on "010" text = ["# Netscape HTTP Cookie File"; line; ""] ∧
    split_on "009" line =
      [".youtube.com"; "TRUE"; "/"; "TRUE"; "1700000000.5"; "SID"; "abc"].
Proof.
  split; [reflexivity |].
  destruct (save_cookies_to_file_float_expiry env_no_player empty_world eq_refl)
    as (text & line & Hf & Hl & Hs & _).
  by exists text, line.
Defined.

(** X1 at a backend that rejects anonymous extraction
    and accepts cookies: one backend call for two successful gets, two for
    two failed ones. *)
Lemma extract_formats_memoizes_success_witness :
  extraction_cache empty_world !! (sample_url, Some "cookies.txt") = None ∧
  extraction_cache empty_world !! (sample_url, None) = None ∧
  (let first := extract_formats env_no_player sample_url (Some "cookies.txt") empty_world in
   let second := extract_formats env_no_player sample_url (Some "cookies.txt") first.2 in
   second.1 = ok sample_info ∧
   new_calls empty_world second.2 = [CallExtract sample_url (Some "cookies.txt")]) ∧
  (let first := extract_formats env_no_player sample_url None empty_world in
   let second := extract_formats env_no_player sample_url None first.2 in
   extraction_cache first.2 = extraction_cache empty_world ∧
   new_calls empty_world second.2 =
     [CallExtract sample_url None; CallExtract sample_url None]).
Proof.
  split; [reflexivity |]. split; [reflexivity |]. split.
  - destruct (extract_formats_memoizes_success env_no_player sample_url
                (Some "cookies.txt") empty_world eq_refl) as [Hok _].
    destruct (Hok sample_info eq_refl) as (_ & H2 & _ & Hcalls).
    split; [exact H2 | exact Hcalls].
  - destruct (extract_formats_memoizes_success env_no_player sample_url
                None empty_world eq_refl) as [_ Hraise].
    destruct (Hraise "Sign in to confirm you are not a bot" eq_refl)
      as (_ & Hcache & _ & Hcalls).
    split; [exact Hcache | exact Hcalls].
Defined.

Lemma sid_cookie_fits : cookie_fits sid_cookie.
Proof. repeat split; discriminate. Qed.

Lemma session_cookie_fits : cookie_fits session_cookie.
Proof. repeat split; discriminate. Qed.

(** X2 at two cookies with an integer and an absent expiry time. *)
Lemma save_cookies_to_file_layout_witness :
  Forall cookie_fits [sid_cookie; session_cookie] ∧
  split_on "010" (cookie_file_text env_no_player [sid_cookie; session_cookie]) =
    [ "# Netscape HTTP Cookie File";
      str_join tab [".youtube.com"; "TRUE"; "/"; "TRUE"; "1700000000"; "SID"; "abc"];
      str_join tab ["www.youtube.com"; "FALSE"; "/"; "FALSE"; "0"; "PREF"; "f6=40000000"];
      "" ] ∧
  read_cookie_file (cookie_file_text env_no_player [sid_cookie; session_cookie]) =
    [(".youtube.com", "SID", "abc"); ("www.youtube.com", "PREF", "f6=40000000")].
Proof.
  assert (Hfits : Forall cookie_fits [sid_cookie; session_cookie]).
  { repeat constructor; [apply sid_cookie_fits | apply session_cookie_fits]. }
  split; [exact Hfits |].
  destruct (save_cookies_to_file_layout env_no_player [sid_cookie; session_cookie]
              "cookies.txt" empty_world Hfits) as (_ & Hlines & _ & Hread).
  split; [exact Hlines | exact Hread].
Defined.

(** The fallback protocol against a backend that rejects anonymous
    extraction and accepts cookies: with no cookie file the browser is
    called once, with a cookie file it is not called. *)
Example extract_with_fallback_without_cookie_file :
  let run := extract_with_fallback env_no_player sample_url empty_world in
  run.1 = ok ("cookies", sample_info) ∧
  new_calls empty_world run.2 =
    [ CallExtract sample_url None; CallPathExists "cookies.txt";
      CallBrowser sample_url; CallExtract sample_url (Some "cookies.txt") ] ∧
  files run.2 !! "cookies.txt" = Some (cookie_file_text env_no_player [sid_cookie]).
Proof. by vm_compute. Qed.

Example extract_with_fallback_with_cookie_file :
  let run := extract_with_fallback env_no_player sample_url world_with_cookie_file in
  run.1 = ok ("cookies", sample_info) ∧
  new_calls world_with_cookie_file run.2 =
    [ CallExtract sample_url None; CallPathExists "cookies.txt";
      CallExtract sample_url (Some "cookies.txt") ] ∧
  files run.2 !! "cookies.txt" = Some ("# Netscape HTTP Cookie File" +:+ nl).
Proof. by vm_compute. Qed.

(** A first extraction, from the client as built: the video is recorded,
    the selector is filled and [mpv] starts embedded at the first tier. *)
Example start_extraction_first_video :
  let run := start_extraction env_no_player sample_url (init_client 4242) empty_world in
  current_video_url run.1 = Some sample_url ∧
  qualities_available run.1 = ["1080p"; "720p60"; "720p"] ∧
  combo_items run.1 = ["1080p"; "720p60"; "720p"] ∧
  combo_currentText run.1 = "1080p" ∧
  player_process run.1 =
    Some (mkProcess "mpv"
            [ "--wid=4242"; "--osc"; "--cache=yes"; "--demuxer-thread=yes";
              "--ytdl-format=bestvideo[height>=1080]+bestaudio/best";
              "--log-file=mpvlog.txt"; "--msg-level=all=v";
              "--input-ipc-server=/tmp/mpvsocket"; sample_url ]) ∧
  console_output run.1 =
    [ "Extracting info for: " +:+ sample_url;
      "Extraction succeeded with cookies fallback.";
      "Launching mpv with '1080p' at 0.0s";
      "Available qualities: 1080p, 720p60, 720p" ].
Proof. by vm_compute. Qed.

(** A failed extraction while a video plays: one more console message,
    the session as before. *)
Example start_extraction_offline :
  let run := start_extraction env_offline "https://youtu.be/other" playing_client empty_world in
  session_fields run.1 = session_fields playing_client ∧
  console_output run.1 =
    [ "Extracting info for: https://youtu.be/other";
      "Extraction error: browser closed unexpectedly" ] ∧
  new_calls empty_world run.2 =
    [ CallExtract "https://youtu.be/other" None; CallPathExists "cookies.txt";
      CallBrowser "https://youtu.be/other" ].
Proof. by vm_compute. Qed.

(** A quality change with no player in reach restarts from the beginning. *)
Example on_quality_changed_no_player :
  player_process (on_quality_changed env_no_player playing_client empty_world).1 =
    Some (mkProcess "mpv"
            [ "--wid=4242"; "--osc"; "--cache=yes"; "--demuxer-thread=yes";
              "--ytdl-format=bestvideo[height>=720][height<1080]+bestaudio/best";
              "--log-file=mpvlog.txt"; "--msg-level=all=v";
              "--input-ipc-server=/tmp/mpvsocket"; sample_url ]).
Proof. by vm_compute. Qed.

(** The empty list and a list of audio-only variants give the fallback. *)
Example available_buckets_fallback :
  available_buckets (info_of_formats []) = ["360p"] ∧
  available_buckets (info_of_formats [audio_only_format]) = ["360p"] ∧
  available_buckets (info_of_formats [variant 2160 60]) =
    ["2k"; "1080p60"; "1080p"; "720p60"].
Proof. by vm_compute. Qed.

(** ** The further theorems at concrete inputs *)

(** X5 at a response that arrives in three chunks, with more behind. *)
Lemma recv_loop_framing_witness :
  Forall (λ chunk, chunk ≠ [] ∧ has_newline chunk = false)
    [list_byte_of_string "{"; list_byte_of_string "}"] ∧
  recv_loop [ inr (list_byte_of_string "{"); inr (list_byte_of_string "}");
              inr (list_byte_of_string nl); inr (list_byte_of_string "{}") ] [] =
    ok (list_byte_of_string ("{}" +:+ nl)).
Proof.
  assert (Hall : Forall (λ chunk, chunk ≠ [] ∧ has_newline chunk = false)
                   [list_byte_of_string "{"; list_byte_of_string "}"]).
  { repeat constructor; discriminate. }
  split; [exact Hall |].
  destruct (recv_loop_framing [list_byte_of_string "{"; list_byte_of_string "}"] [] Hall)
    as (Hlast & _).
  apply (Hlast (list_byte_of_string nl) [inr (list_byte_of_string "{}")]);
    [discriminate | reflexivity].
Defined.

(** X7 on a video with a video-only and an audio-only variant, on Linux. *)
Lemma watch_separate_streams_usable_witness :
  current_info playing_client = Some sample_info ∧
  info_truthy sample_info = true ∧
  ∃ fv fa,
    new_calls empty_world
      (watch_separate_streams env_no_player playing_client empty_world).2 =
      [ CallSystem "pkill mpv";
        CallStart "mpv"
          [ "--wid=4242"; "--no-audio"; "--osc"; "--cache=yes"; "--demuxer-thread=yes";
            "--input-ipc-server=/tmp/mpv_video"; f_url fv ];
        CallStart "mpv"
          [ "--no-video"; "--osc"; "--cache=yes"; "--demuxer-thread=yes";
            "--input-ipc-server=/tmp/mpv_audio"; f_url fa ] ].
Proof.
  split; [reflexivity |]. split; [reflexivity |].
  destruct (watch_separate_streams_usable env_no_player sample_info playing_client
              empty_world eq_refl eq_refl) as [Hsep _].
  destruct Hsep as (fv & fa & _ & _ & _ & _ & _ & _ & Hcalls & _).
  - exists video_only_format. split; [elem_of_list | split; reflexivity].
  - exists audio_only_format. split; [elem_of_list | split; reflexivity].
  - exists fv, fa. exact Hcalls.
Defined.

(** X9 from the playback page. *)
Lemma go_back_reaches_home_witness :
  0 ≤ stacked_index playing_client ≤ 2 ∧
  stacked_index (go_back playing_client) = 0 ∧
  stacked_index (go_back (go_back playing_client)) = 0.
Proof.
  assert (Hpage : 0 ≤ stacked_index playing_client ≤ 2) by (cbn; lia).
  split; [exact Hpage |].
  destruct (go_back_reaches_home playing_client Hpage) as (_ & _ & _ & H1 & H2).
  split; [apply H1; discriminate | exact H2].
Defined.

(** X10 at a listing of one video and at a listing that meets the entry
    whose thumbnail has no url. *)
Lemma get_channel_videos_listing_witness :
  str_truthy sample_channel = true ∧
  channel_videos_cache empty_world !! (sample_channel, 1) = None ∧
  channel_videos_cache empty_world !! (sample_channel, 20) = None ∧
  ydl_extract_flat env_listing empty_world sample_channel =
    inr (mkChannelData (Some listed_entries)) ∧
  (length (get_channel_videos env_listing sample_channel 1 empty_world).1 ≤ 1)%nat ∧
  (∀ v, v ∈ (get_channel_videos env_listing sample_channel 20 empty_world).1 →
        str_truthy (v_videoId v) = true).
Proof.
  split; [reflexivity |]. split; [reflexivity |]. split; [reflexivity |].
  split; [reflexivity |]. split.
  - destruct (get_channel_videos_listing env_listing sample_channel 1
                (mkChannelData (Some listed_entries)) empty_world eq_refl eq_refl eq_refl)
      as (Hlen & _).
    exact Hlen.
  - destruct (get_channel_videos_listing env_listing sample_channel 20
                (mkChannelData (Some listed_entries)) empty_world eq_refl eq_refl eq_refl)
      as (_ & _ & _ & Hid & _).
    exact Hid.
Defined.

(** X11 at a first search. *)
Lemma search_youtube_memoizes_success_witness :
  (∅ : gmap (string * Z) (list Video)) !! ("cats", 20) = None ∧
  new_calls empty_world (search_youtube env_listing "cats" 20 ∅ empty_world).2 =
    [CallExtractFlat "ytsearch20:cats"] ∧
  store (search_youtube env_listing "cats" 20 ∅ empty_world).2 = store empty_world.
Proof.
  assert (Hmiss : (∅ : gmap (string * Z) (list Video)) !! ("cats", 20) = None)
    by reflexivity.
  split; [exact Hmiss |].
  destruct (search_youtube_memoizes_success env_listing "cats" 20 ∅ empty_world Hmiss)
    as (Hcalls & Hstore & _).
  split; [exact Hcalls | exact Hstore].
Defined.

(** X15 at a first extraction, and at one made while a video plays. *)
Lemma on_extraction_done_success_witness :
  (if has_key (i_original_url sample_info) then i_original_url sample_info
   else if has_key (i_webpage_url sample_info) then i_webpage_url sample_info else None)
    = Some sample_url ∧
  str_truthy sample_url = true ∧
  length (starts (new_calls empty_world
            (on_extraction_done env_no_player (ok ("no_cookies", sample_info))
               (init_client 4242) empty_world).2)) = 1%nat ∧
  length (starts (new_calls empty_world
            (on_extraction_done env_no_player (ok ("no_cookies", sample_info))
               playing_client empty_world).2)) = 3%nat.
Proof.
  split; [reflexivity |]. split; [reflexivity |]. split.
  - destruct (on_extraction_done_success env_no_player "no_cookies" sample_url sample_info
                (init_client 4242) empty_world eq_refl eq_refl)
      as (_ & _ & _ & _ & _ & _ & _ & _ & _ & _ & _ & Hn).
    exact Hn.
  - destruct (on_extraction_done_success env_no_player "no_cookies" sample_url sample_info
                playing_client empty_world eq_refl eq_refl)
      as (_ & _ & _ & _ & _ & _ & _ & _ & _ & _ & _ & Hn).
    exact Hn.
Defined.

(** X18 at an info without url, while a video plays. *)
Lemma on_extraction_done_without_url_witness :
  opt_truthy
    (if has_key (i_original_url info_without_url) then i_original_url info_without_url
     else if has_key (i_webpage_url info_without_url) then i_webpage_url info_without_url
     else None) = false ∧
  (on_extraction_done env_no_player (ok ("no_cookies", info_without_url))
     playing_client empty_world).2 = empty_world ∧
  player_process (on_extraction_done env_no_player (ok ("no_cookies", info_without_url))
                    playing_client empty_world).1 = player_process playing_client.
Proof.
  split; [reflexivity |].
  destruct (on_extraction_done_without_url env_no_player "no_cookies" info_without_url
              playing_client empty_world eq_refl) as (Hw & Hp & _).
  split; [exact Hw | exact Hp].
Defined.

(** A search against a backend that lists three entries, one of them
    without url: two cells, on the home page, and the results in the
    cache. *)
Example do_search_two_results :
  let sh := mkShell playing_client "cats" [] ∅ empty_world in
  let sh' := do_search env_listing sh in
  home_grid sh' =
    [ mkCell (mkVideo "First" "https://www.youtube.com/watch?v=v1" "https://i.example/v1.jpg")
        0 0;
      mkCell (mkVideo "Unknown" "https://www.youtube.com/watch?v=v2" "") 0 1 ] ∧
  stacked_index (sh_client sh') = 0 ∧
  new_calls empty_world (sh_world sh') = [CallExtractFlat "ytsearch20:cats"] ∧
  console_output (sh_client sh') = ["Searching: cats"; "Got 2 results."].
Proof. by vm_compute. Qed.

(** A search whose listing holds an entry whose thumbnail has no url:
    the console shows the [KeyError] as Python prints it, the grid is
    empty and the page is the one shown before. *)
Example do_search_thumbnail_without_url :
  let sh := mkShell playing_client "dogs" [] ∅ empty_world in
  let sh' := do_search env_listing sh in
  console_output (sh_client sh') = ["Searching: dogs"; "Search error: 'url'"] ∧
  home_grid sh' = [] ∧
  stacked_index (sh_client sh') = 1 ∧
  search_cache sh' = ∅ ∧
  new_calls empty_world (sh_world sh') = [CallExtractFlat "ytsearch20:dogs"].
Proof. by vm_compute. Qed.

(** The channel listing stops at the entry whose thumbnail has no url and
    keeps the two videos before it. *)
Example get_channel_videos_partial :
  (get_channel_videos env_listing sample_channel 20 empty_world).1 =
    [ mkVideo "First" "https://www.youtube.com/watch?v=v1" "https://i.example/v1.jpg";
      mkVideo "Unknown" "https://www.youtube.com/watch?v=v2" "" ].
Proof. by vm_compute. Qed.
